(** * NeoStats booking assistant: a shallow embedding of the booking core

  The development follows the Python sources module by module:
  [time_utils.py], [booking_logic.py], [bookings_store.py],
  [slot_engine.py], [explainability.py], [pricing.py], [clarifier.py]
  and two fragments of [app.py].

  Modelling conventions.
  - Text is a [string] of ASCII characters.  Codes above 127 are kept as
    opaque symbols: they are neither letters, digits nor white space and
    [lower]/[upper] leave them alone.
  - A Python value that may be [None] is an [option]; Python truthiness of
    an optional string ([if not x]) is [truthy]: [None] and the empty
    string are both falsy.
  - A Python [float] is an IEEE 754 double ([Float64], on the Standard
    Library's [SpecFloat]); a decimal literal of the sources denotes the
    nearest double, and [round(x, 2)] rounds the exact value of [x] to
    two decimals, ties to even, and returns the nearest double.  The
    values [explainability.py] and [pricing.py] return are those of
    [Explainability64] and [Pricing64].  The same two computations over
    exact rationals ([Explainability], [Pricing]) carry the results on
    ranges and on order, and the confidences the extraction assigns are
    written as the decimal literals of the source.
  - Exceptions are values of the error monad [exc].
  - [datetime.now()], [uuid4()] and the contents of the SQLite file are
    inputs of the model: a reference day, fresh identifiers and a
    [Store]. *)

From Stdlib Require Import String Ascii List ZArith QArith Qround Qminmax Bool Lia.
From Stdlib Require Import DecimalString.
From Stdlib Require Import SpecFloat.
Import ListNotations.

Local Open Scope string_scope.
Local Open Scope list_scope.
Local Open Scope nat_scope.

Set Implicit Arguments.

(* ===================================================================== *)
(** ** Python strings *)
(* ===================================================================== *)

Module PyStr.

Definition code (c : ascii) : nat := nat_of_ascii c.

Definition in_range (lo hi : nat) (c : ascii) : bool :=
  (lo <=? code c) && (code c <=? hi).

Definition is_digit (c : ascii) : bool := in_range 48 57 c.
Definition is_lower (c : ascii) : bool := in_range 97 122 c.
Definition is_upper (c : ascii) : bool := in_range 65 90 c.
Definition is_alpha (c : ascii) : bool := is_lower c || is_upper c.

(** [\w]: letters, digits and the underscore.  Python's classes [\w],
    [\d], [\s] and its [lower] and [upper] also know the characters
    beyond ASCII; the classes here are theirs on ASCII text
    ([Formats.ascii_text]). *)
Definition is_word (c : ascii) : bool :=
  is_alpha c || is_digit c || (code c =? 95).

(** [\s] and [str.isspace] on ASCII: TAB, LF, VT, FF, CR, the four
    separators FS, GS, RS, US and the space. *)
Definition is_space (c : ascii) : bool :=
  in_range 9 13 c || in_range 28 31 c || (code c =? 32).

Definition to_lower (c : ascii) : ascii :=
  if is_upper c then ascii_of_nat (code c + 32) else c.

Definition to_upper (c : ascii) : ascii :=
  if is_lower c then ascii_of_nat (code c - 32) else c.

Fixpoint map_chars (f : ascii -> ascii) (s : string) : string :=
  match s with
  | EmptyString => EmptyString
  | String c s' => String (f c) (map_chars f s')
  end.

(** [s.lower()] and [s.upper()] *)
Definition lower (s : string) : string := map_chars to_lower s.
Definition upper (s : string) : string := map_chars to_upper s.

(** [p in s] for strings: [p] occurs as a contiguous substring of [s]. *)
Fixpoint contains (p s : string) : bool :=
  prefix p s ||
  match s with
  | EmptyString => false
  | String _ s' => contains p s'
  end.

(** [any(p in s for p in ps)] *)
Definition any_in (ps : list string) (s : string) : bool :=
  existsb (fun p => contains p s) ps.

(** [x in xs] for a list or a set of strings *)
Definition mem (x : string) (xs : list string) : bool :=
  existsb (String.eqb x) xs.

(** [s.lstrip()] *)
Fixpoint lstrip (s : string) : string :=
  match s with
  | String c s' => if is_space c then lstrip s' else s
  | EmptyString => EmptyString
  end.

(** [s.rstrip()] *)
Fixpoint rstrip (s : string) : string :=
  match s with
  | EmptyString => EmptyString
  | String c s' =>
      match rstrip s' with
      | EmptyString => if is_space c then EmptyString else String c EmptyString
      | r => String c r
      end
  end.

(** [s.strip()] *)
Definition strip (s : string) : string := rstrip (lstrip s).

(** [s.lstrip("0")] *)
Fixpoint lstrip_zeros (s : string) : string :=
  match s with
  | String c s' => if Ascii.eqb c "0" then lstrip_zeros s' else s
  | EmptyString => EmptyString
  end.

(** [sep.join(xs)] *)
Fixpoint join (sep : string) (xs : list string) : string :=
  match xs with
  | [] => ""
  | [x] => x
  | x :: rest => x ++ sep ++ join sep rest
  end.

(** [str(n)] and [int(s)] for naturals written in decimal. *)
Definition str_of_N (n : N) : string :=
  NilZero.string_of_uint (N.to_uint n).

Definition int_of_digits (s : string) : N :=
  match NilZero.uint_of_string s with
  | Some u => N.of_uint u
  | None => 0%N
  end.

(** ["%02d" % n] and ["%04d" % n] *)
Definition pad2 (n : N) : string :=
  if (n <? 10)%N then "0" ++ str_of_N n else str_of_N n.

Definition pad4 (n : N) : string :=
  if (n <? 10)%N then "000" ++ str_of_N n
  else if (n <? 100)%N then "00" ++ str_of_N n
  else if (n <? 1000)%N then "0" ++ str_of_N n
  else str_of_N n.

(** Truthiness of an optional string: [None] and [""] are falsy. *)
Definition truthy (o : option string) : bool :=
  match o with
  | Some (String _ _) => true
  | _ => false
  end.

Definition nonempty (s : string) : bool :=
  match s with
  | EmptyString => false
  | String _ _ => true
  end.

End PyStr.

(* ===================================================================== *)
(** ** Exceptions *)
(* ===================================================================== *)

Inductive PyError : Type :=
| ValueError (msg : string)
| OverflowError (msg : string)
| StoreError (msg : string).      (* sqlite3.Error raised by the store *)

Inductive exc (A : Type) : Type :=
| Ok (a : A)
| Raise (e : PyError).

Arguments Ok {A} a.
Arguments Raise {A} e.

Definition bind {A B : Type} (m : exc A) (k : A -> exc B) : exc B :=
  match m with
  | Ok a => k a
  | Raise e => Raise e
  end.

Declare Scope exc_scope.
Delimit Scope exc_scope with exc.
Notation "x <- m ;; k" := (bind m (fun x => k))
  (at level 61, m at next level, right associativity) : exc_scope.

(** [try: body / except Exception: handler] *)
Definition try_except {A : Type} (body : exc A) (handler : exc A) : exc A :=
  match body with
  | Ok a => Ok a
  | Raise _ => handler
  end.

(* ===================================================================== *)
(** ** Regular expressions, as [re.search] runs them *)
(* ===================================================================== *)

Module Re.
Import PyStr.

(** The fragment of [re] syntax the sources use.  Repetition is greedy
    and ranges over a character class; alternation is ordered. *)
Inductive regex : Type :=
| Eps
| Chr (c : ascii)
| Cls (p : ascii -> bool)
| Cat (r1 r2 : regex)
| Alt (r1 r2 : regex)
| Rep (p : ascii -> bool) (lo : nat) (hi : option nat)
| Opt (r : regex)
| Grp (n : nat) (r : regex)
| WordB.

(** Captured groups, most recent first. *)
Definition captures : Type := list (nat * string).

(** A continuation receives the character just consumed, the remaining
    input and the groups captured so far. *)
Definition kont (R : Type) : Type :=
  option ascii -> string -> captures -> option R.

Definition or_else {R : Type} (a b : option R) : option R :=
  match a with
  | Some x => Some x
  | None => b
  end.

Definition head (s : string) : option ascii :=
  match s with
  | String c _ => Some c
  | EmptyString => None
  end.

Definition word_at (o : option ascii) : bool :=
  match o with
  | Some c => is_word c
  | None => false
  end.

Definition room (hi : option nat) : bool :=
  match hi with
  | Some 0 => false
  | _ => true
  end.

(** [p{lo,hi}], greedy: take one more character while allowed, and give
    characters back one at a time when the rest of the pattern fails. *)
Fixpoint rep_cls {R : Type} (p : ascii -> bool) (lo : nat) (hi : option nat)
    (prev : option ascii) (s : string) (cs : captures) (k : kont R)
    {struct s} : option R :=
  let stop := if lo =? 0 then k prev s cs else None in
  match s with
  | String c s' =>
      if p c && room hi
      then or_else
             (rep_cls p (Nat.pred lo) (option_map Nat.pred hi) (Some c) s' cs k)
             stop
      else stop
  | EmptyString => stop
  end.

(** Backtracking matcher anchored at the current position. *)
Fixpoint run {R : Type} (r : regex) (prev : option ascii) (s : string)
    (cs : captures) (k : kont R) {struct r} : option R :=
  match r with
  | Eps => k prev s cs
  | Chr c =>
      match s with
      | String c' s' => if Ascii.eqb c c' then k (Some c') s' cs else None
      | EmptyString => None
      end
  | Cls p =>
      match s with
      | String c' s' => if p c' then k (Some c') s' cs else None
      | EmptyString => None
      end
  | Cat r1 r2 =>
      run r1 prev s cs (fun prev' s' cs' => run r2 prev' s' cs' k)
  | Alt r1 r2 => or_else (run r1 prev s cs k) (run r2 prev s cs k)
  | Rep p lo hi => rep_cls p lo hi prev s cs k
  | Opt r1 => or_else (run r1 prev s cs k) (k prev s cs)
  | Grp n r1 =>
      run r1 prev s cs
        (fun prev' s' cs' =>
           k prev' s' ((n, substring 0 (String.length s - String.length s') s) :: cs'))
  | WordB =>
      if xorb (word_at prev) (word_at (head s)) then k prev s cs else None
  end.

(** The result of a successful match: the groups and the unread input. *)
Definition accept : kont (captures * string) :=
  fun _ rest cs => Some (cs, rest).

(** [re.match]: anchored at the start of the string. *)
Definition match_ (r : regex) (s : string) : option (captures * string) :=
  run r None s [] accept.

(** [re.search]: the leftmost position at which the pattern matches. *)
Fixpoint search_from (r : regex) (prev : option ascii) (s : string)
    : option captures :=
  match run r prev s [] accept with
  | Some (cs, _) => Some cs
  | None =>
      match s with
      | String c s' => search_from r (Some c) s'
      | EmptyString => None
      end
  end.

Definition search (r : regex) (s : string) : option captures :=
  search_from r None s.

(** [m.group(n)]; [None] when the group took no part in the match. *)
Fixpoint group (n : nat) (cs : captures) : option string :=
  match cs with
  | [] => None
  | (i, v) :: rest => if i =? n then Some v else group n rest
  end.

(** A literal word. *)
Fixpoint Lit (w : string) : regex :=
  match w with
  | EmptyString => Eps
  | String c EmptyString => Chr c
  | String c w' => Cat (Chr c) (Lit w')
  end.

(** A sequence of patterns. *)
Fixpoint Seq (rs : list regex) : regex :=
  match rs with
  | [] => Eps
  | [r] => r
  | r :: rest => Cat r (Seq rest)
  end.

(** Ordered alternatives. *)
Fixpoint OneOf (rs : list regex) : regex :=
  match rs with
  | [] => Cls (fun _ => false)
  | [r] => r
  | r :: rest => Alt r (OneOf rest)
  end.

Definition digit : regex := Cls is_digit.
Definition between (lo hi : ascii) : regex :=
  Cls (fun c => in_range (code lo) (code hi) c).

End Re.

(* ===================================================================== *)
(** ** time_utils.py *)
(* ===================================================================== *)

Module TimeUtils.
Import PyStr Re.
Local Open Scope exc_scope.

(** [datetime.time(hour=h, minute=m)] *)
Record time_of_day : Type := { hour : N; minute : N }.

Definition make_time (h m : N) : exc time_of_day :=
  if (23 <? h)%N then Raise (ValueError "hour must be in 0..23")
  else if (59 <? m)%N then Raise (ValueError "minute must be in 0..59")
  else Ok {| hour := h; minute := m |}.

(** [t.strftime("%I:%M %p")]: twelve-hour clock, both numbers padded to
    two digits. *)
Definition strftime_I_M_p (t : time_of_day) : string :=
  let h12 := if (hour t mod 12 =? 0)%N then 12%N else (hour t mod 12)%N in
  pad2 h12 ++ ":" ++ pad2 (minute t) ++ " "
    ++ (if (hour t <? 12)%N then "AM" else "PM").

(** [\b(\d{1,2})(?::(\d{2}))?\s*(am|pm)\b] *)
Definition re_12h : regex :=
  Seq [ WordB;
        Grp 1 (Rep is_digit 1 (Some 2));
        Opt (Cat (Chr ":") (Grp 2 (Rep is_digit 2 (Some 2))));
        Rep is_space 0 None;
        Grp 3 (Alt (Lit "am") (Lit "pm"));
        WordB ].

(** [\b([01]?\d|2[0-3]):([0-5]\d)\b] *)
Definition re_24h : regex :=
  Seq [ WordB;
        Grp 1 (Alt (Cat (Opt (between "0" "1")) digit)
                   (Cat (Chr "2") (between "0" "3")));
        Chr ":";
        Grp 2 (Cat (between "0" "5") digit);
        WordB ].

Definition group_or (n : nat) (cs : captures) (dflt : string) : string :=
  match group n cs with
  | Some v => v
  | None => dflt
  end.

Definition normalize_time (text : string) : exc (option string) :=
  if negb (nonempty text) then Ok None
  else
    let s := lower text in
    match search re_12h s with
    | Some m =>
        let hour := int_of_digits (group_or 1 m "") in
        let minute :=
          int_of_digits
            (match group 2 m with
             | Some (String c r) => String c r
             | _ => "0"
             end) in
        let period := lower (group_or 3 m "") in
        let hour :=
          if (period =? "pm")%string && negb (hour =? 12)%N
          then (hour + 12)%N else hour in
        let hour :=
          if (period =? "am")%string && (hour =? 12)%N then 0%N else hour in
        t <- make_time hour minute ;;
        Ok (Some (lstrip_zeros (strftime_I_M_p t)))
    | None =>
        match search re_24h s with
        | Some m2 =>
            let hour := int_of_digits (group_or 1 m2 "") in
            let minute := int_of_digits (group_or 2 m2 "") in
            t <- make_time hour minute ;;
            Ok (Some (lstrip_zeros (strftime_I_M_p t)))
        | None => Ok None
        end
    end.

End TimeUtils.

(* ===================================================================== *)
(** ** Calendar dates ([datetime.date]) *)
(* ===================================================================== *)

Module Dates.
Import PyStr Re.
Local Open Scope exc_scope.

Local Open Scope N_scope.

Record pydate : Type := { year : N; month : N; day : N }.

Definition is_leap (y : N) : bool :=
  (y mod 4 =? 0) && (negb (y mod 100 =? 0) || (y mod 400 =? 0)).

Definition days_in_month (y m : N) : N :=
  if m =? 2 then (if is_leap y then 29 else 28)
  else if (m =? 4) || (m =? 6) || (m =? 9) || (m =? 11) then 30
  else 31.

(** [datetime.date(y, m, d)] accepts years 1 to 9999 and real days. *)
Definition make_date (y m d : N) : exc pydate :=
  if (1 <=? y) && (y <=? 9999) && (1 <=? m) && (m <=? 12)
     && (1 <=? d) && (d <=? days_in_month y m)
  then Ok {| year := y; month := m; day := d |}
  else Raise (ValueError "date value out of range").

(** [d.isoformat()] *)
Definition isoformat (d : pydate) : string :=
  pad4 (year d) ++ "-" ++ pad2 (month d) ++ "-" ++ pad2 (day d).

(** [d + timedelta(days=1)] *)
Definition add_one_day (d : pydate) : exc pydate :=
  if day d <? days_in_month (year d) (month d)
  then Ok {| year := year d; month := month d; day := day d + 1 |}
  else if month d <? 12
  then Ok {| year := year d; month := month d + 1; day := 1 |}
  else if year d <? 9999
  then Ok {| year := year d + 1; month := 1; day := 1 |}
  else Raise (OverflowError "date value out of range").

(** The directives of [strptime], as the regular expressions the
    library compiles them to. *)
Definition dir_d : regex :=          (* %d *)
  OneOf [ Cat (Chr "3") (between "0" "1");
          Cat (between "1" "2") digit;
          Cat (Chr "0") (between "1" "9");
          between "1" "9";
          Cat (Chr " ") (between "1" "9") ].

Definition dir_m : regex :=          (* %m *)
  OneOf [ Cat (Chr "1") (between "0" "2");
          Cat (Chr "0") (between "1" "9");
          between "1" "9" ].

Definition dir_Y : regex := Seq [digit; digit; digit; digit].   (* %Y *)
Definition dir_y : regex := Seq [digit; digit].                 (* %y *)

Inductive date_format : Type :=
| fmt_d_m_Y        (* "%d/%m/%Y" *)
| fmt_d_m_y        (* "%d/%m/%y" *)
| fmt_Y_m_d.       (* "%Y-%m-%d" *)

(** Groups: 1 is the day, 2 the month, 3 the year. *)
Definition format_regex (f : date_format) : regex :=
  match f with
  | fmt_d_m_Y => Seq [Grp 1 dir_d; Chr "/"; Grp 2 dir_m; Chr "/"; Grp 3 dir_Y]
  | fmt_d_m_y => Seq [Grp 1 dir_d; Chr "/"; Grp 2 dir_m; Chr "/"; Grp 3 dir_y]
  | fmt_Y_m_d => Seq [Grp 3 dir_Y; Chr "-"; Grp 2 dir_m; Chr "-"; Grp 1 dir_d]
  end.

(** A two-digit year: 69 to 99 are in the 1900s, 0 to 68 in the 2000s. *)
Definition expand_year (f : date_format) (y : N) : N :=
  match f with
  | fmt_d_m_y => if y <=? 68 then y + 2000 else y + 1900
  | _ => y
  end.

Definition field (n : nat) (cs : captures) : N :=
  match group n cs with
  | Some v => int_of_digits (strip v)
  | None => 0
  end.

(** [datetime.strptime(s, fmt).date()] *)
Definition strptime (s : string) (f : date_format) : exc pydate :=
  match match_ (format_regex f) s with
  | None => Raise (ValueError "time data does not match format")
  | Some (cs, rest) =>
      if nonempty rest then Raise (ValueError "unconverted data remains")
      else make_date (expand_year f (field 3 cs)) (field 2 cs) (field 1 cs)
  end.

End Dates.

(* ===================================================================== *)
(** ** bookings_store.py (the SQLite backend) *)
(* ===================================================================== *)

Module BookingsStore.
Import PyStr.

(** The free-form [meta] record of a booking. *)
Definition Meta : Type := list (string * string).

(** A row of the [bookings] table; every column but [id] may be NULL. *)
Record Booking : Type := {
  id : string;
  service : option string;
  date : option string;
  time : option string;
  location : option string;
  created_at : string;
  meta : Meta
}.

(** The database file.  [Offline] stands for a file that cannot be
    opened or queried: every call then raises [sqlite3.Error]. *)
Inductive Store : Type :=
| Online (rows : list Booking)
| Offline.

Definition unavailable : PyError := StoreError "unable to open database file".

(** The argument dictionary of [add_booking]. *)
Record NewBooking : Type := {
  nb_service : option string;
  nb_date : option string;
  nb_time : option string;
  nb_location : option string;
  nb_meta : Meta
}.

Definition opt_eqb (a b : option string) : bool :=
  match a, b with
  | Some x, Some y => String.eqb x y
  | None, None => true
  | _, _ => false
  end.

(** One clause of the WHERE part: a falsy filter adds no clause; a
    column that is NULL equals nothing. *)
Definition clause (filter column : option string) : bool :=
  if truthy filter then opt_eqb filter column else true.

Definition selected (fs fd ft : option string) (b : Booking) : bool :=
  clause fs (service b) && clause fd (date b) && clause ft (time b).

Definition find_bookings (db : Store) (fs fd ft : option string)
    : exc (list Booking) :=
  match db with
  | Offline => Raise unavailable
  | Online rows => Ok (filter (selected fs fd ft) rows)
  end.

(** [load_bookings]: the rows of the table.  The query sorts them by
    [created_at]; the model keeps the order of the table, the order in
    which [add_booking] inserted them, and the callers modelled here
    look a row up by its [id], the primary key. *)
Definition load_bookings (db : Store) : exc (list Booking) :=
  match db with
  | Offline => Raise unavailable
  | Online rows => Ok rows
  end.

Definition has_id (i : string) (b : Booking) : bool := String.eqb (id b) i.

(** [add_booking]; [booking_id] is the value [generate_booking_id()]
    draws and [now] the time stamp.  [id] is the primary key of the
    table, so a second row with the same [id] is refused.  The result is
    the returned entry and the store after the call. *)
Definition add_booking (db : Store) (booking_id now : string)
    (booking : NewBooking) : exc Booking * Store :=
  match db with
  | Offline => (Raise unavailable, db)
  | Online rows =>
      if existsb (has_id booking_id) rows
      then (Raise (StoreError "UNIQUE constraint failed: bookings.id"), db)
      else
        let entry :=
          {| id := booking_id;
             service := nb_service booking;
             date := nb_date booking;
             time := nb_time booking;
             location := nb_location booking;
             created_at := now;
             meta := nb_meta booking |} in
        (Ok entry, Online (rows ++ [entry]))
  end.

(** [remove_booking]: DELETE ... WHERE id = ?; true when a row went. *)
Definition remove_booking (db : Store) (booking_id : string)
    : exc bool * Store :=
  match db with
  | Offline => (Raise unavailable, db)
  | Online rows =>
      let kept := filter (fun b => negb (has_id booking_id b)) rows in
      (Ok (negb (List.length kept =? List.length rows)), Online kept)
  end.

End BookingsStore.

(* ===================================================================== *)
(** ** slot_engine.py *)
(* ===================================================================== *)

Module SlotEngine.
Import PyStr BookingsStore.
Local Open Scope exc_scope.

(** The catalog of offered times, in its declared order. *)
Definition AVAILABLE_SLOTS_items : list (string * list string) :=
  [ ("spa", ["9:00 AM"; "10:00 AM"; "11:00 AM"; "4:00 PM"]);
    ("salon", ["10:00 AM"; "12:00 PM"; "3:00 PM"]);
    ("facial", ["10:00 AM"; "11:00 AM"; "3:00 PM"]);
    ("dental", ["9:00 AM"; "11:00 AM"; "2:00 PM"]);
    ("doctor", ["9:00 AM"; "1:00 PM"; "6:00 PM"]);
    ("head spa", ["10:00 AM"; "2:00 PM"]);
    ("hotel", ["Anytime"]);
    ("travel", ["Morning"; "Evening"]) ].

Fixpoint dict_get {V : Type} (d : list (string * V)) (k : string)
    : option V :=
  match d with
  | [] => None
  | (k', v) :: rest => if String.eqb k' k then Some v else dict_get rest k
  end.

(** [AVAILABLE_SLOTS[service]], [None] when the key is absent. *)
Definition AVAILABLE_SLOTS (service : string) : option (list string) :=
  dict_get AVAILABLE_SLOTS_items service.

(** [s != time] between a catalog entry and the requested time. *)
Definition differs (tm : option string) (s : string) : bool :=
  negb (opt_eqb (Some s) tm).

Definition is_empty {A : Type} (l : list A) : bool :=
  match l with
  | [] => true
  | _ => false
  end.

Definition check_availability (db : Store) (service : string)
    (date time : option string) : exc (bool * list string) :=
  match AVAILABLE_SLOTS service with
  | None => Ok (true, ["Anytime"])
  | Some slots =>
      if mem "Anytime" slots then Ok (true, slots)
      else if negb (truthy time) then Ok (true, slots)
      else
        existing <- find_bookings db (Some service) date time ;;
        if negb (is_empty existing)
        then Ok (false, filter (differs time) slots)
        else Ok (true, slots)
  end.

Definition conflict : PyError := ValueError "Requested time is not available".

(** [book_slot]; [booking_id] and [now] are what [add_booking] draws.
    [meta or {}] is the empty record when no [meta] is given. *)
Definition book_slot (db : Store) (booking_id now : string)
    (service : string) (date time location : option string)
    (meta : option Meta) : exc Booking * Store :=
  match check_availability db service date time with
  | Raise e => (Raise e, db)
  | Ok (available, _) =>
      if negb available then (Raise conflict, db)
      else
        add_booking db booking_id now
          {| nb_service := Some service;
             nb_date := date;
             nb_time := time;
             nb_location := location;
             nb_meta := match meta with Some m => m | None => [] end |}
  end.

(** The loop of [find_next_available] over the catalog entries. *)
Fixpoint first_free (db : Store) (service : string) (date : option string)
    (after_time : option string) (all rest : list string)
    : exc (option (string * list string)) :=
  match rest with
  | [] => Ok None
  | s :: rest' =>
      if truthy after_time && opt_eqb (Some s) after_time
      then first_free db service date after_time all rest'
      else
        booked <- find_bookings db (Some service) date (Some s) ;;
        if is_empty booked then Ok (Some (s, all))
        else first_free db service date after_time all rest'
  end.

Definition find_next_available (db : Store) (service : string)
    (date : option string) (after_time : option string)
    : exc (option (string * list string)) :=
  match AVAILABLE_SLOTS service with
  | None => Ok None
  | Some slots => first_free db service date after_time slots slots
  end.

Definition cancel_booking (db : Store) (booking_id : string)
    : exc bool * Store :=
  remove_booking db booking_id.

End SlotEngine.

(* ===================================================================== *)
(** ** booking_logic.py *)
(* ===================================================================== *)

Module BookingLogic.
Import PyStr Re Dates.
Local Open Scope exc_scope.

Definition SERVICES : list string :=
  [ "hotel"; "flight"; "appointment"; "spa";
    "salon"; "head spa"; "hospital"; "doctor"; "travel" ].

Definition CITIES : list string :=
  [ "bangalore"; "delhi"; "mumbai";
    "chennai"; "hyderabad"; "mangalagiri"; "vijayawada" ].

(** [(\d{1,2}/\d{1,2}/\d{2,4})] *)
Definition re_date_slashes : regex :=
  Grp 1 (Seq [ Rep is_digit 1 (Some 2); Chr "/";
               Rep is_digit 1 (Some 2); Chr "/";
               Rep is_digit 2 (Some 4) ]).

(** [(\d{4}-\d{1,2}-\d{1,2})] *)
Definition re_date_dashes : regex :=
  Grp 1 (Seq [ Rep is_digit 4 (Some 4); Chr "-";
               Rep is_digit 1 (Some 2); Chr "-";
               Rep is_digit 1 (Some 2) ]).

Definition group1 (m : captures) : string :=
  match group 1 m with
  | Some v => v
  | None => ""
  end.

(** The loop over the two day-first formats: the first format that
    parses returns from [_parse_date]; a format that raises is skipped.
    [Some v] means the function returned [v]. *)
Fixpoint try_formats (s : string) (fmts : list date_format)
    : exc (option string) :=
  match fmts with
  | [] => Ok None
  | fmt :: rest =>
      try_except
        (d <- strptime s fmt ;; Ok (Some (isoformat d)))
        (try_formats s rest)
  end.

(** [today] is the value of [datetime.now().date()]. *)
Definition _parse_date (today : pydate) (text : string)
    : exc (option string) :=
  let text := lower text in
  if contains "today" text then Ok (Some (isoformat today))
  else if contains "tomorrow" text then
    d <- add_one_day today ;; Ok (Some (isoformat d))
  else
    returned <-
      match search re_date_slashes text with
      | Some m => try_formats (group1 m) [fmt_d_m_Y; fmt_d_m_y]
      | None => Ok None
      end ;;
    match returned with
    | Some v => Ok (Some v)
    | None =>
        match search re_date_dashes text with
        | Some m2 =>
            try_except
              (d <- strptime (group1 m2) fmt_Y_m_d ;; Ok (Some (isoformat d)))
              (Ok None)
        | None => Ok None
        end
    end.

(** *** The state dictionary and the local variables *)

Definition Dict (V : Type) : Type := list (string * V).

(** [d[k] = v]: an existing key keeps its place. *)
Fixpoint dict_set {V : Type} (d : Dict V) (k : string) (v : V) : Dict V :=
  match d with
  | [] => [(k, v)]
  | (k', v') :: rest =>
      if String.eqb k' k then (k', v) :: rest
      else (k', v') :: dict_set rest k v
  end.

Definition dict_get {V : Type} (d : Dict V) (k : string) : option V :=
  SlotEngine.dict_get d k.

Definition dict_values {V : Type} (d : Dict V) : list V := map snd d.

(** The dictionary [state] while the conversation is read. *)
Record State : Type := {
  service : option string;
  date : option string;
  time : option string;
  location : option string;
  intent : string;
  delegated : bool;
  location_auto_selected : bool;
  service_auto_selected : bool
}.

(** The local variables of [extract_booking_state].
    [explicit_location] is [None] while the name is unbound. *)
Record Locals : Type := {
  state : State;
  confidences : Dict Q;
  ambiguities : list string;
  explanations : list string;
  explicit_location : option string
}.

(** The returned dictionary. *)
Record BookingState : Type := {
  bs_state : State;
  bs_confidences : Dict Q;
  bs_ambiguities : list string;
  bs_explanation : string
}.

Record Message : Type := { role : string; content : string }.

Definition with_state (f : State -> State) (L : Locals) : Locals :=
  {| state := f (state L);
     confidences := confidences L;
     ambiguities := ambiguities L;
     explanations := explanations L;
     explicit_location := explicit_location L |}.

Definition set_service (v : option string) (st : State) : State :=
  {| service := v; date := date st; time := time st;
     location := location st; intent := intent st;
     delegated := delegated st;
     location_auto_selected := location_auto_selected st;
     service_auto_selected := service_auto_selected st |}.

Definition set_date (v : option string) (st : State) : State :=
  {| service := service st; date := v; time := time st;
     location := location st; intent := intent st;
     delegated := delegated st;
     location_auto_selected := location_auto_selected st;
     service_auto_selected := service_auto_selected st |}.

Definition set_time (v : option string) (st : State) : State :=
  {| service := service st; date := date st; time := v;
     location := location st; intent := intent st;
     delegated := delegated st;
     location_auto_selected := location_auto_selected st;
     service_auto_selected := service_auto_selected st |}.

Definition set_location (v : option string) (st : State) : State :=
  {| service := service st; date := date st; time := time st;
     location := v; intent := intent st;
     delegated := delegated st;
     location_auto_selected := location_auto_selected st;
     service_auto_selected := service_auto_selected st |}.

Definition set_intent (v : string) (st : State) : State :=
  {| service := service st; date := date st; time := time st;
     location := location st; intent := v;
     delegated := delegated st;
     location_auto_selected := location_auto_selected st;
     service_auto_selected := service_auto_selected st |}.

Definition set_delegated (v : bool) (st : State) : State :=
  {| service := service st; date := date st; time := time st;
     location := location st; intent := intent st;
     delegated := v;
     location_auto_selected := location_auto_selected st;
     service_auto_selected := service_auto_selected st |}.

Definition set_location_auto_selected (v : bool) (st : State) : State :=
  {| service := service st; date := date st; time := time st;
     location := location st; intent := intent st;
     delegated := delegated st;
     location_auto_selected := v;
     service_auto_selected := service_auto_selected st |}.

Definition set_service_auto_selected (v : bool) (st : State) : State :=
  {| service := service st; date := date st; time := time st;
     location := location st; intent := intent st;
     delegated := delegated st;
     location_auto_selected := location_auto_selected st;
     service_auto_selected := v |}.

(** [confidences[k] = v] *)
Definition set_confidence (k : string) (v : Q) (L : Locals) : Locals :=
  {| state := state L;
     confidences := dict_set (confidences L) k v;
     ambiguities := ambiguities L;
     explanations := explanations L;
     explicit_location := explicit_location L |}.

(** [explanations.append(msg)] *)
Definition explain (msg : string) (L : Locals) : Locals :=
  {| state := state L;
     confidences := confidences L;
     ambiguities := ambiguities L;
     explanations := explanations L ++ [msg];
     explicit_location := explicit_location L |}.

Definition set_explicit_location (v : string) (L : Locals) : Locals :=
  {| state := state L;
     confidences := confidences L;
     ambiguities := ambiguities L;
     explanations := explanations L;
     explicit_location := Some v |}.

Definition initial : Locals :=
  {| state :=
       {| service := None; date := None; time := None; location := None;
          intent := "book"; delegated := false;
          location_auto_selected := false;
          service_auto_selected := false |};
     confidences := [("service", 0.0%Q); ("date", 0.0%Q);
                     ("time", 0.0%Q); ("location", 0.0%Q)];
     ambiguities := [];
     explanations := [];
     explicit_location := None |}.

(** *** One turn of the conversation *)

(** [in\s+([a-zA-Z ]{3,30})] *)
Definition re_in_place : regex :=
  Seq [ Lit "in"; Rep is_space 1 None;
        Grp 1 (Rep (fun c => is_alpha c || Ascii.eqb c " ") 3 (Some 30)) ].

Definition location_pattern (text : string) (L : Locals) : Locals :=
  match search re_in_place text with
  | Some m_loc =>
      let candidate := lower (strip (group1 m_loc)) in
      if mem candidate CITIES then
        if negb (truthy (location (state L))) then
          explain ("Location matched via pattern: " ++ candidate)
            (set_confidence "location" 0.9%Q
               (with_state (set_location (Some candidate)) L))
        else L
      else
        explain ("Explicit location mentioned: " ++ candidate)
          (set_explicit_location candidate L)
  | None => L
  end.

Definition delegation_phrases : list string :=
  [ "you decide"; "you pick"; "you choose"; "book it"; "do it";
    "go ahead"; "surprise me"; "anything works"; "i don't care";
    "i dont care"; "up to you"; "whatever you think" ].

Definition detect_delegation (text : string) (L : Locals) : Locals :=
  if any_in delegation_phrases text then
    explain "User delegated decision-making to assistant"
      (with_state (set_delegated true) L)
  else L.

Definition detect_intent (text : string) (L : Locals) : Locals :=
  if any_in ["cancel"; "cancelled"; "delete"] text then
    with_state (set_intent "cancel") L
  else if any_in ["change"; "modify"; "reschedule"] text then
    with_state (set_intent "modify") L
  else L.

(** The body of [for s in SERVICES]. *)
Definition service_step (text : string) (L : Locals) (s : string) : Locals :=
  if contains s text && negb (truthy (service (state L))) then
    explain ("Service matched by keyword '" ++ s ++ "'")
      (set_confidence "service" 0.95%Q
         (with_state (set_service (Some s)) L))
  else L.

Definition detect_service (text : string) (L : Locals) : Locals :=
  fold_left (service_step text) SERVICES L.

Definition refine_service (text : string) (L : Locals) : Locals :=
  if BookingsStore.opt_eqb (service (state L)) (Some "appointment") then
    if any_in ["facial"; "face"; "skincare"; "cleaning"; "derma"] text then
      explain
        "Mapped generic 'appointment' to specific 'facial' based on user text"
        (set_confidence "service" 0.9%Q
           (with_state (set_service (Some "facial")) L))
    else if any_in ["dental"; "dentist"] text then
      explain
        "Mapped generic 'appointment' to specific 'dental' based on user text"
        (set_confidence "service" 0.9%Q
           (with_state (set_service (Some "dental")) L))
    else L
  else L.

Definition detect_date (today : pydate) (text : string) (L : Locals)
    : exc Locals :=
  if negb (truthy (date (state L))) then
    parsed <- _parse_date today text ;;
    if truthy parsed then
      Ok (explain
            ("Date parsed as " ++ match parsed with Some v => v | None => "" end)
            (set_confidence "date" 0.9%Q
               (with_state (set_date parsed) L)))
    else Ok L
  else Ok L.

(** [fuzzy_map], in the order its items are visited. *)
Definition fuzzy_map : Dict string :=
  [ ("morning", "10:00 AM");
    ("afternoon", "02:00 PM");
    ("evening", "06:00 PM");
    ("night", "08:00 PM");
    ("noon", "12:00 PM");
    ("after lunch", "02:00 PM");
    ("before lunch", "11:30 AM") ].

(** The loop over [fuzzy_map.items()], left at the first hit. *)
Fixpoint fuzzy_time (text : string) (items : Dict string) (L : Locals)
    : Locals :=
  match items with
  | [] => L
  | (w, resolved) :: rest =>
      if contains w text then
        explain ("Fuzzy time '" ++ w ++ "' resolved to " ++ resolved)
          (set_confidence "time" 0.7%Q
             (with_state (set_time (Some resolved)) L))
      else fuzzy_time text rest L
  end.

Definition detect_time (text : string) (L : Locals) : exc Locals :=
  if negb (truthy (time (state L))) then
    time_value <- TimeUtils.normalize_time text ;;
    if truthy time_value then
      Ok (explain
            ("Time normalized to "
               ++ match time_value with Some v => v | None => "" end)
            (set_confidence "time" 0.95%Q
               (with_state (set_time time_value) L)))
    else Ok (fuzzy_time text fuzzy_map L)
  else Ok L.

(** The body of [for city in CITIES]. *)
Definition city_step (text : string) (L : Locals) (city : string) : Locals :=
  if contains city text && negb (truthy (location (state L))) then
    explain ("Location matched: " ++ city)
      (set_confidence "location" 0.9%Q
         (with_state (set_location (Some city)) L))
  else L.

Definition detect_city (text : string) (L : Locals) : Locals :=
  fold_left (city_step text) CITIES L.

(** The body of [for msg in messages]. *)
Definition process_turn (today : pydate) (msg : Message) (L : Locals)
    : exc Locals :=
  let text := lower (content msg) in
  let L := location_pattern text L in
  let L := detect_delegation text L in
  let L := detect_intent text L in
  let L := detect_service text L in
  let L := refine_service text L in
  L <- detect_date today text L ;;
  L <- detect_time text L ;;
  Ok (detect_city text L).

Fixpoint run_turns (today : pydate) (messages : list Message) (L : Locals)
    : exc Locals :=
  match messages with
  | [] => Ok L
  | msg :: rest =>
      L' <- process_turn today msg L ;;
      run_turns today rest L'
  end.

(** *** Defaults under delegation *)

Definition default_service (L : Locals) : Locals :=
  if negb (truthy (service (state L))) then
    explain "Defaulted service to 'facial' due to delegation"
      (set_confidence "service" 0.6%Q
         (with_state (set_service_auto_selected true)
            (with_state (set_service (Some "facial")) L)))
  else L.

Definition default_date (today_iso : string) (L : Locals) : Locals :=
  if negb (truthy (date (state L))) then
    explain ("Defaulted date to " ++ today_iso ++ " due to delegation")
      (set_confidence "date" 0.6%Q
         (with_state (set_date (Some today_iso)) L))
  else L.

Definition static_time (why : string) (L : Locals) : Locals :=
  explain why
    (set_confidence "time" 0.6%Q
       (with_state (set_time (Some "10:00 AM")) L)).

Definition default_time (db : BookingsStore.Store) (L : Locals) : Locals :=
  if negb (truthy (time (state L))) then
    let attempt : exc Locals :=
      match service (state L) with
      | Some (String c r) =>
          let svc := String c r in
          nxt <- SlotEngine.find_next_available db svc (date (state L)) None ;;
          match nxt with
          | Some (chosen_time, _) =>
              Ok (explain
                    ("Auto-selected next available slot " ++ chosen_time
                       ++ " for service " ++ svc)
                    (set_confidence "time" 0.75%Q
                       (with_state (set_time (Some chosen_time)) L)))
          | None =>
              Ok (static_time
                    "Defaulted time to 10:00 AM due to delegation (no available slots found)"
                    L)
          end
      | _ =>
          Ok (static_time "Defaulted time to 10:00 AM due to delegation" L)
      end in
    match attempt with
    | Ok L' => L'
    | Raise _ =>
        static_time
          "Defaulted time to 10:00 AM due to delegation (slot lookup failed)"
          L
    end
  else L.

Definition first_city : string :=
  match CITIES with
  | c :: _ => c
  | [] => ""
  end.

Definition default_location (L : Locals) : Locals :=
  if negb (truthy (location (state L))) then
    match explicit_location L with
    | Some (String c r) =>
        let explicit := String c r in
        explain
          ("Used earlier mentioned location '" ++ explicit
             ++ "' due to delegation")
          (set_confidence "location" 0.8%Q
             (with_state (set_location (Some explicit)) L))
    | _ =>
        explain
          ("Auto-selected location " ++ first_city
             ++ " due to delegation (assistant-chosen)")
          (set_confidence "location" 0.5%Q
             (with_state (set_location_auto_selected true)
                (with_state (set_location (Some first_city)) L)))
    end
  else L.

(** The block under [if state.get("delegated")]. *)
Definition delegation_defaults (today : pydate) (db : BookingsStore.Store)
    (L : Locals) : Locals :=
  if delegated (state L) then
    let today_iso := isoformat today in
    let L := default_service L in
    let L := default_date today_iso L in
    let L := default_time db L in
    default_location L
  else L.

Definition attach (L : Locals) : BookingState :=
  {| bs_state := state L;
     bs_confidences := confidences L;
     bs_ambiguities := ambiguities L;
     bs_explanation := join "; " (explanations L) |}.

Definition extract_booking_state (today : pydate)
    (db : BookingsStore.Store) (messages : list Message)
    : exc BookingState :=
  L <- run_turns today messages initial ;;
  Ok (attach (delegation_defaults today db L)).

End BookingLogic.

(* ===================================================================== *)
(** ** Numbers over exact rationals *)
(* ===================================================================== *)

Module PyNum.
Local Open Scope Q_scope.

(** [min(a, b)] and [max(a, b)] *)
Definition pymin (a b : Q) : Q := if Qle_bool a b then a else b.
Definition pymax (a b : Q) : Q := if Qle_bool b a then a else b.

(** The nearest integer, ties to the even one. *)
Definition round_half_even (x : Q) : Z :=
  let f := Qfloor x in
  match Qcompare (x - inject_Z f) (1 # 2) with
  | Lt => f
  | Gt => (f + 1)%Z
  | Eq => if Z.even f then f else (f + 1)%Z
  end.

(** [round(x, 2)] *)
Definition round2 (x : Q) : Q := round_half_even (x * 100) # 100.

(** [len(xs)] as a number *)
Definition len {A : Type} (xs : list A) : Q :=
  inject_Z (Z.of_nat (List.length xs)).

(** [sum(xs)] *)
Definition sum (xs : list Q) : Q := fold_left Qplus xs 0.

End PyNum.

(* ===================================================================== *)
(** ** Python floats: IEEE 754 binary64 *)
(* ===================================================================== *)

(** A Python [float] is a double: the operations are those of the
    Standard Library's [SpecFloat] at precision 53, rounding to nearest
    with ties to even. *)
Module Float64.

Definition float : Type := spec_float.

Definition prec : Z := 53.
Definition emax : Z := 1024.

Definition add : float -> float -> float := SFadd prec emax.
Definition sub : float -> float -> float := SFsub prec emax.
Definition mul : float -> float -> float := SFmul prec emax.
Definition div : float -> float -> float := SFdiv prec emax.
Definition ltb : float -> float -> bool := SFltb.
Definition leb : float -> float -> bool := SFleb.
Definition eqb : float -> float -> bool := SFeqb.
Definition fabs : float -> float := SFabs.

Definition zero : float := S754_zero false.

(** [float(n)] for an integer [n] *)
Definition of_Z (n : Z) : float := binary_normalize prec emax n 0 false.

(** [float(len(xs))] *)
Definition of_nat (n : nat) : float := of_Z (Z.of_nat n).

(** The double nearest to the quotient of two positive integers. *)
Definition nearest (negative : bool) (n d : positive) : float :=
  div (S754_finite negative n 0) (S754_finite false d 0).

(** The double a decimal literal denotes: the nearest one. *)
Definition of_Q (q : Q) : float :=
  match Qnum q with
  | Z0 => zero
  | Zpos n => nearest false n (Qden q)
  | Zneg n => nearest true n (Qden q)
  end.

(** The exact value of a finite double, without its sign. *)
Definition magnitude (m : positive) (e : Z) : Q :=
  match e with
  | Zneg k => Zpos m # (2 ^ k)
  | _ => inject_Z (Zpos m * 2 ^ e)
  end.

(** The exact value of a double; 0 for what is not a number. *)
Definition to_Q (x : float) : Q :=
  match x with
  | S754_finite s m e => if s then Qopp (magnitude m e) else magnitude m e
  | _ => 0%Q
  end.

(** [round(x, 2)]: the exact value of [x] is rounded to two decimals,
    ties to even, and the double nearest to that decimal is returned;
    infinities, NaN and zeros are returned as they are. *)
Definition round2 (x : float) : float :=
  match x with
  | S754_finite s m e =>
      match PyNum.round_half_even (magnitude m e * 100) with
      | Zpos n => nearest s n 100
      | _ => S754_zero s
      end
  | _ => x
  end.

(** [min(a, b)] and [max(a, b)]: the first argument unless the second is
    strictly smaller, or strictly larger. *)
Definition pymin (a b : float) : float := if ltb b a then b else a.
Definition pymax (a b : float) : float := if ltb a b then b else a.

(** [sum(xs)] on a list of floats, as CPython computes it up to version
    3.11: from the integer 0, left to right. *)
Definition sum_left (xs : list float) : float := fold_left add xs zero.

Definition is_zero (x : float) : bool :=
  match x with
  | S754_zero _ => true
  | _ => false
  end.

Definition is_finite (x : float) : bool :=
  match x with
  | S754_zero _ | S754_finite _ _ _ => true
  | _ => false
  end.

(** The loop of the compensated summation: [f_result] is the running
    sum and [c] the running compensation. *)
Fixpoint compensated (xs : list float) (f_result c : float) : float :=
  match xs with
  | [] =>
      if negb (is_zero c) && is_finite c then add f_result c else f_result
  | x :: rest =>
      let t := add f_result x in
      let c :=
        if leb (fabs x) (fabs f_result)
        then add c (add (sub f_result t) x)
        else add c (add (sub x t) f_result) in
      compensated rest t c
  end.

(** [sum(xs)] on a list of floats, as CPython computes it from version
    3.12 on: the first item is added to the integer 0 and the others
    with Neumaier's compensation. *)
Definition sum_compensated (xs : list float) : float :=
  match xs with
  | [] => zero
  | x :: rest => compensated rest (add zero x) zero
  end.

End Float64.

(* ===================================================================== *)
(** ** explainability.py, over exact rationals *)
(* ===================================================================== *)

(** The computation of [compute_explainability_score] with exact
    rationals in the place of doubles.  What the function returns, to
    the last digit, is stated on [Explainability64]. *)
Module Explainability.
Import PyStr PyNum BookingLogic.
Local Open Scope Q_scope.

Record Breakdown : Type := {
  avg_confidence : Q;
  ambiguity_count : nat;
  ambiguity_penalty_pct : Q;
  missing_count : nat;
  missing_penalty_pct : Q;
  score : Q
}.

(** The entries of [state.items()] that hold one of the four slots. *)
Definition slot_items (st : BookingState) : Dict (option string) :=
  [ ("service", service (bs_state st));
    ("date", date (bs_state st));
    ("time", time (bs_state st));
    ("location", location (bs_state st)) ].

(** [[k for k, v in state.items() if k in (...) and not v]] *)
Definition missing (st : BookingState) : list string :=
  map fst
    (filter
       (fun kv => mem (fst kv) ["service"; "date"; "time"; "location"]
                  && negb (truthy (snd kv)))
       (slot_items st)).

Definition avg_conf (st : BookingState) : Q :=
  match bs_confidences st with
  | [] => 0.0
  | _ =>
      let vals := dict_values (bs_confidences st) in
      match vals with
      | [] => 0.0
      | _ => sum vals / len vals
      end
  end.

Definition ambiguity_penalty (st : BookingState) : Q :=
  pymin (len (bs_ambiguities st) * 0.15) 0.45.

Definition missing_penalty (st : BookingState) : Q :=
  pymin (len (missing st) * 0.1) 0.3.

(** The local variable [score], before it is rounded for the result. *)
Definition raw_score (st : BookingState) : Q :=
  let raw := avg_conf st * (1.0 - ambiguity_penalty st - missing_penalty st) in
  pymax 0.0 (pymin 1.0 raw) * 100.0.

Definition compute_explainability_score (st : BookingState) : Breakdown :=
  {| avg_confidence := round2 (avg_conf st * 100);
     ambiguity_count := List.length (bs_ambiguities st);
     ambiguity_penalty_pct := round2 (ambiguity_penalty st * 100);
     missing_count := List.length (missing st);
     missing_penalty_pct := round2 (missing_penalty st * 100);
     score := round2 (raw_score st) |}.

End Explainability.

(* ===================================================================== *)
(** ** pricing.py, over exact rationals *)
(* ===================================================================== *)

(** The computation of [calculate_price] with exact rationals in the
    place of doubles.  What the function returns, to the last digit, is
    stated on [Pricing64]. *)
Module Pricing.
Import PyStr PyNum.
Local Open Scope Q_scope.

Definition BASE_PRICES : list (string * Q) :=
  [ ("spa", 50.0); ("salon", 40.0); ("doctor", 100.0);
    ("head spa", 60.0); ("facial", 27.0); ("dental", 80.0);
    ("hotel", 150.0); ("travel", 80.0); ("appointment", 30.0);
    ("flight", 200.0) ].

Definition INDIAN_CITIES : list string :=
  [ "bangalore"; "bengaluru"; "delhi"; "mumbai"; "chennai"; "hyderabad";
    "vijayawada"; "mangalagiri"; "kolkata"; "pune"; "ahmedabad" ].

(** What the exchange-rate lookup can see: the entry [_FX_CACHE["INR"]],
    the environment variable [FX_API_KEY], and the INR rate the remote
    service would answer ([None] when the request fails or the answer
    has no such rate). *)
Record FxEnv : Type := {
  cache : option Q;
  api_key : option string;
  live_rate : option Q
}.

Definition with_cache (rate : Q) (env : FxEnv) : FxEnv :=
  {| cache := Some rate; api_key := api_key env; live_rate := live_rate env |}.

(** [_get_rate()]: the rate and the environment with the cache filled. *)
Definition _get_rate (env : FxEnv) : Q * FxEnv :=
  match cache env with
  | Some rate => (rate, env)
  | None =>
      let fallback := (82.0, with_cache 82.0 env) in
      if truthy (api_key env) then
        match live_rate env with
        | Some rate =>
            if negb (Qeq_bool rate 0) then (rate, with_cache rate env)
            else fallback
        | None => fallback
        end
      else fallback
  end.

Definition Meta : Type := BookingsStore.Meta.

(** [meta.get(k)] guarded by [meta and ...]. *)
Definition meta_get (meta : option Meta) (k : string) : option string :=
  match meta with
  | Some m => SlotEngine.dict_get m k
  | None => None
  end.

Definition tier_discount (confidence_pct : Q) : Q :=
  if Qle_bool 90 confidence_pct then 15.0
  else if Qle_bool 75 confidence_pct then 10.0
  else if Qle_bool 50 confidence_pct then 5.0
  else 0.0.

Definition calculate_price (env : FxEnv) (service : string)
    (confidence_pct : Q) (meta : option Meta) (location : option string)
    : (Q * Q * string) * FxEnv :=
  let base :=
    match SlotEngine.dict_get BASE_PRICES service with
    | Some b => b
    | None => 50.0
    end in
  let discount := tier_discount confidence_pct in
  let discount :=
    if BookingsStore.opt_eqb (meta_get meta "loyalty_tier") (Some "gold")
    then discount + 5.0 else discount in
  let final_usd := round2 (base * (1 - discount / 100.0)) in
  let currency :=
    if truthy (meta_get meta "currency") then
      match meta_get meta "currency" with
      | Some c => upper c
      | None => "USD"
      end
    else
      match location with
      | Some (String c r) =>
          if mem (lower (String c r)) INDIAN_CITIES then "INR" else "USD"
      | _ => "USD"
      end in
  if String.eqb currency "INR" then
    let '(EXCHANGE_RATE, env') := _get_rate env in
    ((round2 (final_usd * EXCHANGE_RATE), discount, currency), env')
  else ((final_usd, discount, currency), env).

End Pricing.


(* ===================================================================== *)
(** ** explainability.py, on doubles *)
(* ===================================================================== *)

Module Explainability64.
Import PyStr Float64 BookingLogic.

(** The dictionary [state] as the function reads it: the four slots
    (with the flags beside them), the confidences and the ambiguity
    tokens. *)
Record ScoredState : Type := {
  st_slots : State;
  st_confidences : Dict float;
  st_ambiguities : list string
}.

(** A state the extraction returned, as the interpreter holds it: every
    confidence is the double its decimal literal denotes. *)
Definition of_booking_state (b : BookingState) : ScoredState :=
  {| st_slots := bs_state b;
     st_confidences :=
       map (fun kv => (fst kv, of_Q (snd kv))) (bs_confidences b);
     st_ambiguities := bs_ambiguities b |}.

Record Breakdown : Type := {
  avg_confidence : float;
  ambiguity_count : nat;
  ambiguity_penalty_pct : float;
  missing_count : nat;
  missing_penalty_pct : float;
  score : float
}.

(** The entries of [state.items()] that hold one of the four slots. *)
Definition slot_items (st : ScoredState) : Dict (option string) :=
  [ ("service", service (st_slots st));
    ("date", date (st_slots st));
    ("time", time (st_slots st));
    ("location", location (st_slots st)) ].

(** [[k for k, v in state.items() if k in (...) and not v]] *)
Definition missing (st : ScoredState) : list string :=
  map fst
    (filter
       (fun kv => mem (fst kv) ["service"; "date"; "time"; "location"]
                  && negb (truthy (snd kv)))
       (slot_items st)).

Section Builtins.

(** The built-in [sum] of the interpreter, on a list of floats. *)
Variable sum : list float -> float.

Definition avg_conf (st : ScoredState) : float :=
  match st_confidences st with
  | [] => of_Q 0.0
  | _ =>
      let vals := dict_values (st_confidences st) in
      match vals with
      | [] => of_Q 0.0
      | _ => div (sum vals) (of_nat (List.length vals))
      end
  end.

Definition ambiguity_penalty (st : ScoredState) : float :=
  pymin (mul (of_nat (List.length (st_ambiguities st))) (of_Q 0.15))
    (of_Q 0.45).

Definition missing_penalty (st : ScoredState) : float :=
  pymin (mul (of_nat (List.length (missing st))) (of_Q 0.1)) (of_Q 0.3).

(** The local variable [score], before it is rounded for the result. *)
Definition raw_score (st : ScoredState) : float :=
  let raw :=
    mul (avg_conf st)
      (sub (sub (of_Q 1.0) (ambiguity_penalty st)) (missing_penalty st)) in
  mul (pymax (of_Q 0.0) (pymin (of_Q 1.0) raw)) (of_Q 100.0).

Definition compute_explainability_score (st : ScoredState) : Breakdown :=
  {| avg_confidence := round2 (mul (avg_conf st) (of_Z 100));
     ambiguity_count := List.length (st_ambiguities st);
     ambiguity_penalty_pct := round2 (mul (ambiguity_penalty st) (of_Z 100));
     missing_count := List.length (missing st);
     missing_penalty_pct := round2 (mul (missing_penalty st) (of_Z 100));
     score := round2 (raw_score st) |}.

End Builtins.

End Explainability64.

(* ===================================================================== *)
(** ** pricing.py, on doubles *)
(* ===================================================================== *)

Module Pricing64.
Import PyStr Float64.

Definition BASE_PRICES : list (string * float) :=
  [ ("spa", of_Q 50.0); ("salon", of_Q 40.0); ("doctor", of_Q 100.0);
    ("head spa", of_Q 60.0); ("facial", of_Q 27.0); ("dental", of_Q 80.0);
    ("hotel", of_Q 150.0); ("travel", of_Q 80.0);
    ("appointment", of_Q 30.0); ("flight", of_Q 200.0) ].

Definition INDIAN_CITIES : list string := Pricing.INDIAN_CITIES.

(** What the exchange-rate lookup can see: the entry [_FX_CACHE["INR"]],
    the environment variable [FX_API_KEY], and the INR rate the remote
    service would answer ([None] when the request fails or the answer
    has no such rate). *)
Record FxEnv : Type := {
  cache : option float;
  api_key : option string;
  live_rate : option float
}.

Definition with_cache (rate : float) (env : FxEnv) : FxEnv :=
  {| cache := Some rate; api_key := api_key env; live_rate := live_rate env |}.

(** [_get_rate()]: the rate and the environment with the cache filled.
    [if rate] holds of every rate but zero. *)
Definition _get_rate (env : FxEnv) : float * FxEnv :=
  match cache env with
  | Some rate => (rate, env)
  | None =>
      let fallback := (of_Q 82.0, with_cache (of_Q 82.0) env) in
      if truthy (api_key env) then
        match live_rate env with
        | Some rate =>
            if negb (eqb rate zero) then (rate, with_cache rate env)
            else fallback
        | None => fallback
        end
      else fallback
  end.

Definition Meta : Type := BookingsStore.Meta.

Definition meta_get (meta : option Meta) (k : string) : option string :=
  Pricing.meta_get meta k.

(** [confidence_pct >= 90] is [90 <= confidence_pct]. *)
Definition tier_discount (confidence_pct : float) : float :=
  if leb (of_Z 90) confidence_pct then of_Q 15.0
  else if leb (of_Z 75) confidence_pct then of_Q 10.0
  else if leb (of_Z 50) confidence_pct then of_Q 5.0
  else of_Q 0.0.

Definition calculate_price (env : FxEnv) (service : string)
    (confidence_pct : float) (meta : option Meta) (location : option string)
    : (float * float * string) * FxEnv :=
  let base :=
    match SlotEngine.dict_get BASE_PRICES service with
    | Some b => b
    | None => of_Q 50.0
    end in
  let discount := tier_discount confidence_pct in
  let discount :=
    if BookingsStore.opt_eqb (meta_get meta "loyalty_tier") (Some "gold")
    then add discount (of_Q 5.0) else discount in
  let final_usd :=
    round2 (mul base (sub (of_Z 1) (div discount (of_Q 100.0)))) in
  let currency :=
    if truthy (meta_get meta "currency") then
      match meta_get meta "currency" with
      | Some c => upper c
      | None => "USD"
      end
    else
      match location with
      | Some (String c r) =>
          if mem (lower (String c r)) INDIAN_CITIES then "INR" else "USD"
      | _ => "USD"
      end in
  if String.eqb currency "INR" then
    let '(EXCHANGE_RATE, env') := _get_rate env in
    ((round2 (mul final_usd EXCHANGE_RATE), discount, currency), env')
  else ((final_usd, discount, currency), env).

End Pricing64.

(* ===================================================================== *)
(** * The statements of the specification *)
(* ===================================================================== *)

Module Spec.
Import PyStr BookingsStore SlotEngine.

(** A reference day and a one-line conversation, for the examples. *)
Definition a_day : Dates.pydate :=
  {| Dates.year := 2026; Dates.month := 11; Dates.day := 3 |}.

Definition user (text : string) : BookingLogic.Message :=
  {| BookingLogic.role := "user"; BookingLogic.content := text |}.

(** *** Availability *)

(** A persisted booking matches (service, date, time) exactly. *)
Definition matches_exactly (svc : string) (dt tm : option string)
    (b : Booking) : Prop :=
  service b = Some svc /\ date b = dt /\ time b = tm.

(** A persisted booking matches the request the way the store filters:
    a date that is absent or empty matches every day. *)
Definition matches_request (svc : string) (dt tm : option string)
    (b : Booking) : Prop :=
  service b = Some svc /\ (truthy dt = true -> date b = dt) /\ time b = tm.

(** The catalog entries other than the requested time, in catalog order. *)
Definition other_slots (tm : option string) (slots : list string)
    : list string :=
  filter (fun s => negb (opt_eqb (Some s) tm)) slots.

(** The contract of [check_availability] in the words of the claim:
    the fourth case decides by an exact match on all three values and
    applies whenever a time is given. *)
Definition availability_contract_as_stated (rows : list Booking)
    (svc : string) (dt tm : option string) : Prop :=
  let result := check_availability (Online rows) svc dt tm in
  match AVAILABLE_SLOTS svc with
  | None => result = Ok (true, ["Anytime"])
  | Some slots =>
      if mem "Anytime" slots then result = Ok (true, slots)
      else
        match tm with
        | None => result = Ok (true, slots)
        | Some _ =>
            (result = Ok (true, slots) <->
             ~ exists b, In b rows /\ matches_exactly svc dt tm b)
            /\ ((exists b, In b rows /\ matches_exactly svc dt tm b) ->
                result = Ok (false, other_slots tm slots))
        end
  end.

(** The contract the code keeps: an absent or empty time asks for no
    particular slot, and an absent or empty date matches every day. *)
Definition availability_contract (rows : list Booking)
    (svc : string) (dt tm : option string) : Prop :=
  let result := check_availability (Online rows) svc dt tm in
  match AVAILABLE_SLOTS svc with
  | None => result = Ok (true, ["Anytime"])
  | Some slots =>
      if mem "Anytime" slots then result = Ok (true, slots)
      else if negb (truthy tm) then result = Ok (true, slots)
      else
        (result = Ok (true, slots) <->
         ~ exists b, In b rows /\ matches_request svc dt tm b)
        /\ ((exists b, In b rows /\ matches_request svc dt tm b) ->
            result = Ok (false, other_slots tm slots))
  end.

(** [check_availability] reports the slot free, or taken. *)
Definition reports_free (db : Store) (svc : string) (dt tm : option string)
    : Prop :=
  exists slots, check_availability db svc dt tm = Ok (true, slots).

Definition reports_taken (db : Store) (svc : string) (dt tm : option string)
    : Prop :=
  exists alternatives,
    check_availability db svc dt tm = Ok (false, alternatives).

(** The identifier is not yet a key of the table. *)
Definition fresh (booking_id : string) (rows : list Booking) : Prop :=
  existsb (has_id booking_id) rows = false.

(** The round trip in the words of the claim: for a slot reported free,
    a successful [book_slot] makes it taken and cancelling the returned
    booking makes it free again. *)
Definition round_trip_as_stated (rows : list Booking)
    (booking_id now svc : string) (dt tm loc : option string)
    (meta : option Meta) : Prop :=
  reports_free (Online rows) svc dt tm ->
  forall b db1,
    book_slot (Online rows) booking_id now svc dt tm loc meta = (Ok b, db1) ->
    reports_taken db1 svc dt tm
    /\ forall r db2,
         cancel_booking db1 (id b) = (r, db2) ->
         reports_free db2 svc dt tm.

(** A service without a catalog, or whose catalog offers "Anytime". *)
Definition always_open (svc : string) : Prop :=
  AVAILABLE_SLOTS svc = None
  \/ exists slots, AVAILABLE_SLOTS svc = Some slots /\ In "Anytime" slots.

(** *** Extraction *)

Section Extraction.
Import BookingLogic.

(** [confidences[key]] of a returned state. *)
Definition conf_of (b : BookingState) (key : string) : option Q :=
  dict_get (bs_confidences b) key.

(** The slot and its confidence are the same in [b'] as in [b]. *)
Definition untouched (slot : State -> option string) (key : string)
    (b b' : BookingState) : Prop :=
  slot (bs_state b') = slot (bs_state b) /\ conf_of b' key = conf_of b key.

(** The slot holds [v] with confidence [c]. *)
Definition holds (slot : State -> option string) (key : string)
    (b : BookingState) (v : string) (c : Q) : Prop :=
  slot (bs_state b) = Some v /\ conf_of b key = Some c.

(** The generic service "appointment" became "facial" or "dental". *)
Definition refined (b b' : BookingState) : Prop :=
  service (bs_state b) = Some "appointment"
  /\ (holds service "service" b' "facial" 0.9
      \/ holds service "service" b' "dental" 0.9).

(** Every slot that is set in [b] is the same in [b']. *)
Definition kept (b b' : BookingState) : Prop :=
  (truthy (service (bs_state b)) = true -> untouched service "service" b b')
  /\ (truthy (date (bs_state b)) = true -> untouched date "date" b b')
  /\ (truthy (time (bs_state b)) = true -> untouched time "time" b b')
  /\ (truthy (location (bs_state b)) = true ->
      untouched location "location" b b').

(** The same, but a service that is set may also have been refined. *)
Definition monotone (b b' : BookingState) : Prop :=
  (truthy (service (bs_state b)) = true ->
   untouched service "service" b b' \/ refined b b')
  /\ (truthy (date (bs_state b)) = true -> untouched date "date" b b')
  /\ (truthy (time (bs_state b)) = true -> untouched time "time" b b')
  /\ (truthy (location (bs_state b)) = true ->
      untouched location "location" b b').

(** The turn has a sub-type keyword of the facial family, or of the
    dental family. *)
Definition names_facial (msg : Message) : bool :=
  any_in ["facial"; "face"; "skincare"; "cleaning"; "derma"]
    (lower (content msg)).

Definition names_dental (msg : Message) : bool :=
  any_in ["dental"; "dentist"] (lower (content msg)).

(** The sub-type the turns [later] call for: that of the first turn
    with a sub-type keyword, the facial family before the dental one;
    none when no turn has such a keyword. *)
Definition refinement (later : list Message) : option string :=
  match find (fun msg => names_facial msg || names_dental msg) later with
  | Some msg => Some (if names_facial msg then "facial" else "dental")
  | None => None
  end.

(** What becomes of a service that is set when the turns [later]
    follow: the generic "appointment" becomes the sub-type they call
    for, with confidence 0.9; any other service, and "appointment" when
    no later turn has a sub-type keyword, stays as it is. *)
Definition service_kept (later : list Message) (b b' : BookingState)
    : Prop :=
  if opt_eqb (service (bs_state b)) (Some "appointment")
  then match refinement later with
       | Some sub => holds service "service" b' sub 0.9
       | None => untouched service "service" b b'
       end
  else untouched service "service" b b'.

(** Every slot that is set in [b] is the same in [b'], but for the
    refinement of the service by the turns [later]. *)
Definition kept_through (later : list Message) (b b' : BookingState)
    : Prop :=
  (truthy (service (bs_state b)) = true -> service_kept later b b')
  /\ (truthy (date (bs_state b)) = true -> untouched date "date" b b')
  /\ (truthy (time (bs_state b)) = true -> untouched time "time" b b')
  /\ (truthy (location (bs_state b)) = true ->
      untouched location "location" b b').

(** What the default pass leaves in [final], slot by slot, when the
    conversation ended in the local variables [L]. *)
Definition defaults_applied (today : Dates.pydate) (db : Store)
    (L : Locals) (final : BookingState) : Prop :=
  let before := attach L in
  (if truthy (service (state L))
   then untouched service "service" before final
   else holds service "service" final "facial" 0.6)
  /\ (if truthy (date (state L))
      then untouched date "date" before final
      else holds date "date" final (Dates.isoformat today) 0.6)
  /\ (if truthy (time (state L))
      then untouched time "time" before final
      else exists svc,
          service (bs_state final) = Some svc
          /\ match find_next_available db svc (date (bs_state final)) None with
             | Ok (Some (slot, _)) => holds time "time" final slot 0.75
             | Ok None => holds time "time" final "10:00 AM" 0.6
             | Raise _ => holds time "time" final "10:00 AM" 0.6
             end)
  /\ (if truthy (location (state L))
      then untouched location "location" before final
      else if truthy (explicit_location L)
           then exists stashed,
               explicit_location L = Some stashed
               /\ holds location "location" final stashed 0.8
           else exists city,
               hd_error CITIES = Some city
               /\ holds location "location" final city 0.5).

(** The list [ambiguities] and the two flags are the same in [L'] as in
    [L]. *)
Definition inert (L L' : Locals) : Prop :=
  ambiguities L' = ambiguities L
  /\ service_auto_selected (state L') = service_auto_selected (state L)
  /\ location_auto_selected (state L') = location_auto_selected (state L).

End Extraction.

(** *** The explainability score *)

Section Score.
Import BookingLogic.
Local Open Scope Q_scope.

Definition count (n : nat) : Q := inject_Z (Z.of_nat n).

(** The number of ambiguity tokens. *)
Definition ambiguityCount (st : BookingState) : nat :=
  List.length (bs_ambiguities st).

(** The number of unset fields among service, date, time, location. *)
Definition unset (o : option string) : nat := if truthy o then 0 else 1.

Definition missingFieldCount (st : BookingState) : nat :=
  (unset (service (bs_state st)) + unset (date (bs_state st))
   + unset (time (bs_state st)) + unset (location (bs_state st)))%nat.

(** The average of the per-field confidence values, 0 when there are
    none. *)
Definition avgConf (st : BookingState) : Q :=
  match bs_confidences st with
  | [] => 0
  | entries =>
      fold_right (fun kv acc => snd kv + acc) 0 entries
      / count (List.length entries)
  end.

Definition ambiguityPenalty (st : BookingState) : Q :=
  Qmin (0.15 * count (ambiguityCount st)) 0.45.

Definition missingPenalty (st : BookingState) : Q :=
  Qmin (0.10 * count (missingFieldCount st)) 0.30.

(** Clamping to [0, 1]. *)
Definition clamp01 (x : Q) : Q := Qmax 0 (Qmin 1 x).

(** The score of the claim: the clamped product, scaled to 100. *)
Definition explainability_formula (st : BookingState) : Q :=
  clamp01 (avgConf st * (1 - ambiguityPenalty st - missingPenalty st)) * 100.

(** A complete state with one ambiguity token. *)
Definition evening_state : BookingState :=
  {| bs_state :=
       {| service := Some "salon"; date := Some "2099-01-01";
          time := Some "6:00 PM"; location := Some "delhi";
          intent := "book"; delegated := false;
          location_auto_selected := false;
          service_auto_selected := false |};
     bs_confidences := [("service", 0.95); ("date", 0.9);
                        ("time", 0.7); ("location", 0.9)];
     bs_ambiguities := ["evening"];
     bs_explanation := "" |}.

(** The same state with a second ambiguity token. *)
Definition two_token_state : BookingState :=
  {| bs_state := bs_state evening_state;
     bs_confidences := bs_confidences evening_state;
     bs_ambiguities := ["evening"; "night"];
     bs_explanation := "" |}.

End Score.

(** *** The explainability score, on doubles *)

Section Score64.
Import BookingLogic Float64 Explainability64.

(** The built-in [sum] of the interpreter. *)
Variable sum : list float -> float.

Definition tokens (st : ScoredState) : nat :=
  List.length (st_ambiguities st).

Definition unset_fields (st : ScoredState) : nat :=
  (unset (service (st_slots st)) + unset (date (st_slots st))
   + unset (time (st_slots st)) + unset (location (st_slots st)))%nat.

(** The average of the per-field confidence values, 0 when there are
    none. *)
Definition average_confidence (st : ScoredState) : float :=
  match st_confidences st with
  | [] => zero
  | entries => div (sum (map snd entries)) (of_nat (List.length entries))
  end.

(** [min(0.15 x ambiguityCount, 0.45)] and
    [min(0.10 x missingFieldCount, 0.30)] *)
Definition penalty_for_ambiguity (st : ScoredState) : float :=
  pymin (mul (of_Q 0.15) (of_nat (tokens st))) (of_Q 0.45).

Definition penalty_for_missing (st : ScoredState) : float :=
  pymin (mul (of_Q 0.10) (of_nat (unset_fields st))) (of_Q 0.30).

(** Clamping to [0, 1]. *)
Definition clamp (x : float) : float := pymax (of_Z 0) (pymin (of_Z 1) x).

(** The score of the claim, every operation being that of the doubles:
    the clamped product, scaled to 100. *)
Definition formula_on_doubles (st : ScoredState) : float :=
  mul (clamp (mul (average_confidence st)
                (sub (sub (of_Z 1) (penalty_for_ambiguity st))
                   (penalty_for_missing st))))
    (of_Z 100).

End Score64.

(** *** Pricing *)

Section Price.
Import Pricing.
Local Open Scope Q_scope.

(** The discount tier that belongs to a confidence percentage. *)
Definition tier (confidence_pct d : Float64.float) : Prop :=
  let at_least (bound : Z) :=
    Float64.leb (Float64.of_Z bound) confidence_pct in
  (at_least 90%Z = true /\ d = Float64.of_Q 15.0)
  \/ (at_least 75%Z = true /\ at_least 90%Z = false /\ d = Float64.of_Q 10.0)
  \/ (at_least 50%Z = true /\ at_least 75%Z = false /\ d = Float64.of_Q 5.0)
  \/ (at_least 50%Z = false /\ d = Float64.of_Q 0.0).

(** [meta] names the gold loyalty tier. *)
Definition gold (meta : option Meta) : Prop :=
  meta_get meta "loyalty_tier" = Some "gold".

(** The tier discount, plus five points for gold members. *)
Definition discount_rule (confidence_pct : Float64.float)
    (meta : option Meta) (discount : Float64.float) : Prop :=
  exists d,
    tier confidence_pct d
    /\ (gold meta -> discount = Float64.add d (Float64.of_Q 5.0))
    /\ (~ gold meta -> discount = d).

(** The currency in the words of the claim: [meta.currency] as given,
    else INR for a location of the list, else USD. *)
Definition currency_as_stated (meta : option Meta) (location : option string)
    (currency : string) : Prop :=
  match meta_get meta "currency" with
  | Some (String c r) => currency = String c r
  | _ =>
      match location with
      | Some place =>
          if mem place INDIAN_CITIES then currency = "INR"
          else currency = "USD"
      | None => currency = "USD"
      end
  end.

(** The currency the code chooses: [meta.currency] in upper case, else
    INR when the location in lower case is in the list, else USD. *)
Definition currency_rule (meta : option Meta) (location : option string)
    (currency : string) : Prop :=
  match meta_get meta "currency" with
  | Some (String c r) => currency = upper (String c r)
  | _ =>
      match location with
      | Some place =>
          if mem (lower place) INDIAN_CITIES then currency = "INR"
          else currency = "USD"
      | None => currency = "USD"
      end
  end.

(** The base price of a service, 50 when it is not in the table. *)
Definition base_price (service : string) : Float64.float :=
  match SlotEngine.dict_get Pricing64.BASE_PRICES service with
  | Some b => b
  | None => Float64.of_Z 50%Z
  end.

(** The discounted amount in USD, to two decimals. *)
Definition usd_amount (service : string) (discount : Float64.float)
    : Float64.float :=
  Float64.round2
    (Float64.mul (base_price service)
       (Float64.sub (Float64.of_Z 1%Z)
          (Float64.div discount (Float64.of_Z 100%Z)))).

(** The cached exchange rate: the cache entry when there is one, else
    the live rate when a key is configured and the service answers with
    a non-zero rate, else the demo rate 82. *)
Definition cached_rate (env : Pricing64.FxEnv) : Float64.float :=
  fst (Pricing64._get_rate env).

(** The amount: converted and rounded for INR, the USD amount otherwise. *)
Definition amount_rule (env : Pricing64.FxEnv) (service : string)
    (discount : Float64.float) (currency : string)
    (amount : Float64.float) : Prop :=
  (currency = "INR" ->
   amount
   = Float64.round2
       (Float64.mul (usd_amount service discount) (cached_rate env)))
  /\ (currency <> "INR" -> amount = usd_amount service discount).

(** No cache entry and no API key: the demo rate applies. *)
Definition demo_env64 : Pricing64.FxEnv :=
  {| Pricing64.cache := None; Pricing64.api_key := None;
     Pricing64.live_rate := None |}.


End Price.

End Spec.

(* ===================================================================== *)
(** * The rest of the store and of the slot engine *)
(* ===================================================================== *)

(** ** bookings_store.py: updates and reset *)

Module StoreUpdates.
Import PyStr BookingsStore.

(** The dictionary [updates] of [update_booking].  Its keys are put
    into the SET clause as column names: for each column of the table,
    the new value when the dictionary names it ([None] when the key is
    absent), text or NULL as the rows hold it, and text for [id] and
    [created_at]; [upd_unknown] lists, in their order, the keys that
    name no column of the table.  A key is one identifier, not SQLite's
    hidden [rowid], and each column is named by at most one key (SQLite reads a column name
    without regard to case, so ["Date"] names [date] as well). *)
Record Updates : Type := {
  upd_id : option string;
  upd_service : option (option string);
  upd_date : option (option string);
  upd_time : option (option string);
  upd_location : option (option string);
  upd_created_at : option string;
  upd_meta : option (option Meta);
  upd_unknown : list string
}.

(** The dictionary [{"date": date, "time": time}]. *)
Definition date_and_time (date time : option string) : Updates :=
  {| upd_id := None; upd_service := None; upd_date := Some date;
     upd_time := Some time; upd_location := None; upd_created_at := None;
     upd_meta := None; upd_unknown := [] |}.

(** [not fields]: the dictionary is empty. *)
Definition no_fields (u : Updates) : bool :=
  match upd_id u, upd_service u, upd_date u, upd_time u, upd_location u,
        upd_created_at u, upd_meta u, upd_unknown u with
  | None, None, None, None, None, None, None, [] => true
  | _, _, _, _, _, _, _, _ => false
  end.

Definition assigned {A : Type} (new : option A) (old : A) : A :=
  match new with
  | Some v => v
  | None => old
  end.

(** The SET clause applied to one row; [meta] is stored as
    [json.dumps(v or {})]. *)
Definition apply_updates (u : Updates) (b : Booking) : Booking :=
  {| id := assigned (upd_id u) (id b);
     service := assigned (upd_service u) (service b);
     date := assigned (upd_date u) (date b);
     time := assigned (upd_time u) (time b);
     location := assigned (upd_location u) (location b);
     created_at := assigned (upd_created_at u) (created_at b);
     meta := match upd_meta u with
             | Some (Some m) => m
             | Some None => []
             | None => meta b
             end |}.

(** The rows after UPDATE ... WHERE id = ?. *)
Definition updated_rows (booking_id : string) (u : Updates)
    (rows : list Booking) : list Booking :=
  map (fun b => if has_id booking_id b then apply_updates u b else b) rows.

(** The UPDATE would give the row another row's primary key. *)
Definition collides (booking_id : string) (u : Updates)
    (rows : list Booking) : bool :=
  match upd_id u with
  | Some new_id =>
      negb (String.eqb new_id booking_id)
      && existsb (has_id booking_id) rows
      && existsb (has_id new_id) rows
  | None => false
  end.

(** [update_booking]: [None] when the dictionary is empty; a key that
    names no column and a clash of primary keys make the UPDATE raise,
    and nothing is committed; otherwise the row with the id is looked
    up again after the UPDATE, and [None] is returned when no row has
    it. *)
Definition update_booking (db : Store) (booking_id : string) (u : Updates)
    : exc (option Booking) * Store :=
  match db with
  | Offline => (Raise unavailable, db)
  | Online rows =>
      if no_fields u then (Ok None, db)
      else
        match upd_unknown u with
        | k :: _ => (Raise (StoreError ("no such column: " ++ k)), db)
        | [] =>
            if collides booking_id u rows
            then (Raise (StoreError "UNIQUE constraint failed: bookings.id"),
                  db)
            else
              let rows' := updated_rows booking_id u rows in
              (Ok (find (has_id booking_id) rows'), Online rows')
        end
  end.

(** [reset_bookings]: DELETE FROM bookings. *)
Definition reset_bookings (db : Store) : exc unit * Store :=
  match db with
  | Offline => (Raise unavailable, db)
  | Online _ => (Ok tt, Online [])
  end.

End StoreUpdates.

(** ** slot_engine.py: resolution, automatic booking and changes *)

Module SlotResolution.
Import PyStr BookingsStore StoreUpdates SlotEngine.
Local Open Scope exc_scope.

(** The dictionary [attempt_resolve] returns; the key [other_options] is
    present only when the slot is unavailable. *)
Record Resolution : Type := {
  available : bool;
  suggestion : option string;
  alternatives : list string;
  other_options : option (list (string * option string))
}.

(** [time in s_slots] *)
Definition offered (tm : option string) (s_slots : list string) : bool :=
  match tm with
  | Some t => mem t s_slots
  | None => false
  end.

(** The loop over [AVAILABLE_SLOTS.items()]: the other services whose
    catalog has the requested time. *)
Definition nearby (service : string) (tm : option string)
    : list (string * option string) :=
  flat_map
    (fun entry : string * list string =>
       let (s, s_slots) := entry in
       if String.eqb s service then []
       else if offered tm s_slots then [(s, tm)]
       else [])
    AVAILABLE_SLOTS_items.

Definition attempt_resolve (db : Store) (service : string)
    (date time : option string) (allow_nearby : bool) : exc Resolution :=
  checked <- check_availability db service date time ;;
  let (is_available, slots) := checked in
  if is_available then
    Ok {| available := true; suggestion := time;
          alternatives := slots; other_options := None |}
  else
    nxt <- find_next_available db service date time ;;
    Ok {| available := false;
          suggestion := match nxt with
                        | Some (s, _) => Some s
                        | None => None
                        end;
          alternatives := slots;
          other_options :=
            Some (if allow_nearby then nearby service time else []) |}.

Definition no_alternative : PyError :=
  ValueError "No alternative slots available".

(** [auto_book_alternative]; [booking_id] and [now] are what
    [add_booking] draws. *)
Definition auto_book_alternative (db : Store) (booking_id now : string)
    (service : string) (date time : option string) : exc Booking * Store :=
  let nxt :=
    if truthy time then find_next_available db service date time
    else find_next_available db service date None in
  match nxt with
  | Raise e => (Raise e, db)
  | Ok None => (Raise no_alternative, db)
  | Ok (Some (chosen_time, _)) =>
      book_slot db booking_id now service date (Some chosen_time) None None
  end.

(** [a or b] on optional strings *)
Definition py_or (a b : option string) : option string :=
  if truthy a then a else b.

(** [check_availability] on the service column of a row, which may be
    NULL: [None] is not a key of the catalog. *)
Definition check_row_availability (db : Store) (service : option string)
    (date time : option string) : exc (bool * list string) :=
  match service with
  | Some s => check_availability db s date time
  | None => Ok (true, ["Anytime"])
  end.

Definition new_time_taken : PyError :=
  ValueError "Requested new time is not available".

Definition modify_booking (db : Store) (booking_id : string)
    (new_date new_time : option string) : exc (option Booking) * Store :=
  match load_bookings db with
  | Raise e => (Raise e, db)
  | Ok bookings =>
      match find (has_id booking_id) bookings with
      | None => (Ok None, db)
      | Some b =>
          let date := py_or new_date (BookingsStore.date b) in
          let time := py_or new_time (BookingsStore.time b) in
          match check_row_availability db (service b) date time with
          | Raise e => (Raise e, db)
          | Ok (is_available, _) =>
              if negb is_available then (Raise new_time_taken, db)
              else
                update_booking db booking_id (date_and_time date time)
          end
      end
  end.

Definition list_bookings (db : Store) : exc (list Booking) :=
  load_bookings db.

End SlotResolution.

(** ** Vocabulary for the results on the store and the slot engine *)

Module Laws.
Import PyStr BookingsStore StoreUpdates SlotEngine SlotResolution Spec.

(** Some stored booking takes the entry [s] for this service and date. *)
Definition booked (rows : list Booking) (svc : string) (dt : option string)
    (s : string) : Prop :=
  exists b, In b rows /\ matches_request svc dt (Some s) b.

(** The entry is not the one [after_time] names. *)
Definition eligible (after_time : option string) (s : string) : Prop :=
  ~ (truthy after_time = true /\ after_time = Some s).

(** [s] is the first entry of [slots], in their order, that is eligible
    and not booked. *)
Definition first_free_entry (rows : list Booking) (svc : string)
    (dt after_time : option string) (slots : list string) (s : string)
    : Prop :=
  exists before rest,
    slots = before ++ s :: rest
    /\ eligible after_time s
    /\ ~ booked rows svc dt s
    /\ forall x, In x before -> eligible after_time x -> booked rows svc dt x.

(** No eligible entry of [slots] is free. *)
Definition all_taken (rows : list Booking) (svc : string)
    (dt after_time : option string) (slots : list string) : Prop :=
  forall x, In x slots -> eligible after_time x -> booked rows svc dt x.

(** The primary key: no two rows share an id. *)
Definition unique_ids (rows : list Booking) : Prop := NoDup (map id rows).

(** The slot a row occupies. *)
Definition slot_of (b : Booking)
    : option string * option string * option string :=
  (service b, date b, time b).

(** The row is for a service with a catalog of real times and names a
    time. *)
Definition regular (b : Booking) : bool :=
  match service b with
  | Some s =>
      match AVAILABLE_SLOTS s with
      | Some slots => negb (mem "Anytime" slots) && truthy (time b)
      | None => false
      end
  | None => false
  end.

(** No two regular rows occupy the same slot. *)
Definition no_double_booking (rows : list Booking) : Prop :=
  NoDup (map slot_of (filter regular rows)).



(** The row [b] with a new date and time. *)
Definition rescheduled (b : Booking) (dt tm : option string) : Booking :=
  {| id := id b; service := service b; date := dt; time := tm;
     location := location b; created_at := created_at b; meta := meta b |}.

(** A store whose rows respect the primary key and hold no double
    booking; nothing is asked of a store that cannot be reached. *)
Definition sound (db : Store) : Prop :=
  match db with
  | Online rows => unique_ids rows /\ no_double_booking rows
  | Offline => True
  end.

End Laws.

(** ** Vocabulary for the results on times and dates *)

Module Formats.
Import PyStr Dates.
Local Open Scope N_scope.

(** The text "H:MM AM" or "H:MM PM" for an hour on the twelve-hour
    clock. *)
Definition clock_string (h m : N) (period : string) : string :=
  str_of_N h ++ ":" ++ pad2 m ++ " " ++ period.

Definition canonical_time (s : string) : Prop :=
  exists h m period,
    1 <= h <= 12 /\ m <= 59 /\ (period = "AM" \/ period = "PM")%string
    /\ s = clock_string h m period.

(** The numbers [first], ..., [first + count - 1]. *)
Definition N_range (first count : nat) : list N :=
  map N.of_nat (seq first count).

(** Every canonical time: twelve hours, sixty minutes, two periods. *)
Definition all_clock_strings : list string :=
  flat_map
    (fun h =>
       flat_map
         (fun m => [clock_string h m "AM"; clock_string h m "PM"])
         (N_range 0 60))
    (N_range 1 12).

(** [normalize_time] returns [s] when given [s]. *)
Definition fixed_by_normalize_time (s : string) : bool :=
  match TimeUtils.normalize_time s with
  | Ok (Some s') => String.eqb s' s
  | _ => false
  end.

(** A day of the calendar [datetime.date] supports. *)
Definition real_date (d : pydate) : Prop :=
  1 <= year d <= 9999
  /\ 1 <= month d <= 12
  /\ 1 <= day d <= days_in_month (year d) (month d).

(** Every character. *)
Definition all_ascii : list ascii := map ascii_of_nat (seq 0 256).

(** The text is made of ASCII characters only.  On such text the
    character classes of the model ([is_space], [is_digit], [is_word],
    [lower]) are those of Python's Unicode-aware patterns and methods. *)
Fixpoint ascii_text (s : string) : bool :=
  match s with
  | EmptyString => true
  | String c s' => (code c <? 128)%nat && ascii_text s'
  end.

(** The am/pm time found in a text is no time of the day: its minutes
    are 60 or more, or its hour is 13 or more before "pm" and 24 or
    more before "am". *)
Definition off_the_clock (m : Re.captures) : Prop :=
  let hour := int_of_digits (TimeUtils.group_or 1 m "") in
  let minute :=
    int_of_digits
      (match Re.group 2 m with
       | Some (String c r) => String c r
       | _ => "0"%string
       end) in
  60 <= minute
  \/ (if (lower (TimeUtils.group_or 3 m "") =? "pm")%string
      then 13 <= hour else 24 <= hour).

End Formats.

(** ** Vocabulary for the results on the extraction *)

Module ExtractionLaws.
Import PyStr BookingLogic.

(** The text of a turn as the extraction reads it. *)
Definition heard (msg : Message) : string := lower (content msg).

(** The turn contains a delegation phrase. *)
Definition delegates (msg : Message) : bool :=
  any_in delegation_phrases (heard msg).

(** The turn contains a cancellation word, or a word of change. *)
Definition says_cancel (msg : Message) : bool :=
  any_in ["cancel"; "cancelled"; "delete"] (heard msg).

Definition says_modify (msg : Message) : bool :=
  any_in ["change"; "modify"; "reschedule"] (heard msg).

Definition names_intent (msg : Message) : bool :=
  says_cancel msg || says_modify msg.

(** The intent the last turn that names one asks for; "book" when no
    turn names any. *)
Definition last_named_intent (messages : list Message) : string :=
  match find names_intent (rev messages) with
  | Some msg => if says_cancel msg then "cancel" else "modify"
  | None => "book"
  end.

(** The confidence values a turn of the conversation assigns to a slot
    it fills, and those the defaults under delegation assign. *)
Definition turn_levels : list Q := [0.7%Q; 0.9%Q; 0.95%Q].

Definition default_levels : list Q := [0.5%Q; 0.6%Q; 0.75%Q; 0.8%Q].

Definition levels : list Q := turn_levels ++ default_levels.

(** A slot and its confidence agree: a filled slot carries one of the
    values of [lv], an empty one carries 0.0. *)
Definition graded (lv : list Q) (slot : option string) (c : Q) : Prop :=
  if truthy slot then In c lv else c = 0.0%Q.

(** The confidences are those of the four slots, in their order, and
    each agrees with its slot. *)
Definition well_graded (lv : list Q) (st : State) (confs : Dict Q) : Prop :=
  exists cs cd ct cl,
    confs = [("service", cs); ("date", cd); ("time", ct); ("location", cl)]
    /\ graded lv (service st) cs
    /\ graded lv (date st) cd
    /\ graded lv (time st) ct
    /\ graded lv (location st) cl.

(** The services a conversation can end with: those of [SERVICES] but
    "head spa", and the two refinements of "appointment". *)
Definition reachable_services : list string :=
  [ "hotel"; "flight"; "appointment"; "spa"; "salon";
    "hospital"; "doctor"; "travel"; "facial"; "dental" ].

Definition reachable (svc : option string) : Prop :=
  match svc with
  | Some s => In s reachable_services
  | None => True
  end.

End ExtractionLaws.

(* ===================================================================== *)
(** ** clarifier.py *)
(* ===================================================================== *)

Module Clarifier.
Import PyStr BookingLogic.
Local Open Scope string_scope.

Definition fuzzy_map : Dict string :=
  [ ("morning", "between 7 AM and 11 AM");
    ("afternoon", "between 12 PM and 4 PM");
    ("evening", "between 4 PM and 9 PM");
    ("night", "after 9 PM");
    ("noon", "around 12 PM");
    ("after lunch", "between 2 PM and 4 PM") ].

(** [v < bound] on floats. *)
Definition below (v bound : Q) : bool := negb (Qle_bool bound v).

(** [[k for k, v in confidences.items() if ... v < 0.7]] *)
Definition low (confidences : Dict Q) : list string :=
  map fst (filter (fun kv => below (snd kv) 0.7%Q) confidences).

(** The chain of tests on [low[0]]; [None] when none of them holds. *)
Definition low_confidence_question (field : string) : option string :=
  if String.eqb field "location" then
    Some "Which city or location do you prefer for this booking?"
  else if String.eqb field "service" then
    Some "Which service would you like (e.g., spa, salon, doctor)?"
  else if String.eqb field "time" then
    Some "What time of day do you prefer? (e.g., 9 AM, afternoon, evening)"
  else if String.eqb field "date" then
    Some "On which date would you like the booking?"
  else None.

(** The loop over the four slots, left at the first empty one. *)
Definition missing_field_question (st : State) : option string :=
  if negb (truthy (service st)) then
    Some "Which service do you want to book? (spa, salon, doctor, etc.)"
  else if negb (truthy (date st)) then
    Some "Which date would you prefer for this booking?"
  else if negb (truthy (time st)) then
    Some "What time would you like?"
  else if negb (truthy (location st)) then
    Some "Which city or location should I use for this booking?"
  else None.

Definition generate_clarifying_question (state : BookingState)
    : option string :=
  match bs_ambiguities state with
  | token :: _ =>
      match dict_get fuzzy_map token with
      | Some range =>
          Some ("When you say '" ++ token ++ "', do you mean " ++ range ++ "?")
      | None =>
          Some ("Could you clarify what you mean by '" ++ token
                  ++ "' for the time?")
      end
  | [] =>
      let asked :=
        match low (bs_confidences state) with
        | field :: _ => low_confidence_question field
        | [] => None
        end in
      match asked with
      | Some question => Some question
      | None => missing_field_question (bs_state state)
      end
  end.

End Clarifier.

(* ===================================================================== *)
(** ** app.py: the decision to ask for a clarification *)
(* ===================================================================== *)

Module App.
Import PyStr BookingLogic.

(** [[k for k, v in state.get("confidences", {}).items()
      if v and v < 0.7]] *)
Definition low_conf (state : BookingState) : list string :=
  map fst
    (filter (fun kv => negb (Qeq_bool (snd kv) 0.0%Q)
                       && Clarifier.below (snd kv) 0.7%Q)
       (bs_confidences state)).

(** [low_conf and not state.get("delegated")] *)
Definition clarification_due (state : BookingState) : bool :=
  negb (SlotEngine.is_empty (low_conf state))
  && negb (delegated (bs_state state)).

(** [round(100 - (len(st.session_state.messages) * 2), 2)], the
    confidence the price of a new booking is computed from. *)
Definition booking_confidence (messages : list Message) : Q :=
  PyNum.round2 (100 - PyNum.len messages * 2)%Q.

End App.

(** ** Vocabulary for the results on the clarifier *)

Module ClarifierLaws.
Import PyStr BookingLogic Clarifier.

(** The first of the four slots, in the order of the confidences, whose
    confidence is below 0.7, and the question about it. *)
Definition first_unsettled (cs cd ct cl : Q) : option string :=
  if below cs 0.7%Q then Some "service"
  else if below cd 0.7%Q then Some "date"
  else if below ct 0.7%Q then Some "time"
  else if below cl 0.7%Q then Some "location"
  else None.

Definition question_for (field : option string) : option string :=
  match field with
  | Some f => low_confidence_question f
  | None => None
  end.

(** All four slots are filled. *)
Definition complete (st : State) : Prop :=
  truthy (service st) = true /\ truthy (date st) = true
  /\ truthy (time st) = true /\ truthy (location st) = true.

End ClarifierLaws.

(** ** Vocabulary for the results on the score *)

Module ScoreLaws.
Import BookingLogic.


End ScoreLaws.

(** ** Vocabulary for the results on the prices *)

Module PricingLaws.
Import Pricing.

(** The environment as a later call finds it: the cache as it is, the
    key and the answer of the remote service possibly different. *)
Definition later (env : FxEnv) (key : option string) (live : option Q)
    : FxEnv :=
  {| cache := cache env; api_key := key; live_rate := live |}.


Definition discount_of (r : (Q * Q * string) * FxEnv) : Q :=
  snd (fst (fst r)).


(** The discount by the number of turns of the conversation. *)
Definition discount_by_turns (turns : nat) : Q :=
  if (turns <=? 5)%nat then 15.0%Q
  else if (turns <=? 12)%nat then 10.0%Q
  else if (turns <=? 25)%nat then 5.0%Q
  else 0.0%Q.

End PricingLaws.

(* ===================================================================== *)
(** ** bookings_store.py: the JSON fallback *)
(* ===================================================================== *)

(** The functions the module defines when [sqlite3] cannot be imported.
    The state is the list of entries in [bookings.json]. *)
Module JsonStore.
Import PyStr BookingsStore.

(** [if service and b.get("service") != service: continue] *)
Definition skipped (filter column : option string) : bool :=
  truthy filter && negb (opt_eqb column filter).

Definition find_bookings (bookings : list Booking)
    (fs fd ft : option string) : list Booking :=
  filter
    (fun b =>
       if skipped fs (service b) then false
       else if skipped fd (date b) then false
       else if skipped ft (time b) then false
       else true)
    bookings.

(** The entry is appended and the file saved. *)
Definition add_booking (bookings : list Booking) (booking_id now : string)
    (booking : NewBooking) : Booking * list Booking :=
  let booking_entry :=
    {| id := booking_id;
       service := nb_service booking;
       date := nb_date booking;
       time := nb_time booking;
       location := nb_location booking;
       created_at := now;
       meta := nb_meta booking |} in
  (booking_entry, bookings ++ [booking_entry]).

(** The file is saved only when an entry went. *)
Definition remove_booking (bookings : list Booking) (booking_id : string)
    : bool * list Booking :=
  let new := filter (fun b => negb (String.eqb (id b) booking_id)) bookings in
  if (List.length new =? List.length bookings)%nat then (false, bookings)
  else (true, new).

End JsonStore.


(* ===================================================================== *)
(** * Properties *)
(* ===================================================================== *)

(** ** The time normaliser *)

(** C7: the twelve-hour branch of [normalize_time] hands the hour it read
    to [datetime.time] unchecked, so on the input "13pm" (hour 13 + 12)
    the call raises [ValueError] and no value, not even [None], comes
    back. *)
Theorem normalize_time_raises_on_13pm :
  TimeUtils.normalize_time "13pm" = Raise (ValueError "hour must be in 0..23").
Proof. vm_compute. reflexivity. Qed.

(** ** The store and the slot engine *)

Section SlotEngineFacts.
Import PyStr BookingsStore SlotEngine Spec.

Lemma opt_eqb_eq (a b : option string) : opt_eqb a b = true <-> a = b.
Proof.
  destruct a as [x|], b as [y|]; simpl; split; intros H;
    try discriminate; try reflexivity.
  - apply String.eqb_eq in H. now subst.
  - injection H as ->. apply String.eqb_refl.
Qed.

Lemma mem_In (x : string) (xs : list string) : mem x xs = true <-> In x xs.
Proof.
  unfold mem. rewrite existsb_exists. split.
  - intros [y [Hy E]]. apply String.eqb_eq in E. now subst.
  - intros H. exists x. split; [assumption | apply String.eqb_refl].
Qed.

Lemma is_empty_filter {A : Type} (f : A -> bool) (l : list A) :
  is_empty (filter f l) = true <-> ~ exists x, In x l /\ f x = true.
Proof.
  induction l as [|a l IH]; simpl.
  - split; [intros _ [x [[] _]] | reflexivity].
  - destruct (f a) eqn:Fa; simpl.
    + split; [discriminate | intros H; exfalso; apply H; exists a; auto].
    + rewrite IH. split; intros H [x [Hx Fx]]; apply H; exists x.
      * destruct Hx as [<- | Hx]; [congruence | auto].
      * auto.
Qed.

(** Every service of the catalog has a non-empty name. *)
Lemma catalog_service_named (svc : string) (slots : list string) :
  AVAILABLE_SLOTS svc = Some slots -> truthy (Some svc) = true.
Proof.
  destruct svc; [vm_compute; discriminate | reflexivity].
Qed.

Lemma clause_spec (filter column : option string) :
  clause filter column = true <-> (truthy filter = true -> column = filter).
Proof.
  unfold clause. destruct (truthy filter).
  - rewrite opt_eqb_eq. split; [intros <-; reflexivity | intros H; symmetry; auto].
  - split; [discriminate | reflexivity].
Qed.

Lemma selected_spec (svc : string) (dt tm : option string) (b : Booking) :
  truthy (Some svc) = true -> truthy tm = true ->
  selected (Some svc) dt tm b = true <-> matches_request svc dt tm b.
Proof.
  intros Hs Ht. unfold selected, matches_request.
  rewrite !andb_true_iff, !clause_spec. intuition.
Qed.

Lemma fresh_filter (i : string) (rows : list Booking) :
  fresh i rows -> filter (fun b => negb (has_id i b)) rows = rows.
Proof.
  unfold fresh. induction rows as [|b rows IH]; simpl; [reflexivity|].
  intros H. apply orb_false_iff in H as [Hb Hr].
  rewrite Hb. simpl. now rewrite IH.
Qed.

Lemma check_open (db : Store) (svc : string) (dt tm : option string) :
  always_open svc -> reports_free db svc dt tm.
Proof.
  unfold reports_free, check_availability.
  intros [-> | [slots [-> Hin]]]; [eauto|].
  apply mem_In in Hin. rewrite Hin. eauto.
Qed.

(** C4, as stated, fails when no date is given: the store then drops
    the date from its filter, so a spa booking on 2099-01-01 at 9:00 AM
    makes the request (spa, no date, 9:00 AM) unavailable although no
    stored booking has that exact triple. *)
Lemma availability_contract_as_stated_fails :
  ~ availability_contract_as_stated
      [ {| id := "bkg_1"; service := Some "spa"; date := Some "2099-01-01";
           time := Some "9:00 AM"; location := None;
           created_at := "t0"; meta := [] |} ]
      "spa" None (Some "9:00 AM").
Proof.
  unfold availability_contract_as_stated. vm_compute.
  intros [[_ H] _].
  assert (E : @Ok (bool * list string)
                (false, ["10:00 AM"; "11:00 AM"; "4:00 PM"])
              = Ok (true, ["9:00 AM"; "10:00 AM"; "11:00 AM"; "4:00 PM"])).
  { apply H. intros [b [[<- | []] [_ [D _]]]]. discriminate D. }
  discriminate E.
Qed.

(** The query of [check_availability] comes back empty exactly when no
    stored booking matches the request. *)
Lemma no_existing_iff
    (rows : list Booking) (svc : string) (dt tm : option string) :
  truthy (Some svc) = true -> truthy tm = true ->
  is_empty (filter (selected (Some svc) dt tm) rows) = true
  <-> ~ exists b, In b rows /\ matches_request svc dt tm b.
Proof.
  intros Hs Ht. rewrite is_empty_filter.
  split; intros H [b [Hb Hm]]; apply H; exists b; split; auto;
    apply (@selected_spec svc dt tm b Hs Ht); assumption.
Qed.

(** With a catalog that has no "Anytime" and a time that is given, the
    answer of [check_availability] is decided by the query alone. *)
Lemma check_availability_by_query
    (rows : list Booking) (svc : string) (dt tm : option string)
    (slots : list string) :
  AVAILABLE_SLOTS svc = Some slots ->
  mem "Anytime" slots = false ->
  truthy tm = true ->
  check_availability (Online rows) svc dt tm
  = if is_empty (filter (selected (Some svc) dt tm) rows)
    then Ok (true, slots)
    else Ok (false, other_slots tm slots).
Proof.
  intros Hc Ha Ht. unfold check_availability.
  rewrite Hc, Ha, Ht. simpl.
  destruct (is_empty _); reflexivity.
Qed.

(** C4, amended: [check_availability] answers [(True, ["Anytime"])] for a
    service without a catalog, is always available when the catalog
    offers "Anytime", answers available with the full catalog when the
    time is absent or empty, and otherwise is available with the full
    catalog exactly when no stored booking has this service and time and,
    if a date is given, this date; when one exists the answer is
    unavailable with the other catalog entries, in catalog order. *)
Theorem check_availability_contract
    (rows : list Booking) (svc : string) (dt tm : option string) :
  availability_contract rows svc dt tm.
Proof.
  unfold availability_contract.
  destruct (AVAILABLE_SLOTS svc) as [slots|] eqn:Hc.
  2:{ unfold check_availability. now rewrite Hc. }
  destruct (mem "Anytime" slots) eqn:Ha.
  { unfold check_availability. now rewrite Hc, Ha. }
  destruct (truthy tm) eqn:Ht; cbn [negb].
  2:{ unfold check_availability. now rewrite Hc, Ha, Ht. }
  rewrite (@check_availability_by_query rows svc dt tm slots Hc Ha Ht).
  pose proof (@no_existing_iff rows svc dt tm
                (catalog_service_named _ Hc) Ht) as He.
  destruct (is_empty (filter (selected (Some svc) dt tm) rows)) eqn:E.
  - split.
    + split; [intros _; now apply He | reflexivity].
    + intros Hex. exfalso. now apply (proj1 He).
  - split.
    + split; [discriminate|]. intros Hn. apply He in Hn. discriminate.
    + reflexivity.
Qed.

(** C5: [book_slot] raises the conflict error exactly when
    [check_availability] reports the slot unavailable on the store it is
    given; whenever it raises, the store is left as it was; when it
    returns, the store has gained exactly the returned record, which
    carries the given service, date, time and location; and it does
    return, with that record persisted, whenever the store works, the
    identifier drawn is unused and [check_availability] reports the
    slot free. *)
Theorem book_slot_conflict_iff_unavailable
    (db : Store) (booking_id now svc : string) (dt tm loc : option string)
    (meta : option Meta) :
  let outcome := book_slot db booking_id now svc dt tm loc meta in
  (fst outcome = Raise conflict <-> reports_taken db svc dt tm)
  /\ (forall e, fst outcome = Raise e -> snd outcome = db)
  /\ (forall b, fst outcome = Ok b ->
        exists rows,
          db = Online rows
          /\ snd outcome = Online (rows ++ [b])
          /\ id b = booking_id
          /\ service b = Some svc /\ date b = dt /\ time b = tm
          /\ location b = loc)
  /\ (forall rows,
        db = Online rows ->
        fresh booking_id rows ->
        reports_free db svc dt tm ->
        exists b,
          outcome = (Ok b, Online (rows ++ [b]))
          /\ id b = booking_id
          /\ service b = Some svc /\ date b = dt /\ time b = tm
          /\ location b = loc).
Proof.
  unfold book_slot, reports_taken, reports_free, fresh.
  destruct (check_availability db svc dt tm) as [[avail slots]|e] eqn:Hc.
  - destruct avail; simpl.
    + unfold add_booking. destruct db as [rows|]; simpl.
      * destruct (existsb (has_id booking_id) rows) eqn:Used; simpl.
        -- repeat split; try discriminate; try reflexivity.
           ++ intros [alts H]. discriminate.
           ++ intros rows0 E F. injection E as <-. congruence.
        -- repeat split; try discriminate.
           ++ intros [alts H]. discriminate.
           ++ intros b [= <-]. exists rows. simpl. repeat split.
           ++ intros rows0 E _ _. injection E as <-.
              eexists. split; [reflexivity|]. simpl. repeat split.
      * repeat split; try discriminate; try reflexivity.
        intros [alts H]. discriminate.
    + repeat split; try discriminate; try reflexivity; eauto.
      intros rows0 _ _ [sl H]. discriminate.
  - simpl. repeat split; try discriminate; try reflexivity.
    + intros [= ->].
      (* the store's own failure is not the conflict error *)
      unfold check_availability in Hc.
      destruct (AVAILABLE_SLOTS svc) as [sl|]; [|discriminate].
      destruct (mem "Anytime" sl); [discriminate|].
      destruct (negb (truthy tm)); [discriminate|].
      destruct db as [rows|]; simpl in Hc.
      * destruct (negb _) in Hc; discriminate.
      * discriminate.
    + intros [alts H]. discriminate.
    + intros rows0 _ _ [sl H]. discriminate.
Qed.

(** A free spa slot is booked on an empty store. *)
Lemma book_slot_conflict_iff_unavailable_witness :
  exists b,
    book_slot (Online []) "bkg_1" "t0" "spa" (Some "2099-01-01")
      (Some "9:00 AM") (Some "bangalore") None
    = (Ok b, Online ([] ++ [b]))
    /\ id b = "bkg_1"
    /\ service b = Some "spa" /\ date b = Some "2099-01-01"
    /\ time b = Some "9:00 AM" /\ location b = Some "bangalore".
Proof.
  apply (proj2 (proj2 (proj2
           (@book_slot_conflict_iff_unavailable (Online []) "bkg_1" "t0"
              "spa" (Some "2099-01-01") (Some "9:00 AM")
              (Some "bangalore") None))) []).
  - reflexivity.
  - reflexivity.
  - eexists. vm_compute. reflexivity.
Defined.

(** Both outcomes occur: a taken spa slot is refused and the store is
    unchanged; a free one is booked. *)
Example book_slot_refuses_taken_slot :
  let taken :=
    {| id := "bkg_1"; service := Some "spa"; date := Some "2099-01-01";
       time := Some "9:00 AM"; location := None;
       created_at := "t0"; meta := [] |} in
  book_slot (Online [taken]) "bkg_2" "t1" "spa" (Some "2099-01-01")
    (Some "9:00 AM") (Some "bangalore") None
  = (Raise conflict, Online [taken]).
Proof. reflexivity. Qed.

Example book_slot_books_free_slot :
  book_slot (Online []) "bkg_1" "t0" "spa" (Some "2099-01-01")
    (Some "9:00 AM") (Some "bangalore") None
  = (Ok {| id := "bkg_1"; service := Some "spa";
           date := Some "2099-01-01"; time := Some "9:00 AM";
           location := Some "bangalore"; created_at := "t0"; meta := [] |},
     Online [ {| id := "bkg_1"; service := Some "spa";
                 date := Some "2099-01-01"; time := Some "9:00 AM";
                 location := Some "bangalore"; created_at := "t0";
                 meta := [] |} ]).
Proof. reflexivity. Qed.

(** C6, as stated, fails for a service that is always open: a hotel
    night reported free is booked, and the re-check still reports it
    free. *)
Lemma round_trip_as_stated_fails_for_hotel :
  ~ round_trip_as_stated [] "bkg_1" "t0" "hotel"
      (Some "2099-01-01") (Some "Anytime") None None.
Proof.
  unfold round_trip_as_stated. intros H.
  assert (F : reports_free (Online []) "hotel"
                (Some "2099-01-01") (Some "Anytime")).
  { eexists. vm_compute. reflexivity. }
  specialize (H F _ _ eq_refl) as [[alts T] _].
  vm_compute in T. discriminate T.
Qed.

(** C6, amended: for a service whose catalog does not offer "Anytime", a
    non-empty time and a fresh identifier, if the slot is reported free
    then [book_slot] succeeds, the re-check reports the slot unavailable,
    cancelling the returned booking succeeds and restores the store, and
    the slot is reported free again. *)
Theorem book_cancel_round_trip
    (rows : list Booking) (booking_id now svc : string)
    (dt tm loc : option string) (meta : option Meta) (slots : list string) :
  AVAILABLE_SLOTS svc = Some slots ->
  mem "Anytime" slots = false ->
  truthy tm = true ->
  fresh booking_id rows ->
  reports_free (Online rows) svc dt tm ->
  exists b,
    book_slot (Online rows) booking_id now svc dt tm loc meta
      = (Ok b, Online (rows ++ [b]))
    /\ id b = booking_id
    /\ check_availability (Online (rows ++ [b])) svc dt tm
         = Ok (false, other_slots tm slots)
    /\ cancel_booking (Online (rows ++ [b])) (id b) = (Ok true, Online rows)
    /\ check_availability (Online rows) svc dt tm = Ok (true, slots).
Proof.
  intros Hc Ha Ht Hf [sl Hfree].
  pose proof (catalog_service_named _ Hc) as Hs.
  assert (Hfree' : check_availability (Online rows) svc dt tm
                   = Ok (true, slots)).
  { rewrite (@check_availability_by_query rows svc dt tm slots Hc Ha Ht)
      in Hfree |- *.
    destruct (is_empty _); [reflexivity | discriminate]. }
  unfold book_slot. rewrite Hfree'. simpl.
  unfold fresh in Hf. rewrite Hf.
  eexists. split; [reflexivity|].
  match goal with |- context [Online (rows ++ [?b])] => set (entry := b) end.
  assert (Hid : has_id booking_id entry = true) by apply String.eqb_refl.
  split; [reflexivity|]. split; [|split; [|reflexivity]].
  - rewrite (@check_availability_by_query (rows ++ [entry]) svc dt tm slots
               Hc Ha Ht).
    destruct (is_empty _) eqn:E; [exfalso | reflexivity].
    apply (@no_existing_iff (rows ++ [entry]) svc dt tm Hs Ht) in E. apply E.
    exists entry. split; [apply in_or_app; right; left; reflexivity|].
    unfold matches_request, entry. simpl. auto.
  - unfold cancel_booking, remove_booking.
    change (id entry) with booking_id.
    rewrite filter_app, (fresh_filter Hf), length_app.
    cbn [filter]. rewrite Hid. cbn [negb List.length].
    rewrite app_nil_r, length_app. cbn [List.length].
    replace (List.length rows + 0 =? List.length rows + 1) with false;
      [reflexivity|].
    symmetry. apply Nat.eqb_neq. lia.
Qed.

(** A run of the round trip: a free spa slot, booked and cancelled. *)
Lemma book_cancel_round_trip_witness :
  exists b,
    book_slot (Online []) "bkg_1" "t0" "spa" (Some "2099-01-01")
      (Some "9:00 AM") (Some "bangalore") None
      = (Ok b, Online ([] ++ [b]))
    /\ id b = "bkg_1"
    /\ check_availability (Online ([] ++ [b])) "spa" (Some "2099-01-01")
         (Some "9:00 AM")
         = Ok (false, other_slots (Some "9:00 AM")
                        ["9:00 AM"; "10:00 AM"; "11:00 AM"; "4:00 PM"])
    /\ cancel_booking (Online ([] ++ [b])) (id b) = (Ok true, Online [])
    /\ check_availability (Online []) "spa" (Some "2099-01-01")
         (Some "9:00 AM")
         = Ok (true, ["9:00 AM"; "10:00 AM"; "11:00 AM"; "4:00 PM"]).
Proof.
  apply (@book_cancel_round_trip [] "bkg_1" "t0" "spa" (Some "2099-01-01")
           (Some "9:00 AM") (Some "bangalore") None
           ["9:00 AM"; "10:00 AM"; "11:00 AM"; "4:00 PM"]).
  - reflexivity.
  - reflexivity.
  - reflexivity.
  - reflexivity.
  - eexists. vm_compute. reflexivity.
Defined.

(** C10: a service without a catalog, or whose catalog offers "Anytime",
    is reported available whatever the store holds; [book_slot] never
    raises a [ValueError] for it; and two calls with the same service,
    date and time (and two fresh identifiers) both succeed and leave two
    distinct records for the same slot in the store. *)
Theorem always_open_allows_double_booking (svc : string) :
  always_open svc ->
  (forall db dt tm, reports_free db svc dt tm)
  /\ (forall db booking_id now dt tm loc meta msg,
        fst (book_slot db booking_id now svc dt tm loc meta)
          <> Raise (ValueError msg))
  /\ (forall rows id1 id2 now1 now2 dt tm loc meta,
        fresh id1 rows -> fresh id2 rows -> id1 <> id2 ->
        exists b1 b2,
          book_slot (Online rows) id1 now1 svc dt tm loc meta
            = (Ok b1, Online (rows ++ [b1]))
          /\ book_slot (Online (rows ++ [b1])) id2 now2 svc dt tm loc meta
               = (Ok b2, Online (rows ++ [b1; b2]))
          /\ b1 <> b2
          /\ id b1 = id1 /\ id b2 = id2
          /\ service b1 = Some svc /\ date b1 = dt /\ time b1 = tm
          /\ service b2 = Some svc /\ date b2 = dt /\ time b2 = tm).
Proof.
  intros Hopen. split; [|split].
  - intros. now apply check_open.
  - intros db booking_id now dt tm loc meta msg.
    unfold book_slot.
    destruct (check_open db dt tm Hopen) as [sl ->]. simpl.
    unfold add_booking. destruct db as [rows|]; simpl; [|discriminate].
    destruct (existsb (has_id booking_id) rows); simpl; discriminate.
  - intros rows id1 id2 now1 now2 dt tm loc meta F1 F2 Hne.
    unfold book_slot.
    destruct (check_open (Online rows) dt tm Hopen) as [sl ->]. simpl.
    unfold fresh in F1, F2. rewrite F1.
    eexists. eexists. split; [reflexivity|].
    match goal with |- context [Online (rows ++ [?b])] => set (b1 := b) end.
    destruct (check_open (Online (rows ++ [b1])) dt tm Hopen) as [sl' ->].
    simpl. rewrite existsb_app, F2. simpl.
    unfold has_id at 1. simpl.
    replace (id1 =? id2)%string with false
      by (symmetry; now apply String.eqb_neq).
    simpl. rewrite <- app_assoc. simpl.
    split; [reflexivity|].
    split; [intros E; apply Hne; now injection E|].
    repeat split.
Qed.

(** A hotel night booked twice on an empty store. *)
Lemma always_open_allows_double_booking_witness :
  exists b1 b2,
    book_slot (Online []) "bkg_1" "t0" "hotel" (Some "2099-01-01")
      (Some "Anytime") None None = (Ok b1, Online ([] ++ [b1]))
    /\ book_slot (Online ([] ++ [b1])) "bkg_2" "t1" "hotel"
         (Some "2099-01-01") (Some "Anytime") None None
         = (Ok b2, Online ([] ++ [b1; b2]))
    /\ b1 <> b2
    /\ id b1 = "bkg_1" /\ id b2 = "bkg_2"
    /\ service b1 = Some "hotel" /\ date b1 = Some "2099-01-01"
    /\ time b1 = Some "Anytime"
    /\ service b2 = Some "hotel" /\ date b2 = Some "2099-01-01"
    /\ time b2 = Some "Anytime".
Proof.
  assert (Hopen : always_open "hotel").
  { right. exists ["Anytime"]. split; [reflexivity | left; reflexivity]. }
  apply (proj2 (proj2 (always_open_allows_double_booking Hopen))).
  - reflexivity.
  - reflexivity.
  - discriminate.
Defined.

End SlotEngineFacts.

(** ** Extraction *)

Section ExtractionFacts.
Import PyStr BookingLogic Spec.
Local Open Scope exc_scope.

Lemma dict_get_set {V : Type} (d : Dict V) (k : string) (v : V) (k' : string) :
  dict_get (dict_set d k v) k'
  = if String.eqb k k' then Some v else dict_get d k'.
Proof.
  unfold dict_get. induction d as [|[a w] d IH]; simpl.
  - reflexivity.
  - destruct (String.eqb a k) eqn:Eak; simpl.
    + apply String.eqb_eq in Eak. subst a.
      destruct (String.eqb k k'); reflexivity.
    + destruct (String.eqb a k') eqn:Eak'.
      * apply String.eqb_eq in Eak'. subst k'.
        rewrite String.eqb_sym, Eak. reflexivity.
      * apply IH.
Qed.

Lemma untouched_refl slot key b : untouched slot key b b.
Proof. split; reflexivity. Qed.

Lemma untouched_trans slot key b1 b2 b3 :
  untouched slot key b1 b2 -> untouched slot key b2 b3 ->
  untouched slot key b1 b3.
Proof. intros [A B] [C D]. split; congruence. Qed.

Lemma untouched_truthy slot key b b' :
  untouched slot key b b' ->
  truthy (slot (bs_state b)) = true -> truthy (slot (bs_state b')) = true.
Proof. intros [A _] H. now rewrite A. Qed.

Lemma kept_monotone b b' : kept b b' -> monotone b b'.
Proof.
  intros (A & B & C & D). split; [|split; [|split]]; auto.
Qed.

Lemma monotone_refl b : monotone b b.
Proof. repeat split; intros; try left; apply untouched_refl. Qed.

Lemma monotone_trans b1 b2 b3 :
  monotone b1 b2 -> monotone b2 b3 -> monotone b1 b3.
Proof.
  intros (S1 & D1 & T1 & L1) (S2 & D2 & T2 & L2).
  split; [|split; [|split]]; intros H.
  - destruct (S1 H) as [U | [A R]].
    + destruct (S2 (untouched_truthy U H)) as [U' | [A' R']].
      * left. eapply untouched_trans; eauto.
      * right. split; [|exact R']. destruct U as [U _]. congruence.
    + right. split; [exact A|].
      assert (Hs : truthy (service (bs_state b2)) = true).
      { destruct R as [[-> _] | [-> _]]; reflexivity. }
      destruct (S2 Hs) as [[V C] | [A' _]].
      * unfold holds in *. rewrite V, C. exact R.
      * destruct R as [[E _] | [E _]]; congruence.
  - eapply untouched_trans; [apply D1 | apply D2]; auto.
    eapply untouched_truthy; eauto.
  - eapply untouched_trans; [apply T1 | apply T2]; auto.
    eapply untouched_truthy; eauto.
  - eapply untouched_trans; [apply L1 | apply L2]; auto.
    eapply untouched_truthy; eauto.
Qed.

(** Unfolds one assignment block and compares the slots before and
    after it. *)
Ltac slots_compared :=
  unfold kept, monotone, untouched, refined, holds, conf_of;
  cbn [attach bs_state bs_confidences state confidences
       with_state set_confidence explain set_explicit_location
       set_service set_date set_time set_location set_intent set_delegated
       set_location_auto_selected set_service_auto_selected
       service date time location];
  rewrite ?dict_get_set; cbn [String.eqb Ascii.eqb Bool.eqb];
  repeat split; intros; try congruence; auto.

Lemma kept_refl b : kept b b.
Proof. repeat split; reflexivity. Qed.

Lemma negb_truthy_true (o : option string) :
  negb (truthy o) = true -> truthy o = true -> False.
Proof. destruct (truthy o); simpl; congruence. Qed.

Lemma location_pattern_kept text L :
  kept (attach L) (attach (location_pattern text L)).
Proof.
  unfold location_pattern.
  destruct (Re.search re_in_place text) as [m|]; [|apply kept_refl].
  destruct (mem _ CITIES).
  - destruct (negb (truthy (location (state L)))) eqn:G; [|apply kept_refl].
    slots_compared; exfalso; eauto using negb_truthy_true.
  - slots_compared.
Qed.

Lemma detect_delegation_kept text L :
  kept (attach L) (attach (detect_delegation text L)).
Proof.
  unfold detect_delegation.
  destruct (any_in delegation_phrases text); [slots_compared | apply kept_refl].
Qed.

Lemma detect_intent_kept text L :
  kept (attach L) (attach (detect_intent text L)).
Proof.
  unfold detect_intent.
  destruct (any_in _ text); [slots_compared|].
  destruct (any_in _ text); [slots_compared | apply kept_refl].
Qed.

Lemma kept_trans b1 b2 b3 : kept b1 b2 -> kept b2 b3 -> kept b1 b3.
Proof.
  intros (S1 & D1 & T1 & L1) (S2 & D2 & T2 & L2).
  split; [|split; [|split]]; intros H.
  - apply (untouched_trans (S1 H)), S2. apply (untouched_truthy (S1 H) H).
  - apply (untouched_trans (D1 H)), D2. apply (untouched_truthy (D1 H) H).
  - apply (untouched_trans (T1 H)), T2. apply (untouched_truthy (T1 H) H).
  - apply (untouched_trans (L1 H)), L2. apply (untouched_truthy (L1 H) H).
Qed.

Lemma service_step_kept text L s :
  kept (attach L) (attach (service_step text L s)).
Proof.
  unfold service_step.
  destruct (contains s text); simpl; [|apply kept_refl].
  destruct (negb (truthy (service (state L)))) eqn:G; [|apply kept_refl].
  slots_compared; exfalso; eauto using negb_truthy_true.
Qed.

Lemma detect_service_kept text L :
  kept (attach L) (attach (detect_service text L)).
Proof.
  unfold detect_service. generalize SERVICES. intros l. revert L.
  induction l as [|s l IH]; intros L; simpl; [apply kept_refl|].
  eapply kept_trans; [apply service_step_kept | apply IH].
Qed.

Lemma refine_service_monotone text L :
  monotone (attach L) (attach (refine_service text L)).
Proof.
  unfold refine_service.
  destruct (BookingsStore.opt_eqb _ _) eqn:E; [|apply monotone_refl].
  apply opt_eqb_eq in E.
  destruct (any_in _ text).
  - slots_compared.
  - destruct (any_in _ text); [|apply monotone_refl].
    slots_compared.
Qed.

Lemma detect_date_kept today text L L' :
  detect_date today text L = Ok L' -> kept (attach L) (attach L').
Proof.
  unfold detect_date.
  destruct (negb (truthy (date (state L)))) eqn:G;
    [|intros [= <-]; apply kept_refl].
  destruct (_parse_date today text) as [parsed|e]; cbn [bind]; [|discriminate].
  destruct (truthy parsed); intros [= <-]; [|apply kept_refl].
  slots_compared; exfalso; eauto using negb_truthy_true.
Qed.

Lemma fuzzy_time_kept text items L :
  negb (truthy (time (state L))) = true ->
  kept (attach L) (attach (fuzzy_time text items L)).
Proof.
  intros G. induction items as [|[w resolved] items IH]; simpl;
    [apply kept_refl|].
  destruct (contains w text); [|exact IH].
  slots_compared; exfalso; eauto using negb_truthy_true.
Qed.

Lemma detect_time_kept text L L' :
  detect_time text L = Ok L' -> kept (attach L) (attach L').
Proof.
  unfold detect_time.
  destruct (negb (truthy (time (state L)))) eqn:G;
    [|intros [= <-]; apply kept_refl].
  destruct (TimeUtils.normalize_time text) as [tv|e]; cbn [bind]; [|discriminate].
  destruct (truthy tv); intros [= <-];
    [|exact (@fuzzy_time_kept text fuzzy_map L G)].
  slots_compared; exfalso; eauto using negb_truthy_true.
Qed.

Lemma city_step_kept text L city :
  kept (attach L) (attach (city_step text L city)).
Proof.
  unfold city_step.
  destruct (contains city text); simpl; [|apply kept_refl].
  destruct (negb (truthy (location (state L)))) eqn:G; [|apply kept_refl].
  slots_compared; exfalso; eauto using negb_truthy_true.
Qed.

Lemma detect_city_kept text L :
  kept (attach L) (attach (detect_city text L)).
Proof.
  unfold detect_city. generalize CITIES. intros l. revert L.
  induction l as [|c l IH]; intros L; simpl; [apply kept_refl|].
  eapply kept_trans; [apply city_step_kept | apply IH].
Qed.

(** One turn keeps every slot that is set, up to the refinement of the
    generic service. *)
Lemma process_turn_monotone today msg L L' :
  process_turn today msg L = Ok L' -> monotone (attach L) (attach L').
Proof.
  unfold process_turn.
  set (text := lower (content msg)).
  set (L1 := location_pattern text L).
  set (L2 := detect_delegation text L1).
  set (L3 := detect_intent text L2).
  set (L4 := detect_service text L3).
  set (L5 := refine_service text L4).
  destruct (detect_date today text L5) as [L6|e] eqn:E6; cbn [bind]; [|discriminate].
  destruct (detect_time text L6) as [L7|e] eqn:E7; cbn [bind]; [|discriminate].
  intros [= <-].
  apply monotone_trans with (attach L4).
  { apply kept_monotone.
    apply kept_trans with (attach L1); [apply location_pattern_kept|].
    apply kept_trans with (attach L2); [apply detect_delegation_kept|].
    apply kept_trans with (attach L3); [apply detect_intent_kept|].
    apply detect_service_kept. }
  apply monotone_trans with (attach L5); [apply refine_service_monotone|].
  apply kept_monotone.
  apply kept_trans with (attach L6); [apply (detect_date_kept _ _ _ E6)|].
  apply kept_trans with (attach L7); [apply (detect_time_kept _ _ E7)|].
  apply detect_city_kept.
Qed.

Lemma run_turns_monotone today msgs L L' :
  run_turns today msgs L = Ok L' -> monotone (attach L) (attach L').
Proof.
  revert L. induction msgs as [|msg msgs IH]; intros L; simpl.
  - intros [= <-]. apply monotone_refl.
  - destruct (process_turn today msg L) as [L1|e] eqn:E; cbn [bind]; [|discriminate].
    intros H. eapply monotone_trans; [eapply process_turn_monotone; eauto|].
    now apply IH.
Qed.

Lemma run_turns_app today earlier later L :
  run_turns today (earlier ++ later) L
  = (L' <- run_turns today earlier L ;; run_turns today later L').
Proof.
  revert L. induction earlier as [|msg earlier IH]; intros L; simpl.
  - reflexivity.
  - destruct (process_turn today msg L); simpl; [apply IH | reflexivity].
Qed.

(** *** What the loop never writes *)

Ltac by_cases :=
  repeat match goal with
         | |- context [match ?x with _ => _ end] => destruct x
         end;
  repeat split.

Lemma inert_refl L : inert L L.
Proof. repeat split. Qed.

Lemma inert_trans L1 L2 L3 : inert L1 L2 -> inert L2 L3 -> inert L1 L3.
Proof. intros (A & B & C) (D & E & F). repeat split; congruence. Qed.

Lemma fold_left_inert {A : Type} (f : Locals -> A -> Locals) (l : list A) :
  (forall L a, inert L (f L a)) -> forall L, inert L (fold_left f l L).
Proof.
  intros Hf. induction l as [|a l IH]; intros L; simpl.
  - apply inert_refl.
  - eapply inert_trans; [apply Hf | apply IH].
Qed.

Lemma Ok_inj {A : Type} (a b : A) : Ok a = Ok b -> a = b.
Proof. intros H. now injection H. Qed.

Lemma fuzzy_time_inert text items L : inert L (fuzzy_time text items L).
Proof.
  induction items as [|[w r] items IH]; cbn [fuzzy_time];
    [apply inert_refl|].
  destruct (contains w text); [repeat split | exact IH].
Qed.

Lemma process_turn_inert today msg L L' :
  process_turn today msg L = Ok L' -> inert L L'.
Proof.
  unfold process_turn.
  set (text := lower (content msg)).
  set (L1 := location_pattern text L).
  set (L2 := detect_delegation text L1).
  set (L3 := detect_intent text L2).
  set (L4 := detect_service text L3).
  set (L5 := refine_service text L4).
  destruct (detect_date today text L5) as [L6|e] eqn:E6; cbn [bind]; [|discriminate].
  destruct (detect_time text L6) as [L7|e] eqn:E7; cbn [bind]; [|discriminate].
  intros [= <-].
  apply inert_trans with L1.
  { unfold L1, location_pattern, inert. by_cases. }
  apply inert_trans with L2.
  { unfold L2, detect_delegation, inert. by_cases. }
  apply inert_trans with L3.
  { unfold L3, detect_intent, inert. by_cases. }
  apply inert_trans with L4.
  { apply fold_left_inert. intros M a.
    unfold service_step, inert. by_cases. }
  apply inert_trans with L5.
  { unfold L5, refine_service, inert. by_cases. }
  apply inert_trans with L6.
  { revert E6. unfold detect_date, inert.
    destruct (negb _); [|intros [= <-]; repeat split].
    destruct (_parse_date today text); cbn [bind]; [|discriminate].
    destruct (truthy _); intros [= <-]; repeat split. }
  apply inert_trans with L7.
  { revert E7. unfold detect_time.
    destruct (negb _); [|intros [= <-]; repeat split].
    destruct (TimeUtils.normalize_time text); cbn [bind]; [|discriminate].
    destruct (truthy _); intros H; apply Ok_inj in H; subst L7;
      [repeat split | apply fuzzy_time_inert]. }
  apply fold_left_inert. intros M a. unfold city_step, inert. by_cases.
Qed.

Lemma run_turns_inert today msgs L L' :
  run_turns today msgs L = Ok L' -> inert L L'.
Proof.
  revert L. induction msgs as [|msg msgs IH]; intros L; simpl.
  - intros [= <-]. apply inert_refl.
  - destruct (process_turn today msg L) as [L1|e] eqn:E; cbn [bind]; [|discriminate].
    intros H. eapply inert_trans; [eapply process_turn_inert; eauto|].
    now apply IH.
Qed.

(** *** The default pass, one slot at a time *)

Lemma truthy_Some (o : option string) :
  truthy o = true -> exists c r, o = Some (String c r).
Proof. destruct o as [[|c r]|]; try discriminate. eauto. Qed.

Lemma default_service_effect L :
  let L' := default_service L in
  (if truthy (service (state L)) then L' = L
   else holds service "service" (attach L') "facial" 0.6
        /\ service_auto_selected (state L') = true)
  /\ truthy (service (state L')) = true
  /\ untouched date "date" (attach L) (attach L')
  /\ untouched time "time" (attach L) (attach L')
  /\ untouched location "location" (attach L) (attach L')
  /\ explicit_location L' = explicit_location L
  /\ location_auto_selected (state L') = location_auto_selected (state L).
Proof.
  unfold default_service.
  destruct (truthy (service (state L))) eqn:T; cbn [negb]; slots_compared.
Qed.

Lemma default_date_effect iso L :
  let L' := default_date iso L in
  (if truthy (date (state L)) then L' = L
   else holds date "date" (attach L') iso 0.6)
  /\ untouched service "service" (attach L) (attach L')
  /\ untouched time "time" (attach L) (attach L')
  /\ untouched location "location" (attach L) (attach L')
  /\ explicit_location L' = explicit_location L
  /\ service_auto_selected (state L') = service_auto_selected (state L)
  /\ location_auto_selected (state L') = location_auto_selected (state L).
Proof.
  unfold default_date.
  destruct (truthy (date (state L))) eqn:T; cbn [negb]; slots_compared.
Qed.

Lemma default_time_effect db L :
  let L' := default_time db L in
  (if truthy (time (state L)) then L' = L
   else forall svc,
       service (state L) = Some svc -> truthy (Some svc) = true ->
       match SlotEngine.find_next_available db svc (date (state L)) None with
       | Ok (Some (slot, _)) => holds time "time" (attach L') slot 0.75
       | Ok None => holds time "time" (attach L') "10:00 AM" 0.6
       | Raise _ => holds time "time" (attach L') "10:00 AM" 0.6
       end)
  /\ untouched service "service" (attach L) (attach L')
  /\ untouched date "date" (attach L) (attach L')
  /\ untouched location "location" (attach L) (attach L')
  /\ explicit_location L' = explicit_location L
  /\ service_auto_selected (state L') = service_auto_selected (state L)
  /\ location_auto_selected (state L') = location_auto_selected (state L).
Proof.
  unfold default_time.
  destruct (truthy (time (state L))) eqn:T; cbn [negb];
    [slots_compared|].
  split.
  - intros svc Hs Hn. rewrite Hs.
    destruct svc as [|c r]; [discriminate|].
    destruct (SlotEngine.find_next_available db (String c r) _ None)
      as [[[slot all]|]|e]; cbn [bind]; unfold static_time; slots_compared.
  - destruct (service (state L)) as [[|c r]|]; unfold static_time;
      try solve [slots_compared].
    destruct (SlotEngine.find_next_available db (String c r) _ None)
      as [[[slot all]|]|e]; cbn [bind]; unfold static_time; slots_compared.
Qed.

Lemma default_location_effect L :
  let L' := default_location L in
  (if truthy (location (state L)) then L' = L
   else if truthy (explicit_location L)
        then (exists stashed,
                 explicit_location L = Some stashed
                 /\ holds location "location" (attach L') stashed 0.8)
             /\ location_auto_selected (state L')
                = location_auto_selected (state L)
        else (exists city,
                 hd_error CITIES = Some city
                 /\ holds location "location" (attach L') city 0.5)
             /\ location_auto_selected (state L') = true)
  /\ untouched service "service" (attach L) (attach L')
  /\ untouched date "date" (attach L) (attach L')
  /\ untouched time "time" (attach L) (attach L')
  /\ service_auto_selected (state L') = service_auto_selected (state L).
Proof.
  unfold default_location.
  destruct (truthy (location (state L))) eqn:T; cbn [negb];
    [slots_compared|].
  destruct (explicit_location L) as [[|c r]|]; cbn [truthy];
    slots_compared; eexists; split; try reflexivity; slots_compared.
Qed.

Lemma holds_untouched slot key b b' v c :
  holds slot key b v c -> untouched slot key b b' -> holds slot key b' v c.
Proof. intros [A B] [C D]. split; congruence. Qed.

Lemma delegation_defaults_kept today db L :
  kept (attach L) (attach (delegation_defaults today db L)).
Proof.
  unfold delegation_defaults.
  destruct (delegated (state L)); [|apply kept_refl].
  set (L1 := default_service L).
  set (L2 := default_date (Dates.isoformat today) L1).
  set (L3 := default_time db L2).
  pose proof (default_service_effect L) as E1.
  pose proof (default_date_effect (Dates.isoformat today) L1) as E2.
  pose proof (default_time_effect db L2) as E3.
  pose proof (default_location_effect L3) as E4.
  cbv zeta in E1, E2, E3, E4. fold L1 in E1. fold L2 in E2. fold L3 in E3.
  set (L4 := default_location L3) in *.
  destruct E1 as (A1 & _ & B1 & C1 & D1 & _).
  destruct E2 as (A2 & B2 & C2 & D2 & _).
  destruct E3 as (A3 & B3 & C3 & D3 & _).
  destruct E4 as (A4 & B4 & C4 & D4 & _).
  split; [|split; [|split]]; intros T; cbn [attach bs_state] in T.
  - rewrite T in A1.
    assert (U : untouched service "service" (attach L) (attach L1))
      by (rewrite A1; apply untouched_refl).
    eauto using untouched_trans.
  - assert (T1 : truthy (date (state L1)) = true)
      by (apply (untouched_truthy B1); exact T).
    rewrite T1 in A2.
    assert (U : untouched date "date" (attach L1) (attach L2))
      by (rewrite A2; apply untouched_refl).
    eauto using untouched_trans.
  - assert (T2 : truthy (time (state L2)) = true).
    { apply (untouched_truthy C2), (untouched_truthy C1). exact T. }
    rewrite T2 in A3.
    assert (U : untouched time "time" (attach L2) (attach L3))
      by (rewrite A3; apply untouched_refl).
    eauto using untouched_trans.
  - assert (T3 : truthy (location (state L3)) = true).
    { apply (untouched_truthy D3), (untouched_truthy D2),
        (untouched_truthy D1). exact T. }
    rewrite T3 in A4.
    assert (U : untouched location "location" (attach L3) (attach L4))
      by (rewrite A4; apply untouched_refl).
    eauto using untouched_trans.
Qed.

(** The sub-type is decided by the first turn if it has a keyword. *)
Lemma refinement_cons msg later :
  refinement (msg :: later)
  = if names_facial msg then Some "facial"
    else if names_dental msg then Some "dental"
    else refinement later.
Proof.
  unfold refinement. cbn [find].
  destruct (names_facial msg) eqn:F; cbn [orb]; [now rewrite F|].
  destruct (names_dental msg); [now rewrite F | reflexivity].
Qed.

Lemma refinement_named later sub :
  refinement later = Some sub -> truthy (Some sub) = true.
Proof.
  unfold refinement. destruct (find _ later) as [msg|]; [|discriminate].
  intros E. injection E as <-. now destruct (names_facial msg).
Qed.

(** The service through one turn, and through a run of turns. *)
Lemma turn_service_kept today msg L L' :
  process_turn today msg L = Ok L' ->
  truthy (service (state L)) = true ->
  service_kept [msg] (attach L) (attach L').
Proof.
  unfold process_turn.
  set (text := lower (content msg)).
  set (L1 := location_pattern text L).
  set (L2 := detect_delegation text L1).
  set (L3 := detect_intent text L2).
  set (L4 := detect_service text L3).
  set (L5 := refine_service text L4).
  destruct (detect_date today text L5) as [L6|e] eqn:E6; cbn [bind];
    [|discriminate].
  destruct (detect_time text L6) as [L7|e] eqn:E7; cbn [bind];
    [|discriminate].
  intros H T. apply Ok_inj in H. subst L'.
  assert (K4 : kept (attach L) (attach L4)).
  { apply kept_trans with (attach L1); [apply location_pattern_kept|].
    apply kept_trans with (attach L2); [apply detect_delegation_kept|].
    apply kept_trans with (attach L3); [apply detect_intent_kept|].
    apply detect_service_kept. }
  assert (K7 : kept (attach L5) (attach (detect_city text L7))).
  { apply kept_trans with (attach L6); [apply (detect_date_kept _ _ _ E6)|].
    apply kept_trans with (attach L7); [apply (detect_time_kept _ _ E7)|].
    apply detect_city_kept. }
  pose proof (proj1 K4 T) as U4.
  assert (S4 : service (state L4) = service (state L)) by apply U4.
  unfold service_kept. rewrite refinement_cons.
  unfold names_facial, names_dental, refinement. cbn [find attach bs_state].
  change (lower (content msg)) with text.
  unfold L5, refine_service in K7. rewrite S4 in K7.
  destruct (BookingsStore.opt_eqb (service (state L)) (Some "appointment"))
    eqn:A.
  - destruct (any_in ["facial"; "face"; "skincare"; "cleaning"; "derma"]
                text) eqn:F.
    + eapply holds_untouched; [|apply (proj1 K7); reflexivity].
      unfold holds, conf_of.
      cbn [attach bs_state bs_confidences state confidences explain
           set_confidence with_state set_service service].
      rewrite dict_get_set. split; reflexivity.
    + destruct (any_in ["dental"; "dentist"] text) eqn:D.
      * eapply holds_untouched; [|apply (proj1 K7); reflexivity].
        unfold holds, conf_of.
        cbn [attach bs_state bs_confidences state confidences explain
             set_confidence with_state set_service service].
        rewrite dict_get_set. split; reflexivity.
      * apply (untouched_trans U4), (proj1 K7).
        cbn [attach bs_state]. now rewrite S4.
  - apply (untouched_trans U4), (proj1 K7).
    cbn [attach bs_state]. now rewrite S4.
Qed.

Lemma run_turns_service_kept today later :
  forall L L',
    run_turns today later L = Ok L' ->
    truthy (service (state L)) = true ->
    service_kept later (attach L) (attach L').
Proof.
  induction later as [|msg later IH]; intros L L'; cbn [run_turns].
  - intros E _. apply Ok_inj in E. subst L'.
    unfold service_kept, refinement. cbn [find].
    destruct (BookingsStore.opt_eqb _ _); apply untouched_refl.
  - destruct (process_turn today msg L) as [L1|e] eqn:P; cbn [bind];
      [|discriminate].
    intros R T.
    pose proof (@turn_service_kept today msg L L1 P T) as K1.
    unfold service_kept in K1 |- *. rewrite refinement_cons in K1 |- *.
    change (refinement []) with (@None string) in K1.
    cbn [attach bs_state] in K1 |- *.
    assert (Settled : forall sub,
               (sub = "facial" \/ sub = "dental")%string ->
               holds service "service" (attach L1) sub 0.9%Q ->
               holds service "service" (attach L') sub 0.9%Q).
    { intros sub Sub K.
      assert (S1 : service (state L1) = Some sub) by apply K.
      assert (T1 : truthy (service (state L1)) = true)
        by (rewrite S1; destruct Sub; subst sub; reflexivity).
      pose proof (IH L1 L' R T1) as K2. unfold service_kept in K2.
      cbn [attach bs_state] in K2. rewrite S1 in K2.
      assert (N : BookingsStore.opt_eqb (Some sub) (Some "appointment")
                  = false) by (destruct Sub; subst sub; reflexivity).
      rewrite N in K2. exact (holds_untouched K K2). }
    assert (Passed : untouched service "service" (attach L) (attach L1) ->
                     service_kept later (attach L) (attach L')).
    { intros K.
      assert (T1 : truthy (service (state L1)) = true)
        by (apply (untouched_truthy K); exact T).
      pose proof (IH L1 L' R T1) as K2. unfold service_kept in K2 |- *.
      cbn [attach bs_state] in K2 |- *.
      assert (S1 : service (state L1) = service (state L)) by apply K.
      rewrite S1 in K2.
      destruct (BookingsStore.opt_eqb (service (state L))
                  (Some "appointment")).
      - destruct (refinement later); [exact K2|].
        exact (untouched_trans K K2).
      - exact (untouched_trans K K2). }
    unfold service_kept in Passed. cbn [attach bs_state] in Passed.
    destruct (BookingsStore.opt_eqb (service (state L)) (Some "appointment"))
      eqn:A.
    + destruct (names_facial msg); [apply Settled; auto|].
      destruct (names_dental msg); [apply Settled; auto|].
      exact (Passed K1).
    + exact (Passed K1).
Qed.

(** C2: a slot (service, date, time, location) that is set after the
    earlier turns has the same value and the same confidence in the
    state [extract_booking_state] returns for the whole conversation,
    with one exception: the service "appointment" becomes "facial" or
    "dental" with confidence 0.9 exactly when a later turn has a
    sub-type keyword, and then it is the sub-type of the first such
    turn; and the default pass changes no slot that is set once all
    turns are read. *)
Theorem extract_keeps_set_slots today db earlier later L final :
  run_turns today earlier initial = Ok L ->
  extract_booking_state today db (earlier ++ later) = Ok final ->
  kept_through later (attach L) final
  /\ (forall L_all,
        run_turns today (earlier ++ later) initial = Ok L_all ->
        kept (attach L_all) final).
Proof.
  intros H1. unfold extract_booking_state.
  rewrite run_turns_app, H1. cbn [bind].
  destruct (run_turns today later L) as [L2|e] eqn:H2; cbn [bind];
    [|discriminate].
  intros E. apply Ok_inj in E. subst final. split.
  - pose proof (delegation_defaults_kept today db L2) as (Ks & Kd & Kt & Kl).
    pose proof (run_turns_monotone _ _ _ H2) as (_ & Md & Mt & Ml).
    split; [|split; [|split]]; intros T.
    + pose proof (@run_turns_service_kept today later L L2 H2 T) as K.
      unfold service_kept in K |- *.
      destruct (BookingsStore.opt_eqb (service (bs_state (attach L))) (Some "appointment")).
      * destruct (refinement later) as [sub|] eqn:R.
        -- apply (holds_untouched K), Ks. destruct K as [K _].
           cbn [attach bs_state] in K |- *. rewrite K.
           exact (refinement_named _ R).
        -- apply (untouched_trans K), Ks, (untouched_truthy K), T.
      * apply (untouched_trans K), Ks, (untouched_truthy K), T.
    + apply (untouched_trans (Md T)), Kd, (untouched_truthy (Md T)), T.
    + apply (untouched_trans (Mt T)), Kt, (untouched_truthy (Mt T)), T.
    + apply (untouched_trans (Ml T)), Kl, (untouched_truthy (Ml T)), T.
  - intros L_all E. apply Ok_inj in E. subst L_all.
    apply delegation_defaults_kept.
Qed.

(** A conversation in which the generic service is refined by its
    third turn, the first with a sub-type keyword. *)
Lemma extract_keeps_set_slots_witness :
  exists L final,
    run_turns a_day [user "I need an appointment tomorrow"] initial = Ok L
    /\ extract_booking_state a_day (BookingsStore.Online [])
         ([user "I need an appointment tomorrow"]
            ++ [user "thanks";
                user "a dental checkup at 9am in delhi, you decide";
                user "or a facial"])
       = Ok final
    /\ service (state L) = Some "appointment"
    /\ refinement [user "thanks";
                   user "a dental checkup at 9am in delhi, you decide";
                   user "or a facial"] = Some "dental"
    /\ service (bs_state final) = Some "dental"
    /\ kept_through
         [user "thanks";
          user "a dental checkup at 9am in delhi, you decide";
          user "or a facial"] (attach L) final
    /\ (forall L_all,
          run_turns a_day
            ([user "I need an appointment tomorrow"]
               ++ [user "thanks";
                   user "a dental checkup at 9am in delhi, you decide";
                   user "or a facial"])
            initial = Ok L_all ->
          kept (attach L_all) final).
Proof.
  eexists. eexists.
  split; [vm_compute; reflexivity|].
  split; [vm_compute; reflexivity|].
  split; [reflexivity|]. split; [reflexivity|]. split; [reflexivity|].
  apply (@extract_keeps_set_slots a_day (BookingsStore.Online [])
           [user "I need an appointment tomorrow"]
           [user "thanks";
            user "a dental checkup at 9am in delhi, you decide";
            user "or a facial"]).
  - vm_compute. reflexivity.
  - vm_compute. reflexivity.
Defined.

(** Between two points of the run, an untouched slot is set at both or
    at neither. *)
Lemma same_truth slot key L L' (t : bool) :
  untouched slot key (attach L) (attach L') ->
  truthy (slot (state L)) = t -> truthy (slot (state L')) = t.
Proof. intros [A _] H. cbn [attach bs_state] in A. now rewrite A. Qed.

(** C3: when the turns end in the local variables [L],
    [extract_booking_state] returns; without delegation the result is
    the state the turns left, and with delegation every slot that was
    unset gets its default: service "facial" at 0.6; date today at 0.6;
    time the first free slot [find_next_available] finds for the
    resolved service and date at 0.75, or "10:00 AM" at 0.6 when there
    is none or the lookup raises; location the non-empty stashed
    candidate at 0.8, or else the first known city at 0.5.  The flag
    [service_auto_selected] is set exactly when the service was
    defaulted, and [location_auto_selected] exactly when the first known
    city was taken. *)
Theorem delegation_defaults_fill_unset today db msgs L :
  run_turns today msgs initial = Ok L ->
  exists final,
    extract_booking_state today db msgs = Ok final
    /\ (delegated (state L) = false -> final = attach L)
    /\ (delegated (state L) = true -> defaults_applied today db L final)
    /\ (service_auto_selected (bs_state final) = true <->
        delegated (state L) = true /\ truthy (service (state L)) = false)
    /\ (location_auto_selected (bs_state final) = true <->
        delegated (state L) = true
        /\ truthy (location (state L)) = false
        /\ truthy (explicit_location L) = false).
Proof.
  intros H.
  destruct (run_turns_inert _ _ _ H) as (_ & Fs & Fl).
  cbn [initial state service_auto_selected location_auto_selected] in Fs, Fl.
  unfold extract_booking_state. rewrite H. cbn [bind].
  eexists. split; [reflexivity|].
  unfold delegation_defaults.
  destruct (delegated (state L)) eqn:Dl.
  2:{ split; [reflexivity|]. split; [discriminate|].
      cbn [attach bs_state]. rewrite Fs, Fl.
      split; split; try discriminate; intros [? _]; discriminate. }
  set (L1 := default_service L).
  set (L2 := default_date (Dates.isoformat today) L1).
  set (L3 := default_time db L2).
  pose proof (default_service_effect L) as E1.
  pose proof (default_date_effect (Dates.isoformat today) L1) as E2.
  pose proof (default_time_effect db L2) as E3.
  pose proof (default_location_effect L3) as E4.
  cbv zeta in E1, E2, E3, E4. fold L1 in E1. fold L2 in E2. fold L3 in E3.
  set (L4 := default_location L3) in *.
  destruct E1 as (A1 & T1 & B1 & C1 & D1 & X1 & F1).
  destruct E2 as (A2 & B2 & C2 & D2 & X2 & Fs2 & Fl2).
  destruct E3 as (A3 & B3 & C3 & D3 & X3 & Fs3 & Fl3).
  destruct E4 as (A4 & B4 & C4 & D4 & Fs4).
  split; [discriminate|]. split; [intros _|split].
  - (* the four slots *)
    unfold defaults_applied. split; [|split; [|split]].
    + destruct (truthy (service (state L))) eqn:T.
      * assert (U : untouched service "service" (attach L) (attach L1))
          by (rewrite A1; apply untouched_refl).
        eauto using untouched_trans.
      * destruct A1 as [A1 _].
        eauto using holds_untouched.
    + destruct (truthy (date (state L))) eqn:T.
      * rewrite (same_truth B1 T) in A2.
        assert (U : untouched date "date" (attach L1) (attach L2))
          by (rewrite A2; apply untouched_refl).
        eauto using untouched_trans.
      * rewrite (same_truth B1 T) in A2.
        eauto using holds_untouched.
    + destruct (truthy (time (state L))) eqn:T.
      * rewrite (same_truth C2 (same_truth C1 T)) in A3.
        assert (U : untouched time "time" (attach L2) (attach L3))
          by (rewrite A3; apply untouched_refl).
        eauto using untouched_trans.
      * rewrite (same_truth C2 (same_truth C1 T)) in A3.
        assert (T2 : truthy (service (state L2)) = true)
          by (apply (same_truth B2); exact T1).
        destruct (truthy_Some _ T2) as (c & r & Hsvc).
        exists (String c r).
        destruct B3 as [B3 _], B4 as [B4 _], C3 as [C3 _], C4 as [C4 _].
        cbn [attach bs_state] in *.
        split; [congruence|].
        specialize (A3 _ Hsvc eq_refl).
        replace (date (state L4)) with (date (state L2)) by congruence.
        destruct (SlotEngine.find_next_available db (String c r)
                    (date (state L2)) None) as [[[slot all]|]|e];
          eauto using holds_untouched.
    + destruct (truthy (location (state L))) eqn:T.
      * rewrite (same_truth D3
                   (same_truth D2 (same_truth D1 T))) in A4.
        assert (U : untouched location "location" (attach L3) (attach L4))
          by (rewrite A4; apply untouched_refl).
        eauto using untouched_trans.
      * rewrite (same_truth D3
                   (same_truth D2 (same_truth D1 T))) in A4.
        replace (explicit_location L) with (explicit_location L3)
          by congruence.
        destruct (truthy (explicit_location L3)); tauto.
  - (* service_auto_selected *)
    cbn [attach bs_state].
    replace (service_auto_selected (state L4))
      with (service_auto_selected (state L1)) by congruence.
    destruct (truthy (service (state L))) eqn:T.
    + rewrite A1, Fs. split; [discriminate | intros [_ ?]; discriminate].
    + destruct A1 as [_ ->]. tauto.
  - (* location_auto_selected *)
    cbn [attach bs_state].
    assert (Fl3' : location_auto_selected (state L3) = false) by congruence.
    replace (explicit_location L) with (explicit_location L3) by congruence.
    destruct (truthy (location (state L))) eqn:T.
    + rewrite (same_truth D3
                 (same_truth D2 (same_truth D1 T))) in A4.
      rewrite A4, Fl3'.
      split; [discriminate | intros (_ & ? & _); discriminate].
    + rewrite (same_truth D3
                 (same_truth D2 (same_truth D1 T))) in A4.
      destruct (truthy (explicit_location L3)).
      * destruct A4 as [_ ->]. rewrite Fl3'.
        split; [discriminate | intros (_ & _ & ?); discriminate].
      * destruct A4 as [_ ->]. tauto.
Qed.

(** A conversation that only delegates: every slot is defaulted, and the
    time is the first free facial slot because 10:00 AM is taken. *)
Lemma delegation_defaults_fill_unset_witness :
  exists L final,
    run_turns a_day [user "surprise me"] initial = Ok L
    /\ extract_booking_state a_day
         (BookingsStore.Online
            [ {| BookingsStore.id := "bkg_1";
                 BookingsStore.service := Some "facial";
                 BookingsStore.date := Some "2026-11-03";
                 BookingsStore.time := Some "10:00 AM";
                 BookingsStore.location := None;
                 BookingsStore.created_at := "t0";
                 BookingsStore.meta := [] |} ])
         [user "surprise me"] = Ok final
    /\ bs_state final
       = {| service := Some "facial"; date := Some "2026-11-03";
            time := Some "11:00 AM"; location := Some "bangalore";
            intent := "book"; delegated := true;
            location_auto_selected := true;
            service_auto_selected := true |}
    /\ bs_confidences final
       = [("service", 0.6%Q); ("date", 0.6%Q);
          ("time", 0.75%Q); ("location", 0.5%Q)].
Proof.
  set (L0 := match run_turns a_day [user "surprise me"] initial with
              | Ok L => L
              | Raise _ => initial
              end).
  assert (H0 : run_turns a_day [user "surprise me"] initial = Ok L0)
    by (vm_compute; reflexivity).
  destruct (@delegation_defaults_fill_unset a_day
              (BookingsStore.Online
                 [ {| BookingsStore.id := "bkg_1";
                      BookingsStore.service := Some "facial";
                      BookingsStore.date := Some "2026-11-03";
                      BookingsStore.time := Some "10:00 AM";
                      BookingsStore.location := None;
                      BookingsStore.created_at := "t0";
                      BookingsStore.meta := [] |} ])
              [user "surprise me"] L0 H0)
    as (final & E & _).
  exists L0, final.
  split; [exact H0|].
  split; [exact E|].
  vm_compute in E. apply Ok_inj in E. subst final.
  split; reflexivity.
Defined.

(** *** Fuzzy times *)

Lemma delegation_defaults_ambiguities today db L :
  ambiguities (delegation_defaults today db L) = ambiguities L.
Proof.
  unfold delegation_defaults.
  destruct (delegated (state L)); [|reflexivity].
  assert (A1 : forall M, ambiguities (default_service M) = ambiguities M).
  { intros M. unfold default_service. now destruct (negb _). }
  assert (A2 : forall iso M, ambiguities (default_date iso M) = ambiguities M).
  { intros iso M. unfold default_date. now destruct (negb _). }
  assert (A3 : forall M, ambiguities (default_time db M) = ambiguities M).
  { intros M. unfold default_time. destruct (negb _); [|reflexivity].
    destruct (service (state M)) as [[|c r]|]; try reflexivity.
    destruct (SlotEngine.find_next_available db _ _ None) as [[[? ?]|]|];
      reflexivity. }
  assert (A4 : forall M, ambiguities (default_location M) = ambiguities M).
  { intros M. unfold default_location. destruct (negb _); [|reflexivity].
    destruct (explicit_location M) as [[|c r]|]; reflexivity. }
  now rewrite A4, A3, A2, A1.
Qed.

(** The list of ambiguities is never written: it is empty in every state
    that [extract_booking_state] returns. *)
Lemma extract_ambiguities_empty today db msgs final :
  extract_booking_state today db msgs = Ok final -> bs_ambiguities final = [].
Proof.
  unfold extract_booking_state.
  destruct (run_turns today msgs initial) as [L|e] eqn:H; cbn [bind];
    [|discriminate].
  intros E. apply Ok_inj in E. subst final.
  cbn [attach bs_ambiguities]. rewrite delegation_defaults_ambiguities.
  now destruct (run_turns_inert _ _ _ H) as (-> & _).
Qed.

(** C1: on the turn "Book me a salon tomorrow evening" the extraction
    returns the service "salon", the time "06:00 PM" (zero-padded, not
    "6:00 PM") with confidence 0.7, and an empty list of ambiguities:
    the token "evening" is not retained. *)
Theorem evening_resolved_without_ambiguity (db : BookingsStore.Store) :
  exists final,
    extract_booking_state a_day db [user "Book me a salon tomorrow evening"]
      = Ok final
    /\ service (bs_state final) = Some "salon"
    /\ time (bs_state final) = Some "06:00 PM"
    /\ time (bs_state final) <> Some "6:00 PM"
    /\ conf_of final "time" = Some 0.7%Q
    /\ bs_ambiguities final = []
    /\ ~ In "evening" (bs_ambiguities final).
Proof.
  eexists. split; [vm_compute; reflexivity|].
  cbn. repeat split; try reflexivity; try discriminate. intros [].
Qed.

(** *** The date parser *)

Lemma try_formats_returns s fmts : exists r, try_formats s fmts = Ok r.
Proof.
  induction fmts as [|fmt fmts [r IH]]; simpl; [eauto|].
  destruct (Dates.strptime s fmt); simpl; eauto.
Qed.

(** [_parse_date] catches what [strptime] raises: unless the reference
    day is the last day the calendar has, it returns for every text. *)
Lemma _parse_date_returns today text :
  (Dates.year today < 9999)%N -> exists r, _parse_date today text = Ok r.
Proof.
  intros Hy. unfold _parse_date.
  destruct (contains "today" _); [eauto|].
  destruct (contains "tomorrow" _).
  - unfold Dates.add_one_day.
    destruct (_ <? _)%N; [simpl; eauto|].
    destruct (_ <? _)%N; [simpl; eauto|].
    apply N.ltb_lt in Hy. rewrite Hy. simpl. eauto.
  - destruct (Re.search re_date_slashes _) as [m|].
    + destruct (try_formats_returns (group1 m)
                  [Dates.fmt_d_m_Y; Dates.fmt_d_m_y]) as [r ->].
      cbn [bind]. destruct r; [eauto|].
      destruct (Re.search re_date_dashes _); [|eauto].
      destruct (Dates.strptime _ _); simpl; eauto.
    + cbn [bind].
      destruct (Re.search re_date_dashes _); [|eauto].
      destruct (Dates.strptime _ _); simpl; eauto.
Qed.

End ExtractionFacts.

(** ** The explainability score *)

Section ScoreFacts.
Import PyStr PyNum BookingLogic Explainability Spec.
Local Open Scope Q_scope.

Lemma pymin_Qmin a b : pymin a b == Qmin a b.
Proof.
  unfold pymin. destruct (Qle_bool a b) eqn:E.
  - apply Qle_bool_iff in E. symmetry. now apply Q.min_l.
  - symmetry. apply Q.min_r. apply Qlt_le_weak, Qnot_le_lt.
    intros H. apply Qle_bool_iff in H. congruence.
Qed.

Lemma pymax_Qmax a b : pymax a b == Qmax a b.
Proof.
  unfold pymax. destruct (Qle_bool b a) eqn:E.
  - apply Qle_bool_iff in E. symmetry. now apply Q.max_l.
  - symmetry. apply Q.max_r. apply Qlt_le_weak, Qnot_le_lt.
    intros H. apply Qle_bool_iff in H. congruence.
Qed.

Lemma round_half_even_comp x y : x == y -> round_half_even x = round_half_even y.
Proof.
  intros E. unfold round_half_even.
  rewrite (Qfloor_comp _ _ E).
  assert (E' : x - inject_Z (Qfloor y) == y - inject_Z (Qfloor y))
    by now rewrite E.
  now rewrite (Qcompare_comp _ _ E' _ _ (Qeq_refl _)).
Qed.

Lemma round2_comp x y : x == y -> round2 x = round2 y.
Proof.
  intros E. unfold round2.
  rewrite (@round_half_even_comp (x * 100) (y * 100)); [reflexivity|].
  now rewrite E.
Qed.

Lemma sum_fold_right (entries : Dict Q) (a : Q) :
  fold_left Qplus (dict_values entries) a
  == a + fold_right (fun kv acc => snd kv + acc) 0 entries.
Proof.
  revert a. induction entries as [|[k v] entries IH]; intros a; simpl.
  - ring.
  - unfold dict_values in IH. rewrite IH. ring.
Qed.

Lemma avg_conf_avgConf st : avg_conf st == avgConf st.
Proof.
  unfold avg_conf, avgConf.
  destruct (bs_confidences st) as [|kv entries] eqn:E; [reflexivity|].
  cbn [dict_values map]. unfold sum, len, count.
  change (snd kv :: map snd entries) with (dict_values (kv :: entries)).
  rewrite sum_fold_right. unfold dict_values. rewrite length_map.
  apply Qdiv_comp; [ring | reflexivity].
Qed.

Lemma missing_count_unset st :
  List.length (missing st) = missingFieldCount st.
Proof.
  unfold missing, missingFieldCount, slot_items, unset.
  cbn [filter map fst snd mem existsb String.eqb Ascii.eqb Bool.eqb
       orb andb].
  destruct (truthy (service (bs_state st))),
    (truthy (date (bs_state st))),
    (truthy (time (bs_state st))),
    (truthy (location (bs_state st))); reflexivity.
Qed.

Lemma raw_score_formula st : raw_score st == explainability_formula st.
Proof.
  unfold raw_score, explainability_formula, clamp01.
  rewrite pymax_Qmax, pymin_Qmin.
  unfold ambiguity_penalty, missing_penalty, ambiguityPenalty, missingPenalty.
  rewrite !pymin_Qmin, avg_conf_avgConf.
  unfold len, ambiguityCount, count. rewrite missing_count_unset.
  assert (A : forall n,
             inject_Z (Z.of_nat n) * 0.15 == 0.15 * inject_Z (Z.of_nat n))
    by (intros; ring).
  assert (B : forall n,
             inject_Z (Z.of_nat n) * 0.1 == 0.10 * inject_Z (Z.of_nat n))
    by (intros; ring).
  rewrite A, B.
  assert (C : 1.0 == 1) by reflexivity.
  assert (D : 0.45 == 0.45) by reflexivity.
  assert (E3 : 0.3 == 0.30) by reflexivity.
  assert (Z0 : 0.0 == 0) by reflexivity.
  assert (H100 : 100.0 == 100) by reflexivity.
  rewrite C, E3, Z0, H100. reflexivity.
Qed.

End ScoreFacts.

Section ScoreOnDoubles.
Import PyStr BookingLogic Float64 Explainability64 Spec.

Lemma mul_comm (x y : float) : mul x y = mul y x.
Proof.
  unfold mul, SFmul.
  destruct x as [sx|sx| |sx mx ex], y as [sy|sy| |sy my ey];
    try reflexivity; try (now rewrite xorb_comm).
  now rewrite xorb_comm, Pos.mul_comm, Z.add_comm.
Qed.

Lemma missing_unset_fields (st : ScoredState) :
  List.length (missing st) = unset_fields st.
Proof.
  unfold missing, unset_fields, slot_items, unset.
  cbn [filter map fst snd mem existsb String.eqb Ascii.eqb Bool.eqb
       orb andb].
  destruct (truthy (service (st_slots st))),
    (truthy (date (st_slots st))),
    (truthy (time (st_slots st))),
    (truthy (location (st_slots st))); reflexivity.
Qed.

Lemma avg_conf_average sum (st : ScoredState) :
  avg_conf sum st = average_confidence sum st.
Proof.
  unfold avg_conf, average_confidence, dict_values.
  destruct (st_confidences st) as [|kv entries]; [reflexivity|].
  cbn [map]. now rewrite <- (length_map snd (kv :: entries)).
Qed.

Lemma raw_score_formula_on_doubles sum (st : ScoredState) :
  raw_score sum st = formula_on_doubles sum st.
Proof.
  unfold raw_score, formula_on_doubles, clamp, ambiguity_penalty,
    missing_penalty, penalty_for_ambiguity, penalty_for_missing, tokens.
  rewrite avg_conf_average, missing_unset_fields.
  rewrite (mul_comm (of_nat (List.length (st_ambiguities st)))),
    (mul_comm (of_nat (unset_fields st))).
  change (of_Q 0.1) with (of_Q 0.10).
  change (of_Q 0.3) with (of_Q 0.30).
  change (of_Q 1.0) with (of_Z 1).
  change (of_Q 0.0) with (of_Z 0).
  change (of_Q 100.0) with (of_Z 100).
  reflexivity.
Qed.

(** C8, as stated, fails on a complete state with one ambiguity token:
    the formula gives 73.3125, but the reported score is the double
    written 73.31, whichever way the interpreter sums; that double is
    neither 73.3125 nor the value of the formula on doubles. *)
Lemma score_is_not_the_unrounded_formula :
  (explainability_formula evening_state == 73.3125)%Q
  /\ ~ (to_Q (of_Q 73.31) == 73.3125)%Q
  /\ (forall sum,
        In sum [sum_left; sum_compensated] ->
        score (compute_explainability_score sum
                 (of_booking_state evening_state))
        = of_Q 73.31
        /\ formula_on_doubles sum (of_booking_state evening_state)
           <> of_Q 73.31).
Proof.
  split; [vm_compute; reflexivity|].
  split; [vm_compute; discriminate|].
  intros sum [<- | [<- | []]]; split;
    solve [vm_compute; reflexivity | vm_compute; discriminate].
Qed.

(** The rounding is that of the value computed on doubles, not of the
    exact value of the formula, and the value depends on how the
    interpreter sums: with a second token the formula is 60.375
    exactly; summed from left to right the confidences give a score of
    60.37, and summed with compensation a score of 60.38. *)
Example score_rounds_the_double :
  (explainability_formula two_token_state == 60.375)%Q
  /\ score (compute_explainability_score sum_left
              (of_booking_state two_token_state))
     = of_Q 60.37
  /\ score (compute_explainability_score sum_compensated
              (of_booking_state two_token_state))
     = of_Q 60.38.
Proof. repeat split; vm_compute; reflexivity. Qed.

(** C8, amended: for every booking state, and however the interpreter
    sums, the reported score is the formula of the claim (the clamped
    product of the average confidence with one minus both penalties,
    scaled to 100), every operation being that of the doubles, rounded
    to two decimals as [round] does. *)
Theorem score_is_the_rounded_formula
    (sum : list float -> float) (st : ScoredState) :
  score (compute_explainability_score sum st)
  = round2 (formula_on_doubles sum st).
Proof.
  cbn [compute_explainability_score score].
  now rewrite raw_score_formula_on_doubles.
Qed.

End ScoreOnDoubles.


(** ** Pricing *)

Section PricingFacts.
Import PyStr Float64 Pricing64 Spec.

Lemma tier_discount_tier c : tier c (tier_discount c).
Proof.
  unfold tier, tier_discount. cbv zeta.
  destruct (leb (of_Z 90) c); [left; auto|].
  destruct (leb (of_Z 75) c); [right; left; auto|].
  destruct (leb (of_Z 50) c); [right; right; left; auto|].
  right; right; right. auto.
Qed.

Lemma usd_amount_code service discount :
  round2 (mul match SlotEngine.dict_get BASE_PRICES service with
              | Some b => b
              | None => of_Q 50.0
              end
            (sub (of_Z 1) (div discount (of_Q 100.0))))
  = usd_amount service discount.
Proof. reflexivity. Qed.

(** C9, as stated, fails on the currency: a [meta.currency] given in
    lower case comes back in upper case. *)
Lemma currency_is_not_meta_currency_as_given :
  snd (fst (calculate_price demo_env64 "facial" (of_Q 76.0)
              (Some [("currency", "usd")]) None)) = "USD"
  /\ ~ currency_as_stated (Some [("currency", "usd")]) None
         (snd (fst (calculate_price demo_env64 "facial" (of_Q 76.0)
                      (Some [("currency", "usd")]) None))).
Proof.
  split; [vm_compute; reflexivity|]. vm_compute. discriminate.
Qed.

(** The amounts are those of the doubles: a facial at 95 percent costs
    22.95 dollars, and at a cached rate of 83.5 the product, 1916.325
    in exact arithmetic, is rounded to 1916.33. *)
Example rupee_amount_on_doubles :
  let env :=
    {| cache := Some (of_Q 83.5); api_key := None; live_rate := None |} in
  fst (calculate_price env "facial" (of_Q 95.0) None (Some "delhi"))
  = (of_Q 1916.33, of_Q 15.0, "INR")
  /\ (PyNum.round2 (22.95 * 83.5) == 1916.32)%Q.
Proof. split; vm_compute; reflexivity. Qed.

(** C9, amended: the discount is 15, 10, 5 or 0 by the confidence tiers
    90, 75 and 50, plus 5 for a gold loyalty tier; the currency is
    [meta.currency] in upper case when one is given, else INR when the
    location in lower case is a known Indian city, else USD; the USD
    amount is the discounted base price rounded to two decimals and the
    INR amount is the cached exchange rate applied to it, rounded to two
    decimals, every operation being that of the doubles; and
    [calculate_price("facial", 76.0, None, "vijayawada")] under the demo
    rate 82.0 is [round(27 * 0.90 * 82.0, 2)] in INR with a discount of
    10. *)
Theorem calculate_price_rules
    (env : FxEnv) (service : string) (confidence_pct : float)
    (meta : option Meta) (location : option string) :
  (let '(amount, discount, currency) :=
     fst (calculate_price env service confidence_pct meta location) in
   discount_rule confidence_pct meta discount
   /\ currency_rule meta location currency
   /\ amount_rule env service discount currency amount)
  /\ fst (calculate_price demo_env64 "facial" (of_Q 76.0) None
            (Some "vijayawada"))
     = (round2 (mul (mul (of_Z 27) (of_Q 0.90)) (of_Q 82.0)),
        of_Q 10.0, "INR").
Proof.
  split; [|vm_compute; reflexivity].
  unfold calculate_price.
  set (discount :=
         if BookingsStore.opt_eqb (meta_get meta "loyalty_tier") (Some "gold")
         then add (tier_discount confidence_pct) (of_Q 5.0)
         else tier_discount confidence_pct).
  set (currency :=
         if truthy (meta_get meta "currency")
         then match meta_get meta "currency" with
              | Some c => upper c
              | None => "USD"%string
              end
         else match location with
              | Some (String c r) =>
                  if mem (lower (String c r)) INDIAN_CITIES
                  then "INR"%string else "USD"%string
              | _ => "USD"%string
              end).
  assert (HD : discount_rule confidence_pct meta discount).
  { exists (tier_discount confidence_pct).
    split; [apply tier_discount_tier|].
    unfold gold, discount, meta_get.
    destruct (BookingsStore.opt_eqb _ _) eqn:E.
    - split; [reflexivity|]. intros G. apply opt_eqb_eq in E. contradiction.
    - split; [|reflexivity]. intros G. apply opt_eqb_eq in G.
      unfold meta_get in E. congruence. }
  assert (HC : currency_rule meta location currency).
  { unfold currency_rule, currency, meta_get, INDIAN_CITIES.
    destruct (Pricing.meta_get meta "currency") as [[|c r]|]; cbn [truthy];
      try reflexivity.
    all: destruct location as [[|c r]|]; try reflexivity.
    all: try (destruct (mem _ Pricing.INDIAN_CITIES); reflexivity). }
  destruct (String.eqb currency "INR") eqn:EI.
  - destruct (_get_rate env) as [rate env'] eqn:ER.
    cbn [fst]. split; [exact HD|]. split; [exact HC|].
    unfold amount_rule, cached_rate.
    rewrite usd_amount_code, ER. cbn [fst].
    split; [reflexivity|]. apply String.eqb_eq in EI. congruence.
  - cbn [fst]. split; [exact HD|]. split; [exact HC|].
    unfold amount_rule. rewrite usd_amount_code.
    split; [|reflexivity]. apply String.eqb_neq in EI. congruence.
Qed.

End PricingFacts.

(* ===================================================================== *)
(** * Further properties of the store and the slot engine *)
(* ===================================================================== *)

Section SlotSearchFacts.
Import PyStr BookingsStore StoreUpdates SlotEngine SlotResolution Spec Laws.
Local Open Scope exc_scope.

Lemma dict_get_In {V : Type} (d : list (string * V)) (k : string) (v : V) :
  dict_get d k = Some v -> In (k, v) d.
Proof.
  induction d as [|[k' v'] d IH]; simpl; [discriminate|].
  destruct (String.eqb k' k) eqn:E.
  - intros [= ->]. apply String.eqb_eq in E. subst. now left.
  - intros H. right. now apply IH.
Qed.

(** Every entry of every catalog is a non-empty string. *)
Lemma catalog_slot_named (svc : string) (slots : list string) (s : string) :
  AVAILABLE_SLOTS svc = Some slots -> In s slots -> truthy (Some s) = true.
Proof.
  intros H Hin. apply dict_get_In in H.
  unfold AVAILABLE_SLOTS_items in H. simpl in H.
  repeat (destruct H as [H | H];
          [injection H as <- <-; simpl in Hin;
           repeat (destruct Hin as [<- | Hin]; [reflexivity|]);
           contradiction|]).
  contradiction.
Qed.

Lemma skipped_iff (after_time : option string) (s : string) :
  truthy after_time && opt_eqb (Some s) after_time = true
  <-> ~ eligible after_time s.
Proof.
  unfold eligible. rewrite andb_true_iff, opt_eqb_eq. split.
  - intros [A B] H. apply H. split; congruence.
  - intros H. destruct (truthy after_time) eqn:T.
    + split; [reflexivity|].
      destruct after_time as [a|]; [|discriminate].
      destruct (String.eqb s a) eqn:E.
      * apply String.eqb_eq in E. now subst.
      * exfalso. apply H. intros [_ [= ->]].
        now rewrite String.eqb_refl in E.
    + exfalso. apply H. intros [? _]. discriminate.
Qed.

Lemma first_free_spec
    (rows : list Booking) (svc : string) (dt after_time : option string)
    (all : list string) :
  truthy (Some svc) = true ->
  forall rest,
    (forall x, In x rest -> truthy (Some x) = true) ->
    match first_free (Online rows) svc dt after_time all rest with
    | Ok (Some (s, a)) =>
        a = all /\ first_free_entry rows svc dt after_time rest s
    | Ok None => all_taken rows svc dt after_time rest
    | Raise _ => False
    end.
Proof.
  intros Hs rest. induction rest as [|s rest IH]; intros Hn.
  - simpl. intros x [].
  - cbn [first_free].
    assert (Hn' : forall x, In x rest -> truthy (Some x) = true)
      by (intros; apply Hn; now right).
    specialize (IH Hn').
    destruct (truthy after_time && opt_eqb (Some s) after_time) eqn:Sk.
    + apply skipped_iff in Sk.
      destruct (first_free (Online rows) svc dt after_time all rest)
        as [[[s' a]|]|e]; [| |exact IH].
      * destruct IH as [-> (before & tail & -> & El & Fr & Bf)].
        split; [reflexivity|].
        exists (s :: before), tail. repeat split; auto.
        intros x [<- | Hx] Ex; [contradiction | auto].
      * intros x [<- | Hx] Ex; [contradiction | now apply IH].
    + assert (El : eligible after_time s).
      { intros H.
        assert (K : truthy after_time && opt_eqb (Some s) after_time = true)
          by (apply skipped_iff; intros E; now apply E).
        congruence. }
      cbn [find_bookings bind].
      pose proof (@no_existing_iff rows svc dt (Some s) Hs
                    (Hn s (or_introl eq_refl))) as He.
      destruct (is_empty (filter (selected (Some svc) dt (Some s)) rows))
        eqn:E.
      * split; [reflexivity|]. exists [], rest. repeat split; auto.
        -- now apply He.
        -- intros x [].
      * assert (Bk : booked rows svc dt s).
        { destruct (is_empty_filter (selected (Some svc) dt (Some s)) rows)
            as [_ K].
          unfold booked.
          destruct (filter (selected (Some svc) dt (Some s)) rows)
            as [|b l] eqn:F; [discriminate|].
          assert (Hb : In b (filter (selected (Some svc) dt (Some s)) rows))
            by (rewrite F; now left).
          apply filter_In in Hb as [Hb Sel].
          exists b. split; [assumption|].
          apply (@selected_spec svc dt (Some s) b Hs
                   (Hn s (or_introl eq_refl))). exact Sel. }
        destruct (first_free (Online rows) svc dt after_time all rest)
          as [[[s' a]|]|e]; [| |exact IH].
        -- destruct IH as [-> (before & tail & -> & El' & Fr & Bf)].
           split; [reflexivity|].
           exists (s :: before), tail. repeat split; auto.
           intros x [<- | Hx] Ex; [assumption | auto].
        -- intros x [<- | Hx] Ex; [assumption | now apply IH].
Qed.

(** X1: on a reachable store, [find_next_available] for a service of the
    catalog returns the first catalog entry, in catalog order, that is
    not the entry named by [after_time] and has no booking for this
    service and date, together with the full catalog; it returns [None]
    exactly when every such entry is booked.  (The entries before and
    after [after_time] are scanned alike.) *)
Theorem find_next_available_first_free
    (rows : list Booking) (svc : string) (dt after_time : option string)
    (slots : list string) :
  AVAILABLE_SLOTS svc = Some slots ->
  match find_next_available (Online rows) svc dt after_time with
  | Ok (Some (s, all)) =>
      all = slots /\ first_free_entry rows svc dt after_time slots s
  | Ok None => all_taken rows svc dt after_time slots
  | Raise _ => False
  end.
Proof.
  intros Hc. unfold find_next_available. rewrite Hc.
  apply first_free_spec.
  - exact (catalog_service_named _ Hc).
  - intros x Hx. exact (@catalog_slot_named svc slots x Hc Hx).
Qed.

(** The spa catalog with 9:00 AM and 10:00 AM taken: asking for the slot
    after 4:00 PM yields 11:00 AM. *)
Lemma find_next_available_first_free_witness :
  let taken9 :=
    {| id := "bkg_1"; service := Some "spa"; date := Some "2099-01-01";
       time := Some "9:00 AM"; location := None;
       created_at := "t0"; meta := [] |} in
  let taken10 :=
    {| id := "bkg_2"; service := Some "spa"; date := Some "2099-01-01";
       time := Some "10:00 AM"; location := None;
       created_at := "t1"; meta := [] |} in
  find_next_available (Online [taken9; taken10]) "spa" (Some "2099-01-01")
    (Some "4:00 PM")
  = Ok (Some ("11:00 AM", ["9:00 AM"; "10:00 AM"; "11:00 AM"; "4:00 PM"]))
  /\ first_free_entry [taken9; taken10] "spa" (Some "2099-01-01")
       (Some "4:00 PM") ["9:00 AM"; "10:00 AM"; "11:00 AM"; "4:00 PM"]
       "11:00 AM".
Proof.
  intros taken9 taken10. split; [reflexivity|].
  exact (proj2 (@find_next_available_first_free [taken9; taken10] "spa"
                  (Some "2099-01-01") (Some "4:00 PM")
                  ["9:00 AM"; "10:00 AM"; "11:00 AM"; "4:00 PM"] eq_refl)).
Defined.

Lemma first_free_offline svc dt after_time all rest found :
  first_free Offline svc dt after_time all rest <> Ok (Some found).
Proof.
  induction rest as [|x rest IH]; cbn [first_free]; [discriminate|].
  destruct (truthy after_time && opt_eqb (Some x) after_time);
    [exact IH | discriminate].
Qed.

(** What [find_next_available] returns has an empty query behind it. *)
Lemma find_next_available_free
    (db : Store) (svc : string) (dt after_time : option string)
    (s : string) (all : list string) :
  find_next_available db svc dt after_time = Ok (Some (s, all)) ->
  exists rows,
    db = Online rows
    /\ AVAILABLE_SLOTS svc = Some all
    /\ first_free_entry rows svc dt after_time all s.
Proof.
  unfold find_next_available.
  destruct (AVAILABLE_SLOTS svc) as [slots|] eqn:Hc; [|discriminate].
  destruct db as [rows|].
  - intros H. exists rows.
    pose proof (@first_free_spec rows svc dt after_time slots
                  (catalog_service_named _ Hc) slots
                  (fun x Hx => @catalog_slot_named svc slots x Hc Hx)) as K.
    rewrite H in K. destruct K as [-> K]. auto.
  - intros H. exfalso. exact (first_free_offline _ _ _ _ _ H).
Qed.

Lemma first_free_entry_In rows svc dt after_time slots s :
  first_free_entry rows svc dt after_time slots s -> In s slots.
Proof.
  intros (before & rest & -> & _). apply in_or_app. right. now left.
Qed.

Lemma free_entry_available
    (rows : list Booking) (svc : string) (dt : option string) (s : string)
    (slots : list string) :
  AVAILABLE_SLOTS svc = Some slots -> In s slots ->
  ~ booked rows svc dt s ->
  check_availability (Online rows) svc dt (Some s) = Ok (true, slots).
Proof.
  intros Hc Hin Hfree.
  destruct (mem "Anytime" slots) eqn:Ha.
  - unfold check_availability. now rewrite Hc, Ha.
  - pose proof (@catalog_slot_named svc slots s Hc Hin) as Ht.
    rewrite (@check_availability_by_query rows svc dt (Some s) slots Hc Ha Ht).
    apply (@no_existing_iff rows svc dt (Some s)
             (catalog_service_named _ Hc) Ht) in Hfree.
    now rewrite Hfree.
Qed.

(** X2: whatever slot [find_next_available] returns is one that
    [check_availability] reports available, with the same catalog. *)
Theorem next_available_is_available
    (db : Store) (svc : string) (dt after_time : option string)
    (s : string) (all : list string) :
  find_next_available db svc dt after_time = Ok (Some (s, all)) ->
  check_availability db svc dt (Some s) = Ok (true, all).
Proof.
  intros H.
  destruct (find_next_available_free _ _ _ _ H) as (rows & -> & Hc & F).
  apply free_entry_available; [assumption | |].
  - eapply first_free_entry_In; eauto.
  - now destruct F as (before & rest & _ & _ & Fr & _).
Qed.

(** With 9:00 AM taken, the next spa slot is 10:00 AM and it checks as
    available. *)
Lemma next_available_is_available_witness :
  check_availability
    (Online [ {| id := "bkg_1"; service := Some "spa";
                 date := Some "2099-01-01"; time := Some "9:00 AM";
                 location := None; created_at := "t0"; meta := [] |} ])
    "spa" (Some "2099-01-01") (Some "10:00 AM")
  = Ok (true, ["9:00 AM"; "10:00 AM"; "11:00 AM"; "4:00 PM"]).
Proof.
  apply (@next_available_is_available _ "spa" (Some "2099-01-01") None).
  reflexivity.
Defined.

(** A refusal by [check_availability] tells that the service has a
    catalog of real times, that a time was asked for, and which
    alternatives are listed. *)
Lemma taken_inversion
    (db : Store) (svc : string) (dt tm : option string)
    (alts : list string) :
  check_availability db svc dt tm = Ok (false, alts) ->
  exists slots,
    AVAILABLE_SLOTS svc = Some slots
    /\ mem "Anytime" slots = false
    /\ truthy tm = true
    /\ alts = other_slots tm slots.
Proof.
  unfold check_availability.
  destruct (AVAILABLE_SLOTS svc) as [slots|] eqn:Hc; [|discriminate].
  destruct (mem "Anytime" slots) eqn:Ha; [discriminate|].
  destruct (truthy tm) eqn:Ht; cbn [negb]; [|discriminate].
  destruct (find_bookings db (Some svc) dt tm) as [existing|e];
    cbn [bind]; [|discriminate].
  destruct (negb (is_empty existing)); [|discriminate].
  intros H. apply Ok_inj in H. injection H as <-.
  exists slots. repeat split; assumption || reflexivity.
Qed.

Lemma other_slots_In (tm : option string) (slots : list string) (x : string) :
  In x (other_slots tm slots) <-> In x slots /\ Some x <> tm.
Proof.
  unfold other_slots. rewrite filter_In. split; intros [A B]; split; auto.
  - intros E. apply opt_eqb_eq in E. rewrite E in B. discriminate.
  - destruct (opt_eqb (Some x) tm) eqn:E; [|reflexivity].
    apply opt_eqb_eq in E. contradiction.
Qed.

Lemma eligible_differs (tm : option string) (x : string) :
  truthy tm = true -> (eligible tm x <-> Some x <> tm).
Proof.
  intros Ht. unfold eligible. split.
  - intros H E. apply H. split; congruence.
  - intros H [_ E]. congruence.
Qed.

Lemma nearby_sound (svc : string) (tm : option string) (s : string)
    (t : option string) :
  In (s, t) (nearby svc tm) ->
  s <> svc /\ t = tm
  /\ exists s_slots, AVAILABLE_SLOTS s = Some s_slots
                     /\ offered tm s_slots = true.
Proof.
  unfold nearby. rewrite in_flat_map.
  intros [[s' sl] [Hin H]].
  destruct (String.eqb s' svc) eqn:E; [contradiction|].
  destruct (offered tm sl) eqn:O; [|contradiction].
  destruct H as [[= <- <-] | []].
  apply String.eqb_neq in E. repeat split; auto.
  exists sl. split; [|assumption].
  unfold AVAILABLE_SLOTS_items in Hin. simpl in Hin.
  repeat (destruct Hin as [Hin | Hin];
          [injection Hin as <- <-; reflexivity|]).
  contradiction.
Qed.

(** X3: when [check_availability] refuses the slot, [attempt_resolve]
    returns; it repeats the alternatives, its suggestion is one of them
    that no booking takes (the first such one in catalog order), there
    is no suggestion only when every alternative is booked, and the
    other options name only other services whose catalog has the
    requested time. *)
Theorem attempt_resolve_suggests_free_alternative
    (rows : list Booking) (svc : string) (dt tm : option string)
    (allow_nearby : bool) (alts : list string) :
  check_availability (Online rows) svc dt tm = Ok (false, alts) ->
  exists r,
    attempt_resolve (Online rows) svc dt tm allow_nearby = Ok r
    /\ available r = false
    /\ alternatives r = alts
    /\ (forall s, suggestion r = Some s ->
          In s alts /\ ~ booked rows svc dt s
          /\ exists slots, AVAILABLE_SLOTS svc = Some slots
                           /\ first_free_entry rows svc dt tm slots s)
    /\ (suggestion r = None -> forall x, In x alts -> booked rows svc dt x)
    /\ (forall s t,
          match other_options r with
          | Some options => In (s, t) options
          | None => False
          end ->
          allow_nearby = true /\ s <> svc /\ t = tm
          /\ exists s_slots, AVAILABLE_SLOTS s = Some s_slots
                             /\ offered tm s_slots = true).
Proof.
  intros Hc.
  destruct (taken_inversion _ _ _ _ Hc) as (slots & Hs & Ha & Ht & ->).
  unfold attempt_resolve. rewrite Hc. cbn [bind negb].
  pose proof (@first_free_spec rows svc dt tm slots
                (catalog_service_named _ Hs) slots
                (fun x Hx => @catalog_slot_named svc slots x Hs Hx)) as K.
  unfold find_next_available. rewrite Hs.
  destruct (first_free (Online rows) svc dt tm slots slots)
    as [[[s a]|]|e]; [| |contradiction]; cbn [bind].
  - destruct K as [-> F]. eexists. split; [reflexivity|].
    cbn [available alternatives suggestion other_options].
    repeat split.
    + injection H as <-. apply other_slots_In.
      split; [eapply first_free_entry_In; eauto|].
      destruct F as (before & rest & _ & El & _).
      now apply eligible_differs.
    + injection H as <-.
      now destruct F as (before & rest & _ & _ & Fr & _).
    + injection H as <-. eauto.
    + discriminate.
    + destruct allow_nearby; [reflexivity | contradiction].
    + destruct allow_nearby; [|contradiction].
      now destruct (nearby_sound _ _ _ _ H).
    + destruct allow_nearby; [|contradiction].
      now destruct (nearby_sound _ _ _ _ H) as (_ & ? & _).
    + destruct allow_nearby; [|contradiction].
      now destruct (nearby_sound _ _ _ _ H) as (_ & _ & ?).
  - eexists. split; [reflexivity|].
    cbn [available alternatives suggestion other_options].
    repeat split.
    + discriminate.
    + discriminate.
    + discriminate.
    + intros _ x Hx. apply other_slots_In in Hx as [Hx Hd].
      apply K; [assumption|]. now apply eligible_differs.
    + destruct allow_nearby; [reflexivity | contradiction].
    + destruct allow_nearby; [|contradiction].
      now destruct (nearby_sound _ _ _ _ H).
    + destruct allow_nearby; [|contradiction].
      now destruct (nearby_sound _ _ _ _ H) as (_ & ? & _).
    + destruct allow_nearby; [|contradiction].
      now destruct (nearby_sound _ _ _ _ H) as (_ & _ & ?).
Qed.

(** The salon at 10:00 AM is taken: the suggestion is 12:00 PM, and the
    spa, facial and head-spa catalogs also offer 10:00 AM. *)
Lemma attempt_resolve_suggests_free_alternative_witness :
  exists r,
    attempt_resolve
      (Online [ {| id := "bkg_1"; service := Some "salon";
                   date := Some "2099-01-01"; time := Some "10:00 AM";
                   location := None; created_at := "t0"; meta := [] |} ])
      "salon" (Some "2099-01-01") (Some "10:00 AM") true = Ok r
    /\ suggestion r = Some "12:00 PM"
    /\ alternatives r = ["12:00 PM"; "3:00 PM"]
    /\ other_options r
       = Some [("spa", Some "10:00 AM"); ("facial", Some "10:00 AM");
               ("head spa", Some "10:00 AM")].
Proof.
  destruct (@attempt_resolve_suggests_free_alternative
              [ {| id := "bkg_1"; service := Some "salon";
                   date := Some "2099-01-01"; time := Some "10:00 AM";
                   location := None; created_at := "t0"; meta := [] |} ]
              "salon" (Some "2099-01-01") (Some "10:00 AM") true
              ["12:00 PM"; "3:00 PM"] eq_refl)
    as (r & E & _).
  exists r. split; [exact E|].
  vm_compute in E. apply Ok_inj in E. subst r. repeat split.
Defined.

Lemma eligible_falsy (tm : option string) (x : string) :
  truthy tm = false -> eligible tm x.
Proof. intros H [T _]. congruence. Qed.

(** The slot [auto_book_alternative] looks for: the time to skip counts
    only when it is non-empty. *)
Lemma auto_book_search (db : Store) (svc : string) (dt tm : option string) :
  (if truthy tm then find_next_available db svc dt tm
   else find_next_available db svc dt None)
  = find_next_available db svc dt tm.
Proof.
  destruct (truthy tm) eqn:T; [reflexivity|].
  unfold find_next_available.
  destruct (AVAILABLE_SLOTS svc) as [slots|]; [|reflexivity].
  generalize slots at 1 3. intros all.
  induction slots as [|x slots IH]; cbn [first_free]; [reflexivity|].
  rewrite T. cbn [andb truthy]. now rewrite IH.
Qed.

(** The search fails only when the store does. *)
Lemma find_next_available_raises
    (db : Store) (svc : string) (dt after_time : option string) (e : PyError) :
  find_next_available db svc dt after_time = Raise e -> e = unavailable.
Proof.
  unfold find_next_available.
  destruct (AVAILABLE_SLOTS svc) as [slots|]; [|discriminate].
  generalize slots at 1. intros all.
  induction slots as [|x slots IH]; cbn [first_free]; [discriminate|].
  destruct (truthy after_time && opt_eqb (Some x) after_time); [exact IH|].
  destruct db as [rows|]; cbn [find_bookings bind].
  - destruct (is_empty _); [discriminate | exact IH].
  - now intros [= <-].
Qed.

(** X4: [auto_book_alternative] never fails with the conflict error of
    [book_slot]: the only [ValueError] it raises is "No alternative
    slots available", which it raises for every service without a
    catalog; and when it returns, the store has gained exactly the
    returned record, whose time is the first free catalog entry other
    than the requested time and whose location is empty. *)
Theorem auto_book_alternative_takes_first_free
    (db : Store) (booking_id now svc : string) (dt tm : option string) :
  let outcome := auto_book_alternative db booking_id now svc dt tm in
  (forall msg, fst outcome = Raise (ValueError msg) ->
     outcome = (Raise no_alternative, db))
  /\ (AVAILABLE_SLOTS svc = None -> outcome = (Raise no_alternative, db))
  /\ (forall b, fst outcome = Ok b ->
        exists rows slots s,
          db = Online rows
          /\ snd outcome = Online (rows ++ [b])
          /\ AVAILABLE_SLOTS svc = Some slots
          /\ first_free_entry rows svc dt tm slots s
          /\ id b = booking_id
          /\ service b = Some svc /\ date b = dt /\ time b = Some s
          /\ location b = None).
Proof.
  unfold auto_book_alternative. rewrite auto_book_search.
  destruct (find_next_available db svc dt tm) as [[[s all]|]|e] eqn:F.
  - destruct (find_next_available_free _ _ _ _ F) as (rows & -> & Hc & FF).
    pose proof (next_free := FF).
    destruct FF as (before & rest & Hsl & El & Fr & Bf).
    assert (Hin : In s all) by (rewrite Hsl; apply in_or_app; right; now left).
    unfold book_slot.
    rewrite (@free_entry_available rows svc dt s all Hc Hin Fr).
    cbn [negb]. unfold add_booking.
    destruct (existsb (has_id booking_id) rows); cbn [fst snd].
    + repeat split; try discriminate. congruence.
    + repeat split; try discriminate.
      * congruence.
      * intros b [= <-]. exists rows, all, s. cbn. repeat split; auto.
  - cbn [fst snd]. repeat split; try discriminate.
  - cbn [fst snd]. pose proof (find_next_available_raises _ _ _ _ F) as E.
    subst e. repeat split; try discriminate.
    intros Hc. unfold find_next_available in F. now rewrite Hc in F.
Qed.

(** A spa whose first slot is taken, and a service without a catalog. *)
Example auto_book_alternative_runs :
  fst (auto_book_alternative
         (Online [ {| id := "bkg_1"; service := Some "spa";
                      date := Some "2099-01-01"; time := Some "9:00 AM";
                      location := None; created_at := "t0"; meta := [] |} ])
         "bkg_2" "t1" "spa" (Some "2099-01-01") None)
  = Ok {| id := "bkg_2"; service := Some "spa"; date := Some "2099-01-01";
          time := Some "10:00 AM"; location := None; created_at := "t1";
          meta := [] |}
  /\ fst (auto_book_alternative (Online []) "bkg_1" "t0" "massage"
            (Some "2099-01-01") None)
     = Raise no_alternative.
Proof. split; reflexivity. Qed.

End SlotSearchFacts.

(** ** The invariants of the store *)

Section StoreFacts.
Import PyStr BookingsStore StoreUpdates SlotEngine SlotResolution Spec Laws.
Local Open Scope exc_scope.

Lemma NoDup_snoc {A : Type} (l : list A) (x : A) :
  NoDup l -> ~ In x l -> NoDup (l ++ [x]).
Proof.
  induction l as [|a l IH]; simpl; intros N Hx.
  - constructor; [intros [] | constructor].
  - inversion N as [|? ? Ha Nl]; subst. constructor.
    + rewrite in_app_iff. intros [H | [H | []]]; [contradiction|].
      apply Hx. now left.
    + apply IH; [assumption|]. intros H. apply Hx. now right.
Qed.

Lemma NoDup_insert {A : Type} (l1 l2 : list A) (x : A) :
  NoDup (l1 ++ l2) -> ~ In x (l1 ++ l2) -> NoDup (l1 ++ x :: l2).
Proof.
  induction l1 as [|a l1 IH]; simpl; intros N Hx.
  - now constructor.
  - inversion N as [|? ? Ha Nl]; subst. constructor.
    + rewrite in_app_iff in *. simpl. intros [H | [H | H]].
      * apply Ha. now left.
      * apply Hx. now left.
      * apply Ha. now right.
    + apply IH; [assumption|]. intros H. apply Hx. now right.
Qed.

(** Rows that a key tells apart are still told apart when some of them
    are deleted. *)
Lemma distinct_keys_survive {K : Type} (key : Booking -> K)
    (keep : Booking -> bool) (rows : list Booking) :
  NoDup (map key rows) -> NoDup (map key (filter keep rows)).
Proof.
  induction rows as [|b rows IH]; cbn [filter map]; intros Distinct;
    [constructor|].
  apply NoDup_cons_iff in Distinct. destruct Distinct as [Fresh Rest].
  destruct (keep b); cbn [map]; [|now apply IH].
  apply NoDup_cons; [|now apply IH].
  intros Hin. apply Fresh.
  apply in_map_iff in Hin. destruct Hin as (x & E & Hx).
  apply in_map_iff. exists x. split; [exact E|].
  now apply filter_In in Hx.
Qed.

Lemma fresh_not_In (i : string) (rows : list Booking) :
  existsb (has_id i) rows = false -> ~ In i (map id rows).
Proof.
  intros F H. apply in_map_iff in H as (b & E & Hb).
  assert (K : existsb (has_id i) rows = true).
  { apply existsb_exists. exists b. split; [assumption|].
    unfold has_id. rewrite E. apply String.eqb_refl. }
  congruence.
Qed.

Lemma filter_filter_comm {A : Type} (p q : A -> bool) (l : list A) :
  filter p (filter q l) = filter q (filter p l).
Proof.
  induction l as [|a l IH]; simpl; [reflexivity|].
  destruct (q a) eqn:Q, (p a) eqn:P; simpl; rewrite ?Q, ?P, IH; reflexivity.
Qed.

(** A regular row is for a service of the catalog and names a time. *)
Lemma regular_inv (b : Booking) :
  regular b = true ->
  exists svc slots,
    service b = Some svc /\ AVAILABLE_SLOTS svc = Some slots
    /\ mem "Anytime" slots = false /\ truthy (time b) = true.
Proof.
  unfold regular.
  destruct (service b) as [svc|]; [|discriminate].
  destruct (AVAILABLE_SLOTS svc) as [slots|] eqn:Hc; [|discriminate].
  intros H. apply andb_true_iff in H as [Ha Ht].
  exists svc, slots. repeat split; auto.
  now destruct (mem "Anytime" slots).
Qed.

(** When the availability check finds the slot free, no stored row
    occupies the slot of the row about to be written. *)
Lemma free_slot_is_new
    (rows : list Booking) (svc : string) (dt tm : option string)
    (slots : list string) (entry : Booking) :
  check_availability (Online rows) svc dt tm = Ok (true, slots) ->
  regular entry = true ->
  slot_of entry = (Some svc, dt, tm) ->
  ~ In (slot_of entry) (map slot_of (filter regular rows)).
Proof.
  intros Hc Hr Hs Hin.
  destruct (regular_inv _ Hr) as (svc' & sl & Es & Ec & Ea & Et).
  unfold slot_of in Hs. injection Hs as Hs Hd Htm.
  rewrite Es in Hs. injection Hs as ->. rewrite Htm in Et.
  rewrite (@check_availability_by_query rows svc dt tm sl Ec Ea Et) in Hc.
  destruct (is_empty (filter (selected (Some svc) dt tm) rows)) eqn:E;
    [|discriminate].
  apply (@no_existing_iff rows svc dt tm (catalog_service_named _ Ec) Et) in E.
  apply E. apply in_map_iff in Hin as (b & Eb & Hb).
  apply filter_In in Hb as [Hb _].
  exists b. split; [assumption|].
  unfold slot_of in Eb. rewrite Es, Hd, Htm in Eb. injection Eb as E1 E2 E3.
  unfold matches_request. auto.
Qed.

Lemma book_slot_sound
    (db : Store) (booking_id now svc : string) (dt tm loc : option string)
    (meta : option Meta) :
  sound db -> sound (snd (book_slot db booking_id now svc dt tm loc meta)).
Proof.
  intros S. unfold book_slot.
  destruct (check_availability db svc dt tm) as [[avail slots]|e] eqn:Hc;
    [|exact S].
  destruct avail; cbn [negb]; [|exact S].
  unfold add_booking. destruct db as [rows|]; [|exact S].
  destruct (existsb (has_id booking_id) rows) eqn:F; [exact S|].
  cbn [snd sound]. destruct S as [U D]. split.
  - unfold unique_ids. rewrite map_app. cbn [map id].
    apply NoDup_snoc; [assumption | now apply fresh_not_In].
  - unfold no_double_booking. rewrite filter_app. cbn [filter].
    match goal with |- context [regular ?b] => set (entry := b) end.
    destruct (regular entry) eqn:R.
    + rewrite map_app. cbn [map]. apply NoDup_snoc; [assumption|].
      eapply free_slot_is_new; eauto.
    + now rewrite app_nil_r.
Qed.

(** X5: [book_slot] and [auto_book_alternative] keep the store sound:
    if no two rows share an id and no two rows of a regular service
    (one with a catalog of real times) occupy the same (service, date,
    time), the same holds of the store they leave, whatever their
    arguments and whether they return or raise. *)
Theorem booking_keeps_store_sound
    (db : Store) (booking_id now svc : string) (dt tm loc : option string)
    (meta : option Meta) :
  sound db ->
  sound (snd (book_slot db booking_id now svc dt tm loc meta))
  /\ sound (snd (auto_book_alternative db booking_id now svc dt tm)).
Proof.
  intros S. split; [now apply book_slot_sound|].
  unfold auto_book_alternative.
  destruct (if truthy tm then find_next_available db svc dt tm
            else find_next_available db svc dt None) as [[[s all]|]|e];
    [now apply book_slot_sound | exact S | exact S].
Qed.

(** Booking a second spa slot next to a first one. *)
Lemma booking_keeps_store_sound_witness :
  let first :=
    {| id := "bkg_1"; service := Some "spa"; date := Some "2099-01-01";
       time := Some "9:00 AM"; location := None;
       created_at := "t0"; meta := [] |} in
  sound (snd (book_slot (Online [first]) "bkg_2" "t1" "spa"
                (Some "2099-01-01") (Some "10:00 AM") None None))
  /\ sound (snd (auto_book_alternative (Online [first]) "bkg_2" "t1" "spa"
                   (Some "2099-01-01") (Some "10:00 AM"))).
Proof.
  intros first.
  apply (@booking_keeps_store_sound (Online [first]) "bkg_2" "t1" "spa"
           (Some "2099-01-01") (Some "10:00 AM") None None).
  split.
  - constructor; [intros [] | constructor].
  - vm_compute. constructor; [intros [] | constructor].
Defined.

Lemma removed_count (i : string) (l : list Booking) :
  negb (List.length (filter (fun b => negb (has_id i b)) l) =? List.length l)
  = existsb (has_id i) l.
Proof.
  induction l as [|a l IH]; simpl; [reflexivity|].
  destruct (has_id i a); simpl.
  - pose proof (filter_length_le (fun b => negb (has_id i b)) l) as Le.
    replace (_ =? _) with false; [reflexivity|].
    symmetry. apply Nat.eqb_neq. lia.
  - exact IH.
Qed.

(** X6: [cancel_booking] answers whether a row had the id; afterwards
    the store holds exactly the rows with another id, a second
    cancellation of the same id answers false and changes nothing, and a
    sound store stays sound. *)
Theorem cancel_booking_removes_the_booking
    (rows : list Booking) (booking_id : string) :
  exists rows',
    cancel_booking (Online rows) booking_id
      = (Ok (existsb (has_id booking_id) rows), Online rows')
    /\ (forall b, In b rows' <-> In b rows /\ id b <> booking_id)
    /\ cancel_booking (Online rows') booking_id = (Ok false, Online rows')
    /\ (sound (Online rows) -> sound (Online rows')).
Proof.
  set (keep := fun b => negb (has_id booking_id b)).
  exists (filter keep rows).
  assert (Gone : existsb (has_id booking_id) (filter keep rows) = false).
  { destruct (existsb (has_id booking_id) (filter keep rows)) eqn:E;
      [|reflexivity].
    apply existsb_exists in E as (b & Hb & Hid).
    apply filter_In in Hb as [_ K]. unfold keep in K.
    rewrite Hid in K. discriminate. }
  assert (Count : forall l,
             negb (List.length (filter keep l) =? List.length l)
             = existsb (has_id booking_id) l)
    by (intros l; apply removed_count).
  split; [|split; [|split]].
  - unfold cancel_booking, remove_booking. fold keep. now rewrite Count.
  - intros b. rewrite filter_In. unfold keep, has_id.
    split; intros [A B]; split; auto.
    + intros E. rewrite E, String.eqb_refl in B. discriminate.
    + apply negb_true_iff, String.eqb_neq. assumption.
  - unfold cancel_booking, remove_booking. fold keep.
    rewrite Count, Gone.
    replace (filter keep (filter keep rows)) with (filter keep rows);
      [reflexivity|].
    symmetry. apply (@fresh_filter booking_id). exact Gone.
  - intros [U D]. split.
    + unfold unique_ids. now apply distinct_keys_survive.
    + unfold no_double_booking.
      rewrite filter_filter_comm. now apply distinct_keys_survive.
Qed.

Lemma updated_rows_unknown (i : string) (u : Updates) (rows : list Booking) :
  existsb (has_id i) rows = false -> updated_rows i u rows = rows.
Proof.
  unfold updated_rows. induction rows as [|b rows IH]; simpl; [reflexivity|].
  intros H. apply orb_false_iff in H as [Hb Hr].
  now rewrite Hb, IH.
Qed.











(** ** Changing a booking *)

Lemma selected_self (svc : string) (b : Booking) :
  service b = Some svc -> truthy (Some svc) = true ->
  truthy (time b) = true ->
  selected (Some svc) (date b) (time b) b = true.
Proof.
  intros Es Hs Ht.
  apply (@selected_spec svc (date b) (time b) b Hs Ht).
  unfold matches_request. auto.
Qed.

Lemma taken_by (rows : list Booking) (svc : string) (dt tm : option string)
    (slots : list string) (b : Booking) :
  AVAILABLE_SLOTS svc = Some slots ->
  mem "Anytime" slots = false ->
  truthy tm = true ->
  In b rows ->
  selected (Some svc) dt tm b = true ->
  check_availability (Online rows) svc dt tm
  = Ok (false, other_slots tm slots).
Proof.
  intros Hc Ha Ht Hin Hsel.
  rewrite (@check_availability_by_query rows svc dt tm slots Hc Ha Ht).
  destruct (is_empty (filter (selected (Some svc) dt tm) rows)) eqn:E;
    [|reflexivity].
  exfalso. apply is_empty_filter in E. apply E. eauto.
Qed.

(** X8: a booking of a regular service cannot be "changed" to the slot
    it already has: when the new date and time are absent, empty or the
    stored ones, [modify_booking] raises "Requested new time is not
    available" (the availability check finds the booking itself) and the
    store is unchanged. *)
Theorem modify_booking_refuses_own_slot
    (rows : list Booking) (booking_id : string) (b : Booking)
    (new_date new_time : option string) :
  find (has_id booking_id) rows = Some b ->
  regular b = true ->
  py_or new_date (date b) = date b ->
  py_or new_time (time b) = time b ->
  modify_booking (Online rows) booking_id new_date new_time
  = (Raise new_time_taken, Online rows).
Proof.
  intros Hf Hr Ed Et.
  destruct (regular_inv _ Hr) as (svc & slots & Es & Hc & Ha & Ht).
  unfold modify_booking. cbn [load_bookings]. rewrite Hf, Ed, Et, Es.
  cbn [check_row_availability].
  apply find_some in Hf as [Hin _].
  rewrite (@taken_by rows svc (date b) (time b) slots b Hc Ha Ht Hin
             (@selected_self svc b Es (catalog_service_named _ Hc) Ht)).
  reflexivity.
Qed.

(** Asking to change a spa booking without naming a new date or time. *)
Lemma modify_booking_refuses_own_slot_witness :
  let b :=
    {| id := "bkg_1"; service := Some "spa"; date := Some "2099-01-01";
       time := Some "9:00 AM"; location := Some "delhi";
       created_at := "t0"; meta := [] |} in
  modify_booking (Online [b]) "bkg_1" None None
  = (Raise new_time_taken, Online [b]).
Proof.
  intros b.
  apply (@modify_booking_refuses_own_slot [b] "bkg_1" b None None);
    reflexivity.
Defined.

Lemma find_split (rows : list Booking) (i : string) (b : Booking) :
  unique_ids rows ->
  find (has_id i) rows = Some b ->
  exists l1 l2,
    rows = l1 ++ b :: l2
    /\ existsb (has_id i) l1 = false
    /\ existsb (has_id i) l2 = false
    /\ has_id i b = true.
Proof.
  unfold unique_ids.
  induction rows as [|a rows IH]; simpl; [discriminate|]. intros N.
  inversion N as [|? ? Ha Nr]; subst.
  destruct (has_id i a) eqn:E.
  - intros [= <-]. exists [], rows. repeat split; auto.
    destruct (existsb (has_id i) rows) eqn:X; [|reflexivity].
    exfalso. apply Ha. apply existsb_exists in X as (c & Hc & Hid).
    apply in_map_iff. exists c. split; [|assumption].
    apply String.eqb_eq in E, Hid. congruence.
  - intros H. destruct (IH Nr H) as (l1 & l2 & -> & A & B & C).
    exists (a :: l1), l2. simpl. rewrite E. auto.
Qed.

Lemma updated_rows_split (i : string) (u : Updates) (l1 l2 : list Booking)
    (b : Booking) :
  existsb (has_id i) l1 = false -> existsb (has_id i) l2 = false ->
  has_id i b = true ->
  updated_rows i u (l1 ++ b :: l2) = l1 ++ apply_updates u b :: l2.
Proof.
  intros A B C. unfold updated_rows. rewrite map_app. cbn [map].
  rewrite C.
  fold (updated_rows i u l1). fold (updated_rows i u l2).
  now rewrite !updated_rows_unknown.
Qed.

Lemma find_middle (i : string) (l1 l2 : list Booking) (b : Booking) :
  existsb (has_id i) l1 = false -> has_id i b = true ->
  find (has_id i) (l1 ++ b :: l2) = Some b.
Proof.
  intros A C. induction l1 as [|a l1 IH]; simpl in *.
  - now rewrite C.
  - apply orb_false_iff in A as [A1 A2]. rewrite A1. auto.
Qed.

(** X9: when the ids are unique and the availability check passes for
    the new date and time, [modify_booking] returns the booking with its
    date and time replaced (an absent or empty argument keeps the stored
    value) and everything else as it was; the store holds that row in
    the place of the old one and all other rows untouched; a store
    without double bookings stays without; and if the changed row is for
    a regular service, its new slot is then reported unavailable. *)
Theorem modify_booking_moves_the_booking
    (rows : list Booking) (booking_id : string) (b : Booking)
    (new_date new_time : option string) (slots : list string) :
  unique_ids rows ->
  find (has_id booking_id) rows = Some b ->
  check_row_availability (Online rows) (service b)
    (py_or new_date (date b)) (py_or new_time (time b)) = Ok (true, slots) ->
  let b' := rescheduled b (py_or new_date (date b))
              (py_or new_time (time b)) in
  exists l1 l2,
    rows = l1 ++ b :: l2
    /\ modify_booking (Online rows) booking_id new_date new_time
       = (Ok (Some b'), Online (l1 ++ b' :: l2))
    /\ (no_double_booking rows -> sound (Online (l1 ++ b' :: l2)))
    /\ (regular b' = true ->
        exists svc, service b = Some svc
                    /\ reports_taken (Online (l1 ++ b' :: l2)) svc
                         (date b') (time b')).
Proof.
  intros U Hf Hc b'.
  destruct (@find_split rows booking_id b U Hf) as (l1 & l2 & -> & A & B & C).
  exists l1, l2. split; [reflexivity|].
  assert (Eb : apply_updates
                 (date_and_time (py_or new_date (date b))
                    (py_or new_time (time b))) b = b')
    by reflexivity.
  assert (C' : has_id booking_id b' = true) by exact C.
  split; [|split].
  - unfold modify_booking. cbn [load_bookings]. rewrite Hf, Hc.
    cbn [negb]. unfold update_booking.
    change (no_fields (date_and_time (py_or new_date (date b))
                         (py_or new_time (time b)))) with false.
    cbn [date_and_time upd_unknown collides upd_id].
    rewrite (@updated_rows_split booking_id _ l1 l2 b A B C).
    fold (date_and_time (py_or new_date (date b))
            (py_or new_time (time b))).
    rewrite Eb.
    now rewrite (@find_middle booking_id l1 l2 b' A C').
  - intros D. split.
    + unfold unique_ids in *. rewrite map_app in *. exact U.
    + unfold no_double_booking in *.
      rewrite filter_app in *. cbn [filter] in *.
      assert (D0 : NoDup (map slot_of (filter regular l1 ++ filter regular l2))).
      { destruct (regular b).
        - rewrite map_app in D. cbn [map] in D.
          apply NoDup_remove_1 in D. now rewrite map_app.
        - exact D. }
      destruct (regular b') eqn:R; [|exact D0].
      rewrite map_app in *. cbn [map]. apply NoDup_insert; [exact D0|].
      destruct (regular_inv _ R) as (svc & sl & Es & _).
      cbn [service rescheduled b'] in Es.
      rewrite Es in Hc. cbn [check_row_availability] in Hc.
      pose proof (@free_slot_is_new (l1 ++ b :: l2) svc
                    (py_or new_date (date b)) (py_or new_time (time b))
                    slots b' Hc R) as K.
      intros Hin. apply K.
      * unfold slot_of, b'. cbn. now rewrite Es.
      * rewrite filter_app, map_app. cbn [filter].
        rewrite in_app_iff in *. destruct Hin as [H | H]; [now left|].
        right. destruct (regular b); [now right | exact H].
  - intros R. destruct (regular_inv _ R) as (svc & sl & Es & Hs & Ha & Ht).
    cbn [service rescheduled b'] in Es. exists svc. split; [exact Es|].
    unfold reports_taken. eexists.
    apply (@taken_by (l1 ++ b' :: l2) svc (date b') (time b') sl b' Hs Ha Ht).
    + apply in_or_app. right. now left.
    + apply selected_self; auto. exact (catalog_service_named _ Hs).
Qed.

(** Moving a spa booking from 9:00 AM to 11:00 AM, next to another one. *)
Lemma modify_booking_moves_the_booking_witness :
  let b :=
    {| id := "bkg_1"; service := Some "spa"; date := Some "2099-01-01";
       time := Some "9:00 AM"; location := Some "delhi";
       created_at := "t0"; meta := [] |} in
  let c :=
    {| id := "bkg_2"; service := Some "spa"; date := Some "2099-01-01";
       time := Some "10:00 AM"; location := None;
       created_at := "t1"; meta := [] |} in
  let b' := rescheduled b (Some "2099-01-01") (Some "11:00 AM") in
  exists l1 l2,
    [b; c] = l1 ++ b :: l2
    /\ modify_booking (Online [b; c]) "bkg_1" None (Some "11:00 AM")
       = (Ok (Some b'), Online (l1 ++ b' :: l2))
    /\ (no_double_booking [b; c] -> sound (Online (l1 ++ b' :: l2)))
    /\ (regular b' = true ->
        exists svc, service b = Some svc
                    /\ reports_taken (Online (l1 ++ b' :: l2)) svc
                         (date b') (time b')).
Proof.
  intros b c b'.
  apply (@modify_booking_moves_the_booking [b; c] "bkg_1" b None
           (Some "11:00 AM")
           ["9:00 AM"; "10:00 AM"; "11:00 AM"; "4:00 PM"]).
  - constructor; [intros [H | []]; discriminate H|].
    constructor; [intros [] | constructor].
  - reflexivity.
  - reflexivity.
Defined.

(** ** Times outside the catalog *)

Lemma other_slots_off_catalog (tm : option string) (slots : list string) :
  offered tm slots = false -> other_slots tm slots = slots.
Proof.
  unfold other_slots. intros H.
  induction slots as [|x slots IH]; simpl; [reflexivity|].
  destruct tm as [t|]; simpl in *.
  - apply orb_false_iff in H as [Hx Hr].
    rewrite String.eqb_sym, Hx. simpl. now rewrite IH.
  - now rewrite IH.
Qed.

(** X10: the catalog does not restrict what can be booked.  For a
    service with a catalog of real times and a non-empty time that is
    not in it, a request that [check_availability] reports free is
    booked by [book_slot] (given a fresh id) with that very time, and
    the slot then counts as taken with the whole catalog offered as
    alternatives. *)
Theorem off_catalog_time_is_booked
    (rows : list Booking) (booking_id now svc : string)
    (dt tm loc : option string) (meta : option Meta) (slots : list string) :
  AVAILABLE_SLOTS svc = Some slots ->
  mem "Anytime" slots = false ->
  truthy tm = true ->
  offered tm slots = false ->
  fresh booking_id rows ->
  reports_free (Online rows) svc dt tm ->
  exists b,
    book_slot (Online rows) booking_id now svc dt tm loc meta
      = (Ok b, Online (rows ++ [b]))
    /\ time b = tm
    /\ check_availability (Online (rows ++ [b])) svc dt tm
       = Ok (false, slots).
Proof.
  intros Hc Ha Ht Hoff Hf [sl Hfree].
  unfold book_slot. rewrite Hfree. cbn [negb].
  unfold add_booking. unfold fresh in Hf. rewrite Hf.
  eexists. split; [reflexivity|]. split; [reflexivity|].
  match goal with |- context [Online (rows ++ [?b])] => set (entry := b) end.
  rewrite (@taken_by (rows ++ [entry]) svc dt tm slots entry Hc Ha Ht).
  - now rewrite (other_slots_off_catalog tm slots Hoff).
  - apply in_or_app. right. now left.
  - apply (@selected_spec svc dt tm entry (catalog_service_named _ Hc) Ht).
    unfold matches_request, entry. cbn. auto.
Qed.

(** The salon does not offer 06:00 PM, yet the slot is booked. *)
Lemma off_catalog_time_is_booked_witness :
  exists b,
    book_slot (Online []) "bkg_1" "t0" "salon" (Some "2099-01-01")
      (Some "06:00 PM") None None = (Ok b, Online ([] ++ [b]))
    /\ time b = Some "06:00 PM"
    /\ check_availability (Online ([] ++ [b])) "salon" (Some "2099-01-01")
         (Some "06:00 PM")
       = Ok (false, ["10:00 AM"; "12:00 PM"; "3:00 PM"]).
Proof.
  apply (@off_catalog_time_is_booked [] "bkg_1" "t0" "salon"
           (Some "2099-01-01") (Some "06:00 PM") None None
           ["10:00 AM"; "12:00 PM"; "3:00 PM"]);
    try reflexivity.
  eexists. reflexivity.
Defined.

End StoreFacts.

(* ===================================================================== *)
(** * Further properties of the parsers *)
(* ===================================================================== *)

Section ParserFacts.
Import PyStr Dates TimeUtils BookingLogic Formats.
Local Open Scope exc_scope.

Lemma make_time_Ok (h m : N) (t : time_of_day) :
  make_time h m = Ok t ->
  (h <= 23)%N /\ (m <= 59)%N /\ t = {| hour := h; minute := m |}.
Proof.
  unfold make_time.
  destruct (23 <? h)%N eqn:H; [discriminate|].
  destruct (59 <? m)%N eqn:M; [discriminate|].
  intros [= <-]. apply N.ltb_ge in H, M. auto.
Qed.

Lemma N_range_In (first count : nat) (n : N) :
  (N.of_nat first <= n)%N -> (n < N.of_nat (first + count))%N ->
  In n (N_range first count).
Proof.
  intros Lo Hi. unfold N_range. apply in_map_iff.
  exists (N.to_nat n). split; [apply Nnat.N2Nat.id|].
  apply in_seq. lia.
Qed.

(** The twelve-hour text of every time of day is canonical. *)
Lemma strftime_canonical (h m : N) :
  (h <= 23)%N -> (m <= 59)%N ->
  canonical_time
    (lstrip_zeros (strftime_I_M_p {| hour := h; minute := m |})).
Proof.
  intros Hh Hm.
  assert (Hin : In h (N_range 0 24)) by (apply N_range_In; simpl; lia).
  unfold canonical_time.
  cbv in Hin.
  repeat (destruct Hin as [<- | Hin];
          [match goal with
           | |- context [lstrip_zeros (strftime_I_M_p {| hour := ?k |})] =>
               exists (if (k mod 12 =? 0)%N then 12%N else (k mod 12)%N), m,
                 (if (k <? 12)%N then "AM"%string else "PM"%string)
           end;
           cbn; repeat split; try lia; auto|]).
  contradiction.
Qed.

(** Whatever [normalize_time] returns is the twelve-hour text of a
    time of day, without its leading zero. *)
Lemma normalize_time_result (text s : string) :
  normalize_time text = Ok (Some s) ->
  exists h m,
    (h <= 23)%N /\ (m <= 59)%N
    /\ s = lstrip_zeros (strftime_I_M_p {| hour := h; minute := m |}).
Proof.
  unfold normalize_time.
  destruct (negb (nonempty text)); [discriminate|].
  destruct (Re.search re_12h (lower text)) as [m|].
  - match goal with
    | |- bind (make_time ?h ?mi) _ = _ -> _ =>
        destruct (make_time h mi) as [t|e] eqn:E; cbn [bind]; [|discriminate]
    end.
    apply make_time_Ok in E as (Hh & Hm & ->).
    intros H. apply Ok_inj in H. injection H as <-. eauto.
  - destruct (Re.search re_24h (lower text)) as [m2|]; [|discriminate].
    match goal with
    | |- bind (make_time ?h ?mi) _ = _ -> _ =>
        destruct (make_time h mi) as [t|e] eqn:E; cbn [bind]; [|discriminate]
    end.
    apply make_time_Ok in E as (Hh & Hm & ->).
    intros H. apply Ok_inj in H. injection H as <-. eauto.
Qed.

(** X11: every value [normalize_time] returns is a canonical time: an
    hour from 1 to 12 without leading zero, a colon, two digits of
    minutes up to 59, a space and AM or PM. *)
Theorem normalize_time_canonical (text s : string) :
  normalize_time text = Ok (Some s) -> canonical_time s.
Proof.
  intros H. apply normalize_time_result in H as (h & m & Hh & Hm & ->).
  now apply strftime_canonical.
Qed.

(** "at 14:05" is normalised to the canonical "2:05 PM". *)
Lemma normalize_time_canonical_witness : canonical_time "2:05 PM".
Proof.
  apply (@normalize_time_canonical "at 14:05" "2:05 PM"). reflexivity.
Defined.

Lemma canonical_time_listed (s : string) :
  canonical_time s -> In s all_clock_strings.
Proof.
  intros (h & m & period & Hh & Hm & Hp & ->).
  unfold all_clock_strings. apply in_flat_map.
  exists h. split; [apply N_range_In; simpl; lia|].
  apply in_flat_map. exists m. split; [apply N_range_In; simpl; lia|].
  destruct Hp as [-> | ->]; [now left | right; now left].
Qed.

Lemma all_clock_strings_fixed :
  forallb fixed_by_normalize_time all_clock_strings = true.
Proof. vm_compute. reflexivity. Qed.

(** X12: [normalize_time] is idempotent: what it returns for any text,
    it returns again when given its own result. *)
Theorem normalize_time_idempotent (text s : string) :
  normalize_time text = Ok (Some s) -> normalize_time s = Ok (Some s).
Proof.
  intros H. apply normalize_time_result in H as (h & m & Hh & Hm & ->).
  pose proof (canonical_time_listed (strftime_canonical Hh Hm)) as H.
  pose proof all_clock_strings_fixed as F.
  rewrite forallb_forall in F. specialize (F _ H).
  unfold fixed_by_normalize_time in F.
  destruct (normalize_time _) as [[s'|]|e]; try discriminate.
  apply String.eqb_eq in F. now subst.
Qed.

(** "12am" is normalised to "12:00 AM", which normalises to itself. *)
Lemma normalize_time_idempotent_witness :
  normalize_time "12:00 AM" = Ok (Some "12:00 AM").
Proof.
  apply (@normalize_time_idempotent "12am" "12:00 AM"). reflexivity.
Defined.

(** *** Dates *)

Lemma make_date_real (y m d : N) (dd : pydate) :
  make_date y m d = Ok dd -> real_date dd.
Proof.
  unfold make_date.
  destruct (_ && _) eqn:E; [|discriminate].
  intros [= <-]. unfold real_date. cbn [year month day].
  repeat (apply andb_true_iff in E as [E ?]).
  repeat match goal with
         | H : (_ <=? _)%N = true |- _ => apply N.leb_le in H
         end.
  auto.
Qed.

Lemma strptime_real (s : string) (fmt : date_format) (d : pydate) :
  strptime s fmt = Ok d -> real_date d.
Proof.
  unfold strptime.
  destruct (Re.match_ (format_regex fmt) s) as [[cs rest]|]; [|discriminate].
  destruct (nonempty rest); [discriminate|].
  apply make_date_real.
Qed.

Lemma try_formats_real (s : string) (fmts : list date_format) (v : string) :
  try_formats s fmts = Ok (Some v) ->
  exists d, real_date d /\ v = isoformat d.
Proof.
  induction fmts as [|fmt fmts IH]; cbn [try_formats]; [discriminate|].
  destruct (strptime s fmt) as [d|e] eqn:E; cbn [bind try_except].
  - intros [= <-]. exists d. split; [now apply strptime_real in E | reflexivity].
  - exact IH.
Qed.

Lemma days_in_month_bounds (y m : N) :
  (28 <= days_in_month y m <= 31)%N.
Proof.
  unfold days_in_month.
  destruct (m =? 2)%N; [destruct (is_leap y); lia|].
  destruct ((m =? 4)%N || (m =? 6)%N || (m =? 9)%N || (m =? 11)%N); lia.
Qed.

Lemma add_one_day_real (d d' : pydate) :
  real_date d -> add_one_day d = Ok d' -> real_date d'.
Proof.
  intros (Hy & Hm & Hd). unfold add_one_day.
  destruct (day d <? days_in_month (year d) (month d))%N eqn:E1.
  { intros [= <-]. apply N.ltb_lt in E1. unfold real_date. cbn. lia. }
  destruct (month d <? 12)%N eqn:E2.
  { intros [= <-]. apply N.ltb_lt in E2. unfold real_date. cbn.
    pose proof (days_in_month_bounds (year d) (month d + 1)). lia. }
  destruct (year d <? 9999)%N eqn:E3; [|discriminate].
  intros [= <-]. apply N.ltb_lt in E3. unfold real_date. cbn.
  pose proof (days_in_month_bounds (year d + 1) 1). lia.
Qed.

Lemma pad4_length (y : N) : (y <= 9999)%N -> String.length (pad4 y) = 4%nat.
Proof.
  intros H.
  assert (Hin : In y (N_range 0 (100 * 100))) by (apply N_range_In; lia).
  assert (All : forallb (fun n => String.length (pad4 n) =? 4)%nat
                  (N_range 0 (100 * 100)) = true)
    by (vm_compute; reflexivity).
  rewrite forallb_forall in All. now apply Nat.eqb_eq, All.
Qed.

Lemma pad2_length (m : N) : (m <= 99)%N -> String.length (pad2 m) = 2%nat.
Proof.
  intros H.
  assert (Hin : In m (N_range 0 100)) by (apply N_range_In; simpl; lia).
  assert (All : forallb (fun n => String.length (pad2 n) =? 2)%nat
                  (N_range 0 100) = true)
    by (vm_compute; reflexivity).
  rewrite forallb_forall in All. now apply Nat.eqb_eq, All.
Qed.

Lemma length_append (a b : string) :
  String.length (a ++ b) = (String.length a + String.length b)%nat.
Proof. induction a as [|c a IH]; simpl; [reflexivity | now rewrite IH]. Qed.

Lemma isoformat_length (d : pydate) :
  real_date d -> String.length (isoformat d) = 10%nat.
Proof.
  intros (Hy & Hm & Hd). unfold isoformat.
  pose proof (days_in_month_bounds (year d) (month d)).
  rewrite !length_append, pad4_length, !pad2_length by lia.
  reflexivity.
Qed.

(** X13: with a real reference day, every date [_parse_date] returns is
    the ten-character ISO form YYYY-MM-DD of a real calendar day (year 1
    to 9999, a month from 1 to 12, a day that the month has in that
    year): impossible dates in the text are never passed on. *)
Theorem parse_date_is_real_date (today : pydate) (text s : string) :
  real_date today ->
  _parse_date today text = Ok (Some s) ->
  exists d, real_date d /\ s = isoformat d /\ String.length s = 10%nat.
Proof.
  intros Ht H.
  assert (K : exists d, real_date d /\ s = isoformat d).
  { revert H. unfold _parse_date.
    destruct (contains "today" _); [intros [= <-]; eauto|].
    destruct (contains "tomorrow" _).
    { destruct (add_one_day today) as [d|e] eqn:E; cbn [bind]; [|discriminate].
      intros [= <-]. exists d. split; [|reflexivity].
      eapply add_one_day_real; eauto. }
    destruct (Re.search re_date_slashes _) as [m|].
    - destruct (try_formats (group1 m) [fmt_d_m_Y; fmt_d_m_y])
        as [[v|]|e] eqn:E; cbn [bind]; try discriminate.
      + intros [= <-]. eapply try_formats_real; eauto.
      + destruct (Re.search re_date_dashes _) as [m2|]; [|discriminate].
        destruct (strptime (group1 m2) fmt_Y_m_d) as [d|e] eqn:E2;
          cbn [bind try_except]; [|discriminate].
        intros [= <-]. exists d. split; [|reflexivity].
        eapply strptime_real; eauto.
    - cbn [bind].
      destruct (Re.search re_date_dashes _) as [m2|]; [|discriminate].
      destruct (strptime (group1 m2) fmt_Y_m_d) as [d|e] eqn:E2;
        cbn [bind try_except]; [|discriminate].
      intros [= <-]. exists d. split; [|reflexivity].
      eapply strptime_real; eauto. }
  destruct K as (d & Hd & ->). exists d.
  split; [exact Hd | split; [reflexivity | now apply isoformat_length]].
Qed.

(** "on 29/02/2024" is read as the leap day; 29/02/2023 is not a day and
    the ISO date further on in the text is taken instead. *)
Lemma parse_date_is_real_date_witness :
  (exists d, real_date d /\ "2024-02-29" = isoformat d
             /\ String.length "2024-02-29" = 10%nat)
  /\ _parse_date Spec.a_day "on 29/02/2023 or 2023-03-01"
     = Ok (Some "2023-03-01").
Proof.
  split; [|reflexivity].
  apply (@parse_date_is_real_date Spec.a_day "on 29/02/2024" "2024-02-29").
  - unfold real_date. cbn. lia.
  - reflexivity.
Defined.

End ParserFacts.

(* ===================================================================== *)
(** * Further properties of the extraction *)
(* ===================================================================== *)

Section ExtractionMoreFacts.
Import PyStr BookingLogic Spec ExtractionLaws.
Local Open Scope exc_scope.

(** *** Delegation and intent *)

(** Splits a goal along every test of the block it unfolds. *)
Ltac each_branch :=
  repeat match goal with
         | |- context [match ?x with _ => _ end] => destruct x
         end;
  repeat split.

(** The delegation flag and the intent are the same in [L'] as in [L]. *)
Lemma fold_left_same {A B : Type} (proj : Locals -> B)
    (f : Locals -> A -> Locals) (l : list A) :
  (forall L a, proj (f L a) = proj L) ->
  forall L, proj (fold_left f l L) = proj L.
Proof.
  intros Hf. induction l as [|a l IH]; intros L; simpl; [reflexivity|].
  now rewrite IH, Hf.
Qed.

Lemma detect_date_control today text L L' :
  detect_date today text L = Ok L' ->
  delegated (state L') = delegated (state L)
  /\ intent (state L') = intent (state L).
Proof.
  unfold detect_date.
  destruct (negb _); [|intros H; apply Ok_inj in H; now subst].
  destruct (_parse_date today text); cbn [bind]; [|discriminate].
  destruct (truthy _); intros H; apply Ok_inj in H; now subst.
Qed.

Lemma fuzzy_time_control text items L :
  delegated (state (fuzzy_time text items L)) = delegated (state L)
  /\ intent (state (fuzzy_time text items L)) = intent (state L).
Proof.
  induction items as [|[w r] items IH]; cbn [fuzzy_time]; [auto|].
  destruct (contains w text); [auto | exact IH].
Qed.

Lemma detect_time_control text L L' :
  detect_time text L = Ok L' ->
  delegated (state L') = delegated (state L)
  /\ intent (state L') = intent (state L).
Proof.
  unfold detect_time.
  destruct (negb _); [|intros H; apply Ok_inj in H; now subst].
  destruct (TimeUtils.normalize_time text); cbn [bind]; [|discriminate].
  destruct (truthy _); intros H; apply Ok_inj in H; subst L';
    [auto | apply fuzzy_time_control].
Qed.

(** What one turn does to the delegation flag and to the intent. *)
Lemma process_turn_control today msg L L' :
  process_turn today msg L = Ok L' ->
  delegated (state L') = delegated (state L) || delegates msg
  /\ intent (state L')
     = (if says_cancel msg then "cancel"
        else if says_modify msg then "modify"
        else intent (state L)).
Proof.
  unfold process_turn, delegates, says_cancel, says_modify, heard.
  set (text := lower (content msg)).
  set (L1 := location_pattern text L).
  set (L2 := detect_delegation text L1).
  set (L3 := detect_intent text L2).
  set (L4 := detect_service text L3).
  set (L5 := refine_service text L4).
  destruct (detect_date today text L5) as [L6|e] eqn:E6; cbn [bind];
    [|discriminate].
  destruct (detect_time text L6) as [L7|e] eqn:E7; cbn [bind];
    [|discriminate].
  intros H. apply Ok_inj in H. subst L'.
  assert (H1 : delegated (state L1) = delegated (state L)
               /\ intent (state L1) = intent (state L)).
  { unfold L1, location_pattern. each_branch. }
  assert (H2 : delegated (state L2)
               = delegated (state L1) || any_in delegation_phrases text
               /\ intent (state L2) = intent (state L1)).
  { unfold L2, detect_delegation.
    destruct (any_in delegation_phrases text); cbn.
    - now rewrite orb_true_r.
    - now rewrite orb_false_r. }
  assert (H3 : delegated (state L3) = delegated (state L2)
               /\ intent (state L3)
                  = (if any_in ["cancel"; "cancelled"; "delete"] text
                     then "cancel"
                     else if any_in ["change"; "modify"; "reschedule"] text
                          then "modify" else intent (state L2))).
  { unfold L3, detect_intent.
    destruct (any_in ["cancel"; "cancelled"; "delete"] text); [auto|].
    destruct (any_in ["change"; "modify"; "reschedule"] text); auto. }
  assert (H4 : delegated (state L4) = delegated (state L3)
               /\ intent (state L4) = intent (state L3)).
  { unfold L4, detect_service. split.
    - apply (@fold_left_same _ _ (fun M => delegated (state M))).
      intros M a. unfold service_step. each_branch.
    - apply (@fold_left_same _ _ (fun M => intent (state M))).
      intros M a. unfold service_step. each_branch. }
  assert (H5 : delegated (state L5) = delegated (state L4)
               /\ intent (state L5) = intent (state L4)).
  { unfold L5, refine_service. each_branch. }
  pose proof (detect_date_control _ _ _ E6) as H6.
  pose proof (detect_time_control _ _ E7) as H7.
  assert (H8 : delegated (state (detect_city text L7))
               = delegated (state L7)
               /\ intent (state (detect_city text L7)) = intent (state L7)).
  { unfold detect_city. split.
    - apply (@fold_left_same _ _ (fun M => delegated (state M))).
      intros M a. unfold city_step. each_branch.
    - apply (@fold_left_same _ _ (fun M => intent (state M))).
      intros M a. unfold city_step. each_branch. }
  destruct H1 as [A1 B1], H2 as [A2 B2], H3 as [A3 B3], H4 as [A4 B4],
    H5 as [A5 B5], H6 as [A6 B6], H7 as [A7 B7], H8 as [A8 B8].
  split.
  - rewrite A8, A7, A6, A5, A4, A3, A2, A1. reflexivity.
  - rewrite B8, B7, B6, B5, B4, B3, B2, B1. reflexivity.
Qed.

Lemma delegation_defaults_control today db L :
  delegated (state (delegation_defaults today db L)) = delegated (state L)
  /\ intent (state (delegation_defaults today db L)) = intent (state L).
Proof.
  unfold delegation_defaults.
  destruct (delegated (state L)) eqn:D; [|auto].
  assert (A1 : forall M, delegated (state (default_service M))
                         = delegated (state M)
                         /\ intent (state (default_service M))
                            = intent (state M)).
  { intros M. unfold default_service. now destruct (negb _). }
  assert (A2 : forall iso M, delegated (state (default_date iso M))
                             = delegated (state M)
                             /\ intent (state (default_date iso M))
                                = intent (state M)).
  { intros iso M. unfold default_date. now destruct (negb _). }
  assert (A3 : forall M, delegated (state (default_time db M))
                         = delegated (state M)
                         /\ intent (state (default_time db M))
                            = intent (state M)).
  { intros M. unfold default_time. destruct (negb _); [|auto].
    destruct (service (state M)) as [[|c r]|]; auto.
    destruct (SlotEngine.find_next_available db _ _ None) as [[[? ?]|]|];
      auto. }
  assert (A4 : forall M, delegated (state (default_location M))
                         = delegated (state M)
                         /\ intent (state (default_location M))
                            = intent (state M)).
  { intros M. unfold default_location. destruct (negb _); [|auto].
    destruct (explicit_location M) as [[|c r]|]; auto. }
  split.
  - rewrite (proj1 (A4 _)), (proj1 (A3 _)), (proj1 (A2 _ _)),
      (proj1 (A1 _)). exact D.
  - now rewrite (proj2 (A4 _)), (proj2 (A3 _)), (proj2 (A2 _ _)),
      (proj2 (A1 _)).
Qed.

Lemma run_turns_control today msgs L L' :
  run_turns today msgs L = Ok L' ->
  delegated (state L') = delegated (state L) || existsb delegates msgs
  /\ intent (state L')
     = fold_left
         (fun i msg => if says_cancel msg then "cancel"
                       else if says_modify msg then "modify" else i)
         msgs (intent (state L)).
Proof.
  revert L. induction msgs as [|msg msgs IH]; intros L; simpl.
  - intros H. apply Ok_inj in H. subst. now rewrite orb_false_r.
  - destruct (process_turn today msg L) as [L1|e] eqn:E; cbn [bind];
      [|discriminate].
    intros H. destruct (IH _ H) as [A B].
    destruct (process_turn_control _ _ _ E) as [A1 B1].
    split.
    + now rewrite A, A1, orb_assoc.
    + now rewrite B, B1.
Qed.

(** X14: the returned state is delegated exactly when some turn of the
    conversation, whatever its role, contains one of the delegation
    phrases: once given, the delegation is never withdrawn by a later
    turn. *)
Theorem delegated_iff_some_turn_delegates today db msgs final :
  extract_booking_state today db msgs = Ok final ->
  delegated (bs_state final) = existsb delegates msgs.
Proof.
  unfold extract_booking_state.
  destruct (run_turns today msgs initial) as [L|e] eqn:H; cbn [bind];
    [|discriminate].
  intros E. apply Ok_inj in E. subst final. cbn [attach bs_state].
  rewrite (proj1 (delegation_defaults_control today db L)).
  now destruct (run_turns_control _ _ _ H) as [-> _].
Qed.

(** A delegation in the first turn holds after a later turn. *)
Lemma delegated_iff_some_turn_delegates_witness :
  exists final,
    extract_booking_state a_day (BookingsStore.Online [])
      [user "you decide"; user "a spa please"] = Ok final
    /\ delegated (bs_state final) = true.
Proof.
  eexists. split; [vm_compute; reflexivity|].
  rewrite (@delegated_iff_some_turn_delegates a_day (BookingsStore.Online [])
             [user "you decide"; user "a spa please"] _
             ltac:(vm_compute; reflexivity)).
  reflexivity.
Defined.

Lemma fold_intent_last (msgs : list Message) (start : string) :
  fold_left
    (fun i msg => if says_cancel msg then "cancel"
                  else if says_modify msg then "modify" else i)
    msgs start
  = match find names_intent (rev msgs) with
    | Some msg => if says_cancel msg then "cancel" else "modify"
    | None => start
    end.
Proof.
  revert start. induction msgs as [|msg msgs IH] using rev_ind;
    intros start; [reflexivity|].
  rewrite fold_left_app, rev_app_distr. cbn [fold_left rev app find].
  unfold names_intent at 1.
  destruct (says_cancel msg) eqn:C; cbn [orb]; [now rewrite C|].
  destruct (says_modify msg); [now rewrite C | apply IH].
Qed.

(** X15: the intent of the returned state is decided by the last turn
    that contains an intent word: "cancel" if that turn has a
    cancellation word (even beside a word of change), "modify"
    otherwise; it is "book" when no turn has any such word. *)
Theorem intent_is_last_named today db msgs final :
  extract_booking_state today db msgs = Ok final ->
  intent (bs_state final) = last_named_intent msgs.
Proof.
  unfold extract_booking_state, last_named_intent.
  destruct (run_turns today msgs initial) as [L|e] eqn:H; cbn [bind];
    [|discriminate].
  intros E. apply Ok_inj in E. subst final. cbn [attach bs_state].
  rewrite (proj2 (delegation_defaults_control today db L)).
  destruct (run_turns_control _ _ _ H) as [_ ->].
  apply fold_intent_last.
Qed.

(** A cancellation followed by a change of mind, and a turn with both
    words. *)
Lemma intent_is_last_named_witness :
  exists final,
    extract_booking_state a_day (BookingsStore.Online [])
      [user "cancel my spa"; user "no, reschedule it"; user "thanks"]
    = Ok final
    /\ intent (bs_state final) = "modify"
    /\ last_named_intent [user "change it or cancel it"] = "cancel".
Proof.
  eexists. split; [vm_compute; reflexivity|].
  split; [|reflexivity].
  rewrite (@intent_is_last_named a_day (BookingsStore.Online [])
             [user "cancel my spa"; user "no, reschedule it"; user "thanks"]
             _ ltac:(vm_compute; reflexivity)).
  reflexivity.
Defined.

(** *** Slots and confidences move together *)

Lemma graded_incl lv lv' slot c :
  incl lv lv' -> graded lv slot c -> graded lv' slot c.
Proof. unfold graded. destruct (truthy slot); auto. Qed.

Lemma well_graded_incl lv lv' st confs :
  incl lv lv' -> well_graded lv st confs -> well_graded lv' st confs.
Proof.
  intros I (cs & cd & ct & cl & E & A & B & C & D).
  exists cs, cd, ct, cl.
  repeat split; try assumption; eapply graded_incl; eassumption.
Qed.

Lemma assign_service lv st confs v c :
  well_graded lv st confs -> truthy v = true -> In c lv ->
  well_graded lv (set_service v st) (dict_set confs "service" c).
Proof.
  intros (cs & cd & ct & cl & -> & A & B & C & D) Hv Hc.
  exists c, cd, ct, cl. cbn. unfold graded at 1. rewrite Hv. auto.
Qed.

Lemma assign_date lv st confs v c :
  well_graded lv st confs -> truthy v = true -> In c lv ->
  well_graded lv (set_date v st) (dict_set confs "date" c).
Proof.
  intros (cs & cd & ct & cl & -> & A & B & C & D) Hv Hc.
  exists cs, c, ct, cl. cbn. unfold graded at 2. rewrite Hv. auto.
Qed.

Lemma assign_time lv st confs v c :
  well_graded lv st confs -> truthy v = true -> In c lv ->
  well_graded lv (set_time v st) (dict_set confs "time" c).
Proof.
  intros (cs & cd & ct & cl & -> & A & B & C & D) Hv Hc.
  exists cs, cd, c, cl. cbn. unfold graded at 3. rewrite Hv. auto.
Qed.

Lemma assign_location lv st confs v c :
  well_graded lv st confs -> truthy v = true -> In c lv ->
  well_graded lv (set_location v st) (dict_set confs "location" c).
Proof.
  intros (cs & cd & ct & cl & -> & A & B & C & D) Hv Hc.
  exists cs, cd, ct, c. cbn. unfold graded at 4. rewrite Hv. auto.
Qed.

(** The invariant on the local variables. *)
Lemma city_named (c : string) : In c CITIES -> truthy (Some c) = true.
Proof.
  unfold CITIES. simpl.
  intros H. repeat (destruct H as [<- | H]; [reflexivity|]). contradiction.
Qed.

Lemma service_named (s : string) : In s SERVICES -> truthy (Some s) = true.
Proof.
  unfold SERVICES. simpl.
  intros H. repeat (destruct H as [<- | H]; [reflexivity|]). contradiction.
Qed.

Lemma location_pattern_graded lv text L :
  In 0.9%Q lv ->
  well_graded lv (state L) (confidences L) ->
  well_graded lv (state (location_pattern text L))
    (confidences (location_pattern text L)).
Proof.
  intros Hl H. unfold location_pattern.
  destruct (Re.search re_in_place text) as [m|]; [|exact H].
  destruct (mem _ CITIES) eqn:M; [|exact H].
  destruct (negb _); [|exact H].
  apply assign_location; auto. apply city_named. now apply mem_In.
Qed.

Lemma service_steps_graded lv text (l : list string) :
  In 0.95%Q lv ->
  (forall s, In s l -> truthy (Some s) = true) ->
  forall L,
    well_graded lv (state L) (confidences L) ->
    well_graded lv (state (fold_left (service_step text) l L))
      (confidences (fold_left (service_step text) l L)).
Proof.
  intros Hl. induction l as [|s l IH]; intros Hn L H; [exact H|].
  cbn [fold_left]. apply IH; [intros x Hx; apply Hn; now right|].
  unfold service_step. destruct (_ && _); [|exact H].
  apply assign_service; auto. apply Hn. now left.
Qed.

Lemma refine_service_graded lv text L :
  In 0.9%Q lv ->
  well_graded lv (state L) (confidences L) ->
  well_graded lv (state (refine_service text L))
    (confidences (refine_service text L)).
Proof.
  intros Hl H. unfold refine_service.
  destruct (BookingsStore.opt_eqb _ _); [|exact H].
  destruct (any_in _ text); [now apply assign_service|].
  destruct (any_in _ text); [now apply assign_service | exact H].
Qed.

Lemma detect_date_graded lv today text L L' :
  In 0.9%Q lv ->
  detect_date today text L = Ok L' ->
  well_graded lv (state L) (confidences L) ->
  well_graded lv (state L') (confidences L').
Proof.
  intros Hl E H. revert E. unfold detect_date.
  destruct (negb _); [|intros E; apply Ok_inj in E; now subst].
  destruct (_parse_date today text) as [parsed|]; cbn [bind]; [|discriminate].
  destruct (truthy parsed) eqn:T; intros E; apply Ok_inj in E; subst L';
    [|exact H].
  now apply assign_date.
Qed.

Lemma fuzzy_time_graded lv text L :
  In 0.7%Q lv ->
  well_graded lv (state L) (confidences L) ->
  well_graded lv (state (fuzzy_time text fuzzy_map L))
    (confidences (fuzzy_time text fuzzy_map L)).
Proof.
  intros Hl H. unfold fuzzy_map. cbn [fuzzy_time].
  repeat (destruct (contains _ text); [now apply assign_time|]).
  exact H.
Qed.

Lemma detect_time_graded lv text L L' :
  In 0.7%Q lv -> In 0.95%Q lv ->
  detect_time text L = Ok L' ->
  well_graded lv (state L) (confidences L) ->
  well_graded lv (state L') (confidences L').
Proof.
  intros Hl Hl' E H. revert E. unfold detect_time.
  destruct (negb _); [|intros E; apply Ok_inj in E; now subst].
  destruct (TimeUtils.normalize_time text) as [tv|]; cbn [bind];
    [|discriminate].
  destruct (truthy tv) eqn:T; intros E; apply Ok_inj in E; subst L'.
  - now apply assign_time.
  - now apply fuzzy_time_graded.
Qed.

Lemma city_steps_graded lv text (l : list string) :
  In 0.9%Q lv ->
  (forall s, In s l -> truthy (Some s) = true) ->
  forall L,
    well_graded lv (state L) (confidences L) ->
    well_graded lv (state (fold_left (city_step text) l L))
      (confidences (fold_left (city_step text) l L)).
Proof.
  intros Hl. induction l as [|s l IH]; intros Hn L H; [exact H|].
  cbn [fold_left]. apply IH; [intros x Hx; apply Hn; now right|].
  unfold city_step. destruct (_ && _); [|exact H].
  apply assign_location; auto. apply Hn. now left.
Qed.

Lemma process_turn_graded lv today msg L L' :
  incl turn_levels lv ->
  process_turn today msg L = Ok L' ->
  well_graded lv (state L) (confidences L) ->
  well_graded lv (state L') (confidences L').
Proof.
  intros I E H.
  assert (I7 : In 0.7%Q lv) by (apply I; simpl; auto).
  assert (I9 : In 0.9%Q lv) by (apply I; simpl; auto).
  assert (I95 : In 0.95%Q lv) by (apply I; simpl; auto).
  revert E. unfold process_turn.
  set (text := lower (content msg)).
  set (L1 := location_pattern text L).
  set (L2 := detect_delegation text L1).
  set (L3 := detect_intent text L2).
  set (L4 := detect_service text L3).
  set (L5 := refine_service text L4).
  destruct (detect_date today text L5) as [L6|e] eqn:E6; cbn [bind];
    [|discriminate].
  destruct (detect_time text L6) as [L7|e] eqn:E7; cbn [bind];
    [|discriminate].
  intros E. apply Ok_inj in E. subst L'.
  assert (H1 : well_graded lv (state L1) (confidences L1))
    by now apply location_pattern_graded.
  assert (H2 : well_graded lv (state L2) (confidences L2)).
  { unfold L2, detect_delegation. destruct (any_in _ text); exact H1. }
  assert (H3 : well_graded lv (state L3) (confidences L3)).
  { unfold L3, detect_intent. destruct (any_in _ text); [exact H2|].
    destruct (any_in _ text); exact H2. }
  assert (H4 : well_graded lv (state L4) (confidences L4))
    by (apply service_steps_graded; auto using service_named).
  assert (H5 : well_graded lv (state L5) (confidences L5))
    by now apply refine_service_graded.
  pose proof (@detect_date_graded lv _ _ _ _ I9 E6 H5) as H6.
  pose proof (@detect_time_graded lv _ _ _ I7 I95 E7 H6) as H7.
  apply city_steps_graded; auto using city_named.
Qed.

Lemma run_turns_graded lv today msgs L L' :
  incl turn_levels lv ->
  run_turns today msgs L = Ok L' ->
  well_graded lv (state L) (confidences L) ->
  well_graded lv (state L') (confidences L').
Proof.
  intros I. revert L. induction msgs as [|msg msgs IH]; intros L; simpl.
  - intros E. apply Ok_inj in E. now subst.
  - destruct (process_turn today msg L) as [L1|e] eqn:E; cbn [bind];
      [|discriminate].
    intros E' H. apply (IH _ E'). exact (@process_turn_graded lv today msg L L1 I E H).
Qed.

Lemma initial_graded lv : well_graded lv (state initial) (confidences initial).
Proof. exists 0.0%Q, 0.0%Q, 0.0%Q, 0.0%Q. repeat split. Qed.

Lemma isoformat_named (d : Dates.pydate) :
  truthy (Some (Dates.isoformat d)) = true.
Proof.
  unfold Dates.isoformat.
  destruct (PyStr.pad4 _) as [|c r]; reflexivity.
Qed.

Lemma default_time_graded db L :
  well_graded levels (state L) (confidences L) ->
  well_graded levels (state (default_time db L))
    (confidences (default_time db L)).
Proof.
  intros H. unfold default_time. destruct (negb _); [|exact H].
  assert (S : forall why, well_graded levels (state (static_time why L))
                            (confidences (static_time why L))).
  { intros why. apply assign_time; auto. simpl. auto 10. }
  destruct (service (state L)) as [[|c r]|]; try apply S.
  destruct (SlotEngine.find_next_available db _ _ None)
    as [[[chosen all]|]|] eqn:F; cbn [bind]; try apply S.
  apply assign_time; auto; [|simpl; auto 10].
  destruct (find_next_available_free _ _ _ _ F) as (rows & _ & Hc & Hf).
  apply (@catalog_slot_named _ _ chosen Hc).
  exact (first_free_entry_In Hf).
Qed.

Lemma delegation_defaults_graded today db L :
  well_graded levels (state L) (confidences L) ->
  well_graded levels (state (delegation_defaults today db L))
    (confidences (delegation_defaults today db L)).
Proof.
  intros H. unfold delegation_defaults.
  destruct (delegated (state L)); [|exact H].
  assert (H1 : well_graded levels (state (default_service L))
                 (confidences (default_service L))).
  { unfold default_service. destruct (negb _); [|exact H].
    apply (@assign_service levels (state L) (confidences L)
             (Some "facial") 0.6%Q); auto. simpl. auto 10. }
  set (L1 := default_service L) in *.
  assert (H2 : well_graded levels
                 (state (default_date (Dates.isoformat today) L1))
                 (confidences (default_date (Dates.isoformat today) L1))).
  { unfold default_date. destruct (negb _); [|exact H1].
    apply assign_date; auto using isoformat_named. simpl. auto 10. }
  set (L2 := default_date (Dates.isoformat today) L1) in *.
  pose proof (@default_time_graded db L2 H2) as H3.
  set (L3 := default_time db L2) in *.
  unfold default_location. destruct (negb _); [|exact H3].
  destruct (explicit_location L3) as [[|c r]|].
  - apply (@assign_location levels (state L3) (confidences L3)
             (Some first_city) 0.5%Q); auto. simpl. auto 10.
  - apply assign_location; auto. simpl. auto 10.
  - apply (@assign_location levels (state L3) (confidences L3)
             (Some first_city) 0.5%Q); auto. simpl. auto 10.
Qed.

Lemma extract_well_graded today db msgs final :
  extract_booking_state today db msgs = Ok final ->
  well_graded levels (bs_state final) (bs_confidences final).
Proof.
  unfold extract_booking_state.
  destruct (run_turns today msgs initial) as [L|e] eqn:H; cbn [bind];
    [|discriminate].
  intros E. apply Ok_inj in E. subst final.
  cbn [attach bs_state bs_confidences].
  apply delegation_defaults_graded.
  apply (@run_turns_graded levels _ _ _ _
           ltac:(unfold levels; apply incl_appl, incl_refl) H).
  apply initial_graded.
Qed.

Lemma extract_undelegated_graded today db msgs final :
  extract_booking_state today db msgs = Ok final ->
  delegated (bs_state final) = false ->
  well_graded turn_levels (bs_state final) (bs_confidences final).
Proof.
  unfold extract_booking_state.
  destruct (run_turns today msgs initial) as [L|e] eqn:H; cbn [bind];
    [|discriminate].
  intros E. apply Ok_inj in E. subst final.
  cbn [attach bs_state bs_confidences].
  rewrite (proj1 (delegation_defaults_control today db L)). intros D.
  unfold delegation_defaults. rewrite D.
  apply (@run_turns_graded turn_levels _ _ _ _ (@incl_refl _ _) H).
  apply initial_graded.
Qed.

(** X16: in every returned state the confidences are exactly those of
    service, date, time and location, in this order; a slot that is
    empty has confidence 0.0 and a filled slot has one of 0.7, 0.9,
    0.95 (assigned by a turn) or 0.5, 0.6, 0.75, 0.8 (assigned by the
    defaults); and without a delegation only the first three occur. *)
Theorem confidences_agree_with_slots today db msgs final :
  extract_booking_state today db msgs = Ok final ->
  well_graded levels (bs_state final) (bs_confidences final)
  /\ (delegated (bs_state final) = false ->
      well_graded turn_levels (bs_state final) (bs_confidences final)).
Proof.
  intros H. split.
  - exact (extract_well_graded _ _ _ H).
  - exact (extract_undelegated_graded _ _ _ H).
Qed.

(** A fuzzy time and a defaulted service. *)
Lemma confidences_agree_with_slots_witness :
  exists final,
    extract_booking_state a_day (BookingsStore.Online [])
      [user "this evening in delhi, you decide"] = Ok final
    /\ well_graded levels (bs_state final) (bs_confidences final)
    /\ bs_confidences final
       = [("service", 0.6%Q); ("date", 0.6%Q);
          ("time", 0.7%Q); ("location", 0.9%Q)].
Proof.
  eexists. split; [vm_compute; reflexivity|]. split; [|reflexivity].
  exact (proj1 (@confidences_agree_with_slots a_day (BookingsStore.Online [])
                  [user "this evening in delhi, you decide"] _
                  ltac:(vm_compute; reflexivity))).
Defined.

(** *** The clarification *)

Lemma turn_level_not_low slot c :
  graded turn_levels slot c ->
  negb (Qeq_bool c 0.0%Q) && Clarifier.below c 0.7%Q = false.
Proof.
  unfold graded, turn_levels. destruct (truthy slot).
  - simpl. intros [<- | [<- | [<- | []]]]; reflexivity.
  - intros ->. reflexivity.
Qed.

(** X17: the test the application makes before it asks for a
    clarification (some confidence is non-zero and below 0.7, and the
    state is not delegated) fails on every state the extraction
    returns: a confidence below 0.7 is only ever assigned by the
    defaults under delegation. *)
Theorem clarification_is_never_due today db msgs final :
  extract_booking_state today db msgs = Ok final ->
  App.clarification_due final = false.
Proof.
  intros H. unfold App.clarification_due.
  destruct (delegated (bs_state final)) eqn:D;
    [apply andb_false_r|].
  destruct (extract_undelegated_graded _ _ _ H D)
    as (cs & cd & ct & cl & E & Gs & Gd & Gt & Gl).
  unfold App.low_conf. rewrite E. cbn [filter snd].
  rewrite (@turn_level_not_low _ _ Gs), (@turn_level_not_low _ _ Gd),
    (@turn_level_not_low _ _ Gt), (@turn_level_not_low _ _ Gl).
  reflexivity.
Qed.

(** A request that leaves three slots empty and resolves a fuzzy time. *)
Lemma clarification_is_never_due_witness :
  exists final,
    extract_booking_state a_day (BookingsStore.Online [])
      [user "sometime in the evening"] = Ok final
    /\ App.clarification_due final = false.
Proof.
  eexists. split; [vm_compute; reflexivity|].
  apply (@clarification_is_never_due a_day (BookingsStore.Online [])
           [user "sometime in the evening"]).
  vm_compute. reflexivity.
Defined.

Lemma settled_filled lv slot c :
  graded lv slot c -> Clarifier.below c 0.7%Q = false -> truthy slot = true.
Proof.
  unfold graded. destruct (truthy slot); [reflexivity|].
  intros ->. vm_compute. discriminate.
Qed.

(** X18: asked about a state the extraction returned, the clarifier
    never takes its ambiguity branch nor its missing-field branch: it
    returns the low-confidence question of the first of service, date,
    time, location whose confidence is below 0.7, and [None] when there
    is none, in which case all four slots are filled. *)
Theorem clarifier_asks_first_unsettled today db msgs final :
  extract_booking_state today db msgs = Ok final ->
  exists cs cd ct cl,
    bs_confidences final
    = [("service", cs); ("date", cd); ("time", ct); ("location", cl)]
    /\ Clarifier.generate_clarifying_question final
       = ClarifierLaws.question_for
           (ClarifierLaws.first_unsettled cs cd ct cl)
    /\ (Clarifier.generate_clarifying_question final = None ->
        ClarifierLaws.complete (bs_state final)).
Proof.
  intros H.
  destruct (extract_well_graded _ _ _ H)
    as (cs & cd & ct & cl & E & Gs & Gd & Gt & Gl).
  exists cs, cd, ct, cl. split; [exact E|].
  unfold Clarifier.generate_clarifying_question,
    ClarifierLaws.first_unsettled, Clarifier.low.
  rewrite (extract_ambiguities_empty _ _ _ H), E. cbn [filter snd].
  destruct (Clarifier.below cs 0.7%Q) eqn:Bs;
    [split; [reflexivity | discriminate]|].
  destruct (Clarifier.below cd 0.7%Q) eqn:Bd;
    [split; [reflexivity | discriminate]|].
  destruct (Clarifier.below ct 0.7%Q) eqn:Bt;
    [split; [reflexivity | discriminate]|].
  destruct (Clarifier.below cl 0.7%Q) eqn:Bl;
    [split; [reflexivity | discriminate]|].
  cbn [map ClarifierLaws.question_for].
  pose proof (@settled_filled _ _ _ Gs Bs) as Ts.
  pose proof (@settled_filled _ _ _ Gd Bd) as Td.
  pose proof (@settled_filled _ _ _ Gt Bt) as Tt.
  pose proof (@settled_filled _ _ _ Gl Bl) as Tl.
  unfold Clarifier.missing_field_question. rewrite Ts, Td, Tt, Tl.
  split; [reflexivity|]. intros _. repeat split; assumption.
Qed.

(** With only the service named the question is the one about the
    date. *)
Lemma clarifier_asks_first_unsettled_witness :
  exists final,
    extract_booking_state a_day (BookingsStore.Online [])
      [user "book a spa"] = Ok final
    /\ Clarifier.generate_clarifying_question final
       = Some "On which date would you like the booking?".
Proof.
  eexists. split; [vm_compute; reflexivity|].
  destruct (@clarifier_asks_first_unsettled a_day (BookingsStore.Online [])
              [user "book a spa"] _ ltac:(vm_compute; reflexivity))
    as (cs & cd & ct & cl & E & Q & _).
  rewrite Q. injection E as <- <- <- <-. reflexivity.
Defined.

(** *** The services a conversation can name *)

Lemma prefix_app (a b t : string) :
  prefix (a ++ b) t = true ->
  exists rest, t = (a ++ rest)%string /\ prefix b rest = true.
Proof.
  revert t. induction a as [|c a IH]; intros t H.
  - exists t. auto.
  - destruct t as [|d t]; [discriminate|]. cbn [append prefix] in H.
    destruct (ascii_dec c d) as [<-|]; [|discriminate].
    destruct (IH _ H) as (rest & -> & P). exists rest. auto.
Qed.

Lemma contains_skip (a b rest : string) :
  prefix b rest = true -> contains b (a ++ rest) = true.
Proof.
  intros H. induction a as [|c a IH].
  - destruct rest; cbn [append contains]; rewrite H; reflexivity.
  - cbn [append contains]. rewrite IH. apply orb_true_r.
Qed.

(** A text that contains a phrase contains every ending of it. *)
Lemma contains_suffix (a b t : string) :
  contains (a ++ b) t = true -> contains b t = true.
Proof.
  induction t as [|c t IH]; intros H; cbn [contains] in H.
  - rewrite orb_false_r in H. destruct (prefix_app _ _ _ H) as (rest & E & P).
    destruct a; [|discriminate]. cbn [append] in E. subst rest.
    cbn [contains]. now rewrite P.
  - apply orb_true_iff in H. destruct H as [H | H].
    + destruct (prefix_app _ _ _ H) as (rest & E & P).
      rewrite E. now apply contains_skip.
    + cbn [contains]. rewrite (IH H). apply orb_true_r.
Qed.

Lemma service_step_service text L s :
  service (state (service_step text L s))
  = (if contains s text && negb (truthy (service (state L)))
     then Some s else service (state L)).
Proof. unfold service_step. destruct (_ && _); reflexivity. Qed.

Lemma service_steps_filled text (l : list string) L :
  truthy (service (state L)) = true ->
  service (state (fold_left (service_step text) l L)) = service (state L).
Proof.
  revert L. induction l as [|a l IH]; intros L T; [reflexivity|].
  cbn [fold_left].
  assert (E : service (state (service_step text L a)) = service (state L)).
  { rewrite service_step_service, T, andb_false_r. reflexivity. }
  rewrite IH; [exact E | now rewrite E].
Qed.

Lemma service_steps_hit text (l : list string) (s : string) :
  In s l -> truthy (Some s) = true -> contains s text = true ->
  forall L, truthy (service (state (fold_left (service_step text) l L))) = true.
Proof.
  intros Hin Hs Hc. induction l as [|a l IH]; intros L; [contradiction|].
  cbn [fold_left]. destruct Hin as [-> | Hin]; [|now apply IH].
  assert (T : truthy (service (state (service_step text L s))) = true).
  { rewrite service_step_service, Hc. cbn [andb].
    destruct (truthy (service (state L))) eqn:T; [exact T | exact Hs]. }
  now rewrite service_steps_filled.
Qed.

Lemma service_steps_reachable text (l : list string) :
  (forall s, In s l -> In s reachable_services) ->
  forall L,
    reachable (service (state L)) ->
    reachable (service (state (fold_left (service_step text) l L))).
Proof.
  induction l as [|a l IH]; intros Hl L R; [exact R|].
  cbn [fold_left]. apply IH; [intros s Hs; apply Hl; now right|].
  rewrite service_step_service. destruct (_ && _); [|exact R].
  apply Hl. now left.
Qed.

(** The step for "head spa" never fires: a text with "head spa" has
    "spa", whose step comes earlier. *)
Lemma detect_service_reachable text L :
  reachable (service (state L)) ->
  reachable (service (state (detect_service text L))).
Proof.
  intros R.
  change (detect_service text L)
    with (fold_left (service_step text) ["hospital"; "doctor"; "travel"]
            (service_step text
               (fold_left (service_step text)
                  ["hotel"; "flight"; "appointment"; "spa"; "salon"] L)
               "head spa")).
  set (L5 := fold_left (service_step text)
               ["hotel"; "flight"; "appointment"; "spa"; "salon"] L).
  assert (R5 : reachable (service (state L5))).
  { apply service_steps_reachable; [|exact R].
    intros s Hs. unfold reachable_services. simpl in Hs |- *. tauto. }
  apply service_steps_reachable.
  { intros s Hs. unfold reachable_services. simpl in Hs |- *. tauto. }
  rewrite service_step_service.
  destruct (contains "head spa" text) eqn:C; [|exact R5].
  assert (T : truthy (service (state L5)) = true).
  { apply (@service_steps_hit text _ "spa"); [simpl; tauto | reflexivity|].
    exact (@contains_suffix "head " "spa" text C). }
  rewrite T. exact R5.
Qed.

Lemma fuzzy_time_service text items L :
  service (state (fuzzy_time text items L)) = service (state L).
Proof.
  induction items as [|[w r] items IH]; cbn [fuzzy_time]; [reflexivity|].
  destruct (contains w text); [reflexivity | exact IH].
Qed.

Lemma process_turn_reachable today msg L L' :
  process_turn today msg L = Ok L' ->
  reachable (service (state L)) -> reachable (service (state L')).
Proof.
  unfold process_turn.
  set (text := lower (content msg)).
  set (L1 := location_pattern text L).
  set (L2 := detect_delegation text L1).
  set (L3 := detect_intent text L2).
  set (L4 := detect_service text L3).
  set (L5 := refine_service text L4).
  destruct (detect_date today text L5) as [L6|e] eqn:E6; cbn [bind];
    [|discriminate].
  destruct (detect_time text L6) as [L7|e] eqn:E7; cbn [bind];
    [|discriminate].
  intros H R. apply Ok_inj in H. subst L'.
  assert (S3 : service (state L3) = service (state L)).
  { unfold L3, detect_intent, L2, detect_delegation, L1, location_pattern.
    each_branch. }
  assert (R4 : reachable (service (state L4))).
  { apply detect_service_reachable. now rewrite S3. }
  assert (R5 : reachable (service (state L5))).
  { unfold L5, refine_service.
    destruct (BookingsStore.opt_eqb _ _); [|exact R4].
    destruct (any_in _ text); [simpl; tauto|].
    destruct (any_in _ text); [simpl; tauto | exact R4]. }
  assert (S6 : service (state L6) = service (state L5)).
  { revert E6. unfold detect_date.
    destruct (negb _); [|intros H; apply Ok_inj in H; now subst].
    destruct (_parse_date today text); cbn [bind]; [|discriminate].
    destruct (truthy _); intros H; apply Ok_inj in H; now subst. }
  assert (S7 : service (state L7) = service (state L6)).
  { revert E7. unfold detect_time.
    destruct (negb _); [|intros H; apply Ok_inj in H; now subst].
    destruct (TimeUtils.normalize_time text); cbn [bind]; [|discriminate].
    destruct (truthy _); intros H; apply Ok_inj in H; subst L7;
      [reflexivity | apply fuzzy_time_service]. }
  assert (S8 : service (state (detect_city text L7)) = service (state L7)).
  { unfold detect_city.
    apply (@fold_left_same _ _ (fun M => service (state M))).
    intros M a. unfold city_step. each_branch. }
  now rewrite S8, S7, S6.
Qed.

Lemma run_turns_reachable today msgs L L' :
  run_turns today msgs L = Ok L' ->
  reachable (service (state L)) -> reachable (service (state L')).
Proof.
  revert L. induction msgs as [|msg msgs IH]; intros L; simpl.
  - intros E. apply Ok_inj in E. now subst.
  - destruct (process_turn today msg L) as [L1|e] eqn:E; cbn [bind];
      [|discriminate].
    intros E' R. apply (IH _ E').
    exact (@process_turn_reachable today msg L L1 E R).
Qed.

Lemma delegation_defaults_reachable today db L :
  reachable (service (state L)) ->
  reachable (service (state (delegation_defaults today db L))).
Proof.
  intros R. unfold delegation_defaults.
  destruct (delegated (state L)); [|exact R].
  set (L1 := default_service L).
  assert (R1 : reachable (service (state L1))).
  { unfold L1, default_service. destruct (negb _); [simpl; tauto | exact R]. }
  set (L2 := default_date (Dates.isoformat today) L1).
  assert (S2 : service (state L2) = service (state L1)).
  { unfold L2, default_date. now destruct (negb _). }
  set (L3 := default_time db L2).
  assert (S3 : service (state L3) = service (state L2)).
  { unfold L3, default_time. destruct (negb _); [|reflexivity].
    destruct (service (state L2)) as [[|c r]|] eqn:Sv;
      try (cbn [static_time explain set_confidence with_state state
                service set_time]; exact Sv).
    destruct (SlotEngine.find_next_available db _ _ None) as [[[? ?]|]|];
      cbn [bind static_time explain set_confidence with_state state
           service set_time]; exact Sv. }
  assert (S4 : service (state (default_location L3)) = service (state L3)).
  { unfold default_location. destruct (negb _); [|reflexivity].
    destruct (explicit_location L3) as [[|c r]|]; reflexivity. }
  now rewrite S4, S3, S2.
Qed.

(** X20: no conversation ends with the service "head spa", although
    it is one of [SERVICES]: a text that names it names "spa", which
    is tried first.  The service of a returned state is absent or one
    of hotel, flight, appointment, spa, salon, hospital, doctor,
    travel, facial and dental. *)
Theorem head_spa_is_never_extracted today db msgs final :
  extract_booking_state today db msgs = Ok final ->
  reachable (service (bs_state final))
  /\ service (bs_state final) <> Some "head spa".
Proof.
  unfold extract_booking_state.
  destruct (run_turns today msgs initial) as [L|e] eqn:H; cbn [bind];
    [|discriminate].
  intros E. apply Ok_inj in E. subst final. cbn [attach bs_state].
  assert (R : reachable (service (state (delegation_defaults today db L)))).
  { apply delegation_defaults_reachable.
    apply (@run_turns_reachable today msgs initial L H). exact I. }
  split; [exact R|].
  intros E. rewrite E in R. simpl in R.
  repeat (destruct R as [R | R]; [discriminate|]). contradiction.
Qed.

(** A request for a head spa is read as one for a spa. *)
Lemma head_spa_is_never_extracted_witness :
  exists final,
    extract_booking_state a_day (BookingsStore.Online [])
      [user "a head spa tomorrow at 2 pm"] = Ok final
    /\ service (bs_state final) = Some "spa"
    /\ service (bs_state final) <> Some "head spa".
Proof.
  eexists. split; [vm_compute; reflexivity|]. split; [reflexivity|].
  apply (@head_spa_is_never_extracted a_day (BookingsStore.Online [])
           [user "a head spa tomorrow at 2 pm"]).
  vm_compute. reflexivity.
Defined.

End ExtractionMoreFacts.

(* ===================================================================== *)
(** * Further properties of the score *)
(* ===================================================================== *)

From Stdlib Require Import Lqa.

Section ScoreMoreFacts.
Import PyStr PyNum BookingLogic Explainability ScoreLaws.
Local Open Scope Q_scope.

Lemma Qcompare_cases (a b : Q) :
  (Qcompare a b = Lt /\ a < b) \/ (Qcompare a b = Eq /\ a == b)
  \/ (Qcompare a b = Gt /\ b < a).
Proof.
  destruct (Qcompare a b) eqn:E.
  - right. left. split; [reflexivity|]. now apply Qeq_alt.
  - left. split; [reflexivity|]. now apply Qlt_alt.
  - right. right. split; [reflexivity|]. now apply Qgt_alt.
Qed.




Lemma round_half_even_Z (n : Z) : round_half_even (inject_Z n) = n.
Proof.
  unfold round_half_even. rewrite Qfloor_Z.
  destruct (Qcompare_cases (inject_Z n - inject_Z n) (1 # 2))
    as [[-> A] | [[-> A] | [-> A]]]; [reflexivity | exfalso; lra
                                     | exfalso; lra].
Qed.













End ScoreMoreFacts.

(* ===================================================================== *)
(** * Further properties of the prices *)
(* ===================================================================== *)

Section PricingMoreFacts.
Import PyStr PyNum Pricing PricingLaws.
Local Open Scope Q_scope.

(** X23: the exchange rate is fixed by the first lookup: whatever
    [_get_rate] returns is stored in the cache, and every later lookup
    returns that same rate and changes nothing, whether or not a key
    is configured then and whatever the remote service would answer.
    In particular a first lookup that fails keeps the rate at 82.0. *)
Theorem exchange_rate_is_pinned (env : FxEnv) :
  let rate := fst (_get_rate env) in
  let env' := snd (_get_rate env) in
  cache env' = Some rate
  /\ (forall key live,
        _get_rate (later env' key live) = (rate, later env' key live))
  /\ (cache env = None -> live_rate env = None -> rate = 82.0).
Proof.
  cbv zeta. unfold _get_rate, later.
  destruct (cache env) as [r|] eqn:C.
  - cbn [fst snd]. rewrite C. repeat split; congruence.
  - destruct (truthy (api_key env)); [|repeat split].
    destruct (live_rate env) as [r|]; [|repeat split].
    destruct (negb (Qeq_bool r 0)); repeat split; discriminate.
Qed.


Lemma tier_discount_range (c : Q) : 0 <= tier_discount c <= 15.
Proof.
  unfold tier_discount.
  destruct (Qle_bool 90 c); [split; unfold Qle; simpl; lia|].
  destruct (Qle_bool 75 c); [split; unfold Qle; simpl; lia|].
  destruct (Qle_bool 50 c); split; unfold Qle; simpl; lia.
Qed.




Lemma round2_int (k : Z) : round2 (inject_Z k) == inject_Z k.
Proof.
  unfold round2.
  rewrite (@round_half_even_comp (inject_Z k * 100) (inject_Z (k * 100)))
    by (rewrite inject_Z_mult; reflexivity).
  rewrite round_half_even_Z. unfold Qeq, inject_Z. simpl. lia.
Qed.

Lemma booking_confidence_value (messages : list BookingLogic.Message) :
  App.booking_confidence messages
  == inject_Z (100 - 2 * Z.of_nat (List.length messages)).
Proof.
  unfold App.booking_confidence.
  rewrite (@round2_comp (100 - len messages * 2)
             (inject_Z (100 - 2 * Z.of_nat (List.length messages)))).
  - apply round2_int.
  - unfold len, Z.sub. rewrite inject_Z_plus, inject_Z_opp, inject_Z_mult.
    change (inject_Z 100) with 100. change (inject_Z 2) with 2. ring.
Qed.

(** X25: priced with the confidence the application computes for a
    new booking, the discount depends on the number of turns of the
    conversation alone: 15 percent up to 5 turns, 10 up to 12, 5 up to
    25 and none beyond, plus the 5 points of the gold tier. *)
Theorem discount_falls_with_turns
    (env : FxEnv) (messages : list BookingLogic.Message) (service : string)
    (meta : option Meta) (location : option string) :
  discount_of
    (calculate_price env service (App.booking_confidence messages)
       meta location)
  = (if BookingsStore.opt_eqb (meta_get meta "loyalty_tier") (Some "gold")
     then discount_by_turns (List.length messages) + 5.0
     else discount_by_turns (List.length messages)).
Proof.
  assert (T : tier_discount (App.booking_confidence messages)
              = discount_by_turns (List.length messages)).
  { pose proof (booking_confidence_value messages) as V.
    set (c := App.booking_confidence messages) in *.
    set (n := List.length messages) in *.
    assert (Le : forall k : Z,
               Qle_bool (inject_Z k) c = (k <=? 100 - 2 * Z.of_nat n)%Z).
    { intros k. apply eq_true_iff_eq.
      rewrite Qle_bool_iff, V, <- Zle_Qle, Z.leb_le. reflexivity. }
    unfold tier_discount, discount_by_turns.
    change 90 with (inject_Z 90). change 75 with (inject_Z 75).
    change 50 with (inject_Z 50). rewrite !Le.
    destruct (Nat.leb_spec n 5), (Nat.leb_spec n 12), (Nat.leb_spec n 25);
      destruct (Z.leb_spec 90 (100 - 2 * Z.of_nat n));
      destruct (Z.leb_spec 75 (100 - 2 * Z.of_nat n));
      destruct (Z.leb_spec 50 (100 - 2 * Z.of_nat n));
      try reflexivity; lia. }
  unfold calculate_price, discount_of. cbv zeta. rewrite T.
  destruct (String.eqb _ "INR"); [|reflexivity].
  destruct (_get_rate env). reflexivity.
Qed.

End PricingMoreFacts.

(* ===================================================================== *)
(** * Where the parsers raise *)
(* ===================================================================== *)

Section ErrorFacts.
Import PyStr Re TimeUtils BookingLogic Spec Formats ExtractionLaws.
Local Open Scope exc_scope.

Lemma all_ascii_In (c : ascii) : In c all_ascii.
Proof.
  unfold all_ascii. apply in_map_iff. exists (nat_of_ascii c).
  split; [apply ascii_nat_embedding|].
  apply in_seq. pose proof (nat_ascii_bounded c). lia.
Qed.

(** What holds of two characters by enumeration holds of any two. *)
Lemma two_digits_bound (p1 p2 : ascii -> bool) (bound : N) :
  forallb
    (fun c1 =>
       forallb
         (fun c2 =>
            if p1 c1 && p2 c2
            then (int_of_digits (String c1 (String c2 "")) <=? bound)%N
            else true)
         all_ascii)
    all_ascii = true ->
  forall c1 c2,
    p1 c1 = true -> p2 c2 = true ->
    (int_of_digits (String c1 (String c2 "")) <= bound)%N.
Proof.
  intros All c1 c2 H1 H2.
  rewrite forallb_forall in All.
  pose proof (All c1 (all_ascii_In c1)) as A. rewrite forallb_forall in A.
  pose proof (A c2 (all_ascii_In c2)) as B. rewrite H1, H2 in B.
  now apply N.leb_le.
Qed.

Lemma one_digit_bound (c : ascii) :
  is_digit c = true -> (int_of_digits (String c "") <= 9)%N.
Proof.
  intros H.
  assert (All : forallb
                  (fun c => if is_digit c
                            then (int_of_digits (String c "") <=? 9)%N
                            else true) all_ascii = true)
    by (vm_compute; reflexivity).
  rewrite forallb_forall in All.
  pose proof (All c (all_ascii_In c)) as A. rewrite H in A.
  now apply N.leb_le.
Qed.

Lemma taken1 (c : ascii) (s : string) :
  substring 0 (String.length (String c s) - String.length s) (String c s)
  = String c "".
Proof.
  cbn [String.length].
  replace (S (String.length s) - String.length s)%nat with 1%nat by lia.
  cbn. now destruct s.
Qed.

Lemma taken2 (c d : ascii) (s : string) :
  substring 0 (String.length (String c (String d s)) - String.length s)
    (String c (String d s))
  = String c (String d "").
Proof.
  cbn [String.length].
  replace (S (S (String.length s)) - String.length s)%nat with 2%nat by lia.
  cbn. now destruct s.
Qed.

Lemma Some_pair_inj {A B : Type} (a a' : A) (b b' : B) :
  Some (a, b) = Some (a', b') -> a = a' /\ b = b'.
Proof. intros H. injection H as -> ->. auto. Qed.

(** A match of the 24-hour pattern is a time of the day. *)
Lemma re_24h_on_the_clock prev s cs rest :
  run re_24h prev s [] accept = Some (cs, rest) ->
  (int_of_digits (group_or 1 cs "") <= 23
   /\ int_of_digits (group_or 2 cs "") <= 59)%N.
Proof.
  assert (H19 := @two_digits_bound
                   (fun c => in_range (code "0") (code "1") c) is_digit 23
                   ltac:(vm_compute; reflexivity)).
  assert (H23 := @two_digits_bound
                   (fun c => Ascii.eqb "2" c)
                   (fun c => in_range (code "0") (code "3") c) 23
                   ltac:(vm_compute; reflexivity)).
  assert (H59 := @two_digits_bound
                   (fun c => in_range (code "0") (code "5") c) is_digit 59
                   ltac:(vm_compute; reflexivity)).
  cbv beta in H19, H23, H59.
  assert (H9 : forall c, is_digit c = true ->
                         (int_of_digits (String c "") <= 23)%N).
  { intros c D. pose proof (one_digit_bound c D). lia. }
  unfold re_24h, Seq, between, digit.
  destruct s as [|c1 [|c2 [|c3 [|c4 [|c5 s5]]]]];
    cbn [run or_else accept head]; intros H;
    repeat match type of H with
           | context [if ?b then _ else _] =>
               destruct b eqn:?; cbn [or_else] in H
           end;
    try discriminate;
    apply Some_pair_inj in H; destruct H as [E _]; subst cs;
    rewrite ?taken1, ?taken2;
    cbn [group_or group Nat.eqb];
    split; auto.
Qed.

Lemma search_24h_on_the_clock (s : string) :
  forall prev cs,
    search_from re_24h prev s = Some cs ->
    (int_of_digits (group_or 1 cs "") <= 23
     /\ int_of_digits (group_or 2 cs "") <= 59)%N.
Proof.
  induction s as [|c s IH]; intros prev cs; cbn [search_from].
  - destruct (run re_24h prev "" [] accept) as [[cs' rest]|] eqn:R;
      [|discriminate].
    intros E. injection E as <-. exact (re_24h_on_the_clock _ _ R).
  - destruct (run re_24h prev (String c s) [] accept) as [[cs' rest]|] eqn:R.
    + intros E. injection E as <-. exact (re_24h_on_the_clock _ _ R).
    + apply IH.
Qed.

(** X26: on ASCII text, [normalize_time] raises exactly when the am/pm
    pattern is found in the text and the time it finds is off the
    clock: minutes of 60 or more, an hour of 13 or more before "pm",
    or an hour of 24 or more before "am".  A text in which only the
    24-hour pattern is found never raises, and hours 13 to 23 before
    "am" are accepted. *)
Theorem normalize_time_raises_iff (text : string) :
  ascii_text text = true ->
  (exists e, normalize_time text = Raise e)
  <-> (exists m, search re_12h (lower text) = Some m /\ off_the_clock m).
Proof.
  intros _. unfold normalize_time.
  destruct (negb (nonempty text)) eqn:Empty.
  { split; [intros [e H]; discriminate|].
    intros (m & Hs & _). destruct text; [|discriminate].
    vm_compute in Hs. discriminate. }
  cbv zeta. destruct (search re_12h (lower text)) as [m|] eqn:S12.
  - assert (R : (exists m0, Some m = Some m0 /\ off_the_clock m0)
                <-> off_the_clock m).
    { split; [|eauto]. intros (m0 & E & O). injection E as <-. exact O. }
    rewrite R. clear R. unfold off_the_clock. cbv zeta.
    set (h0 := int_of_digits (group_or 1 m "")).
    set (mi := int_of_digits match group 2 m with
                             | Some (String c r) => String c r
                             | _ => "0"
                             end).
    set (p := lower (group_or 3 m "")).
    unfold make_time.
    destruct (p =? "pm")%string eqn:Epm.
    + apply String.eqb_eq in Epm. rewrite Epm.
      change ("pm" =? "am")%string with false. cbn [andb].
      destruct (N.eqb_spec h0 12) as [E12 | N12]; cbn [negb];
        match goal with
        | |- context [(23 <? ?h)%N] => destruct (N.ltb_spec 23 h)
        end;
        try destruct (N.ltb_spec 59 mi); cbn [bind];
        split; intros K; try (destruct K as [e K]; discriminate);
        try (destruct K; exfalso; lia); eauto; lia.
    + cbn [andb].
      destruct (p =? "am")%string; cbn [andb];
        destruct (N.eqb_spec h0 12) as [E12 | N12];
        match goal with
        | |- context [(23 <? ?h)%N] => destruct (N.ltb_spec 23 h)
        end;
        try destruct (N.ltb_spec 59 mi); cbn [bind];
        split; intros K; try (destruct K as [e K]; discriminate);
        try (destruct K; exfalso; lia); eauto; lia.
  - split; [|intros (m & C & _); discriminate].
    intros [e H]. exfalso.
    destruct (search re_24h (lower text)) as [m2|] eqn:S24; [|discriminate].
    destruct (@search_24h_on_the_clock (lower text) None m2 S24) as [Hh Hm].
    unfold make_time in H.
    destruct (N.ltb_spec 23 (int_of_digits (group_or 1 m2 ""))); [lia|].
    destruct (N.ltb_spec 59 (int_of_digits (group_or 2 m2 ""))); [lia|].
    discriminate.
Qed.

(** The text "at 13pm": the pattern is found and the hour is off the
    clock. *)
Lemma normalize_time_raises_iff_witness :
  (exists e, normalize_time "at 13pm" = Raise e)
  /\ (exists m, search re_12h (lower "at 13pm") = Some m /\ off_the_clock m).
Proof.
  assert (R : exists e, normalize_time "at 13pm" = Raise e)
    by (eexists; vm_compute; reflexivity).
  split; [exact R|].
  apply (proj1 (@normalize_time_raises_iff "at 13pm" eq_refl)). exact R.
Defined.

Lemma detect_date_returns today text L :
  (Dates.year today < 9999)%N -> exists L', detect_date today text L = Ok L'.
Proof.
  intros Hy. unfold detect_date. destruct (negb _); [|eauto].
  destruct (_parse_date_returns today text Hy) as [r ->]. cbn [bind].
  destruct (truthy r); eauto.
Qed.

Lemma process_turn_raises today msg L e :
  (Dates.year today < 9999)%N ->
  process_turn today msg L = Raise e ->
  normalize_time (heard msg) = Raise e.
Proof.
  intros Hy. unfold process_turn, heard.
  set (text := lower (content msg)).
  set (L5 := refine_service text _).
  destruct (detect_date_returns today text L5 Hy) as [L6 ->]. cbn [bind].
  unfold detect_time. destruct (negb _); [|discriminate].
  destruct (normalize_time text) as [tv|e']; cbn [bind].
  - destruct (truthy tv); discriminate.
  - intros H. injection H as ->. reflexivity.
Qed.

Lemma run_turns_raises today msgs e :
  (Dates.year today < 9999)%N ->
  forall L,
    run_turns today msgs L = Raise e ->
    exists msg, In msg msgs /\ normalize_time (heard msg) = Raise e.
Proof.
  intros Hy. induction msgs as [|msg msgs IH]; intros L; cbn [run_turns];
    [discriminate|].
  destruct (process_turn today msg L) as [L1|e'] eqn:P; cbn [bind].
  - intros H. destruct (IH _ H) as (m & Hin & Hm). exists m.
    split; [now right | exact Hm].
  - intros H. injection H as ->. exists msg.
    split; [now left | exact (@process_turn_raises today msg L e Hy P)].
Qed.

(** X27: unless the reference day lies in the year 9999, an error of
    the extraction is always the error [normalize_time] raises on the
    text of one of the turns: nothing else in the extraction raises. *)
Theorem extraction_raises_only_on_times today db msgs e :
  (Dates.year today < 9999)%N ->
  extract_booking_state today db msgs = Raise e ->
  exists msg, In msg msgs /\ normalize_time (heard msg) = Raise e.
Proof.
  intros Hy. unfold extract_booking_state.
  destruct (run_turns today msgs initial) as [L|e'] eqn:H; cbn [bind];
    [discriminate|].
  intros E. injection E as ->.
  exact (@run_turns_raises today msgs e Hy initial H).
Qed.

(** A conversation whose second turn names the time "13pm". *)
Lemma extraction_raises_only_on_times_witness :
  exists msg,
    In msg [user "a spa tomorrow"; user "at 13pm please"]
    /\ normalize_time (heard msg)
       = Raise (ValueError "hour must be in 0..23").
Proof.
  apply (@extraction_raises_only_on_times a_day (BookingsStore.Online [])
           [user "a spa tomorrow"; user "at 13pm please"]).
  - vm_compute. reflexivity.
  - vm_compute. reflexivity.
Defined.

End ErrorFacts.

(* ===================================================================== *)
(** * The two backends of the store *)
(* ===================================================================== *)

Section BackendFacts.
Import PyStr BookingsStore.

Lemma opt_eqb_sym (a b : option string) : opt_eqb a b = opt_eqb b a.
Proof.
  destruct a as [x|], b as [y|]; cbn [opt_eqb]; try reflexivity.
  apply String.eqb_sym.
Qed.

Lemma skipped_clause (filter column : option string) :
  JsonStore.skipped filter column = negb (clause filter column).
Proof.
  unfold JsonStore.skipped, clause. rewrite (opt_eqb_sym column filter).
  destruct (truthy filter); reflexivity.
Qed.

Lemma filter_all {A : Type} (p : A -> bool) (l : list A) :
  List.length (filter p l) = List.length l -> filter p l = l.
Proof.
  induction l as [|a l IH]; cbn [filter]; [reflexivity|].
  destruct (p a); cbn [Datatypes.length]; intros H.
  - f_equal. apply IH. lia.
  - pose proof (filter_length_le p l). lia.
Qed.

(** X28: on the same entries the JSON fallback of the store answers as
    the SQLite backend does: [find_bookings] selects the same entries
    in the same order, [remove_booking] gives the same answer and
    leaves the same entries, and [add_booking] with an unused id
    returns and appends the same entry. *)
Theorem json_fallback_agrees_with_sqlite (rows : list Booking) :
  (forall fs fd ft,
     find_bookings (Online rows) fs fd ft
     = Ok (JsonStore.find_bookings rows fs fd ft))
  /\ (forall booking_id,
        remove_booking (Online rows) booking_id
        = (Ok (fst (JsonStore.remove_booking rows booking_id)),
           Online (snd (JsonStore.remove_booking rows booking_id))))
  /\ (forall booking_id now booking,
        existsb (has_id booking_id) rows = false ->
        add_booking (Online rows) booking_id now booking
        = (Ok (fst (JsonStore.add_booking rows booking_id now booking)),
           Online (snd (JsonStore.add_booking rows booking_id now booking)))).
Proof.
  split; [|split].
  - intros fs fd ft. cbn [find_bookings]. f_equal.
    unfold JsonStore.find_bookings. apply filter_ext. intros b.
    unfold selected. rewrite !skipped_clause.
    destruct (clause fs (service b)), (clause fd (date b)),
      (clause ft (time b)); reflexivity.
  - intros i. unfold remove_booking, JsonStore.remove_booking, has_id.
    cbv zeta.
    destruct (Nat.eqb_spec
                (List.length
                   (filter (fun b => negb (String.eqb (id b) i)) rows))
                (List.length rows)) as [E | N]; cbn [fst snd negb].
    + now rewrite (filter_all _ _ E).
    + reflexivity.
  - intros i now nb Fresh. unfold add_booking, JsonStore.add_booking.
    rewrite Fresh. reflexivity.
Qed.

End BackendFacts.
